(** * meshio: the Exodus II codec and the format dispatcher

    A shallow embedding of [exodus_io.py] (the registry of element
    types, [read] and [write]) and of [meshio/helpers.py] (format
    resolution by file extension, the dispatching [read] and [write]),
    followed by the properties of the specification stated over that
    embedding and by further properties of the two modules.

    Conventions.
    - A Python [dict] is an association list in insertion order with
      unique keys: [dict_set] overwrites in place or appends, which is
      what the iteration order of the source's loops depends on.
    - A raised exception is the [Raise] constructor of [result].
    - Identifiers (variable names, element types, dtype names, format
      tags, file names) are [string]s.  Names that the codec encodes
      character by character (point-data fields, node and side sets)
      are sequences of Unicode code points, [pystr].
    - Integer arrays carry their numpy dtype and wrap around as numpy
      does.  Floating-point payloads are opaque: the codec only moves
      them, so they are values of a type parameter. *)

From Stdlib Require Import String Ascii ZArith Lia Bool Arith List.
From Stdlib Require DecimalString DecimalNat.
Import ListNotations.
Open Scope string_scope.
Open Scope list_scope.

Set Implicit Arguments.

(** ** Exceptions *)

Inductive error : Type :=
| UnknownFormat (ext : string)
    (* helpers.py:95  assert out is not None, "... extension '{ext}'." *)
| UnsupportedFormat (file_format filename : string)
    (* helpers.py:149 and helpers.py:220 *)
| MalformedCellBlock
    (* helpers.py:187 assert value.shape[1] == num_nodes_per_cell[key] *)
| UnknownElementType (tag : string)
    (* KeyError of a registry dict *)
| UnsupportedDtype (name : string)
    (* KeyError of numpy_to_exodus_dtype *)
| MissingKey (name : string)
    (* KeyError / AttributeError of the container itself *)
| UnicodeError
    (* str.encode / bytes.decode failure *)
| StorageError
    (* native error of the array store or of numpy: shapes that do not
       agree, an index outside a fixed dimension *)
| IllTyped.
    (* a container variable whose rank or kind is not the one the
       Exodus layout gives to its name; such containers are outside
       the model *)

Inductive result (A : Type) : Type :=
| Ok (a : A)
| Raise (e : error).

Arguments Ok {A} a.
Arguments Raise {A} e.

Definition bind {A B} (r : result A) (k : A -> result B) : result B :=
  match r with
  | Ok a => k a
  | Raise e => Raise e
  end.

Notation "x <- r ;; k" := (bind r (fun x => k))
  (at level 61, r at next level, right associativity).
Notation "' p <- r ;; k" := (bind r (fun p => k))
  (at level 61, p pattern, r at next level, right associativity).

(** ** Python dictionaries *)

Class Key (K : Type) : Type := {
  keqb : K -> K -> bool;
  keqb_eq : forall a b, keqb a b = true <-> a = b
}.

#[export] Instance string_Key : Key string :=
  {| keqb := String.eqb; keqb_eq := String.eqb_eq |}.

(** A Python [str] as the sequence of its code points. *)
Definition pystr : Type := list Z.

Fixpoint pystr_eqb (a b : pystr) : bool :=
  match a, b with
  | [], [] => true
  | x :: a', y :: b' => Z.eqb x y && pystr_eqb a' b'
  | _, _ => false
  end.

Lemma pystr_eqb_eq : forall a b, pystr_eqb a b = true <-> a = b.
Proof.
  induction a as [|x a IH]; destruct b as [|y b]; simpl;
    try (split; [discriminate | discriminate]); try tauto.
  rewrite andb_true_iff, Z.eqb_eq, IH.
  split; [intros [-> ->]; reflexivity | intros E; inversion E; auto].
Qed.

#[export] Instance pystr_Key : Key pystr :=
  {| keqb := pystr_eqb; keqb_eq := pystr_eqb_eq |}.

Definition dict (K V : Type) : Type := list (K * V).

Section Dict.
Context {K V : Type} `{Key K}.

Fixpoint dict_get (k : K) (d : dict K V) : option V :=
  match d with
  | [] => None
  | (k', v) :: d' => if keqb k k' then Some v else dict_get k d'
  end.

(** [d[k] = v]: an existing key keeps its position. *)
Fixpoint dict_set (k : K) (v : V) (d : dict K V) : dict K V :=
  match d with
  | [] => [(k, v)]
  | (k', v') :: d' =>
      if keqb k k' then (k', v) :: d' else (k', v') :: dict_set k v d'
  end.

Definition dict_mem (k : K) (d : dict K V) : bool :=
  match dict_get k d with Some _ => true | None => false end.

Definition keys (d : dict K V) : list K := map fst d.
Definition values (d : dict K V) : list V := map snd d.

(** [{k: v for k, v in pairs}] *)
Definition dict_of_pairs (ps : list (K * V)) : dict K V :=
  fold_left (fun d kv => dict_set (fst kv) (snd kv) d) ps [].
End Dict.

(** [zip] stops at the shorter argument. *)
Definition zip {A B} (xs : list A) (ys : list B) : list (A * B) :=
  combine xs ys.

(** [enumerate] *)
Fixpoint enumerate_from {A} (k : nat) (xs : list A) : list (nat * A) :=
  match xs with
  | [] => []
  | x :: xs' => (k, x) :: enumerate_from (S k) xs'
  end.

Definition enumerate {A} (xs : list A) : list (nat * A) := enumerate_from 0 xs.

(** ["{}".format(n)] for a non-negative integer. *)
Definition format_nat (n : nat) : string :=
  DecimalString.NilEmpty.string_of_uint (Nat.to_uint n).

(** [str.upper] on text of ASCII characters: the letters a to z go to
    A to Z and every other character stays.  Python also maps letters
    outside ASCII, some of them to ASCII letters (the dotless i,
    U+0131, goes to I); the characters here are bytes, and [upper]
    leaves those outside ASCII as they are.  On the strings that
    [is_ascii] accepts, [upper] is [str.upper]. *)
Definition upper_ascii (c : ascii) : ascii :=
  let n := nat_of_ascii c in
  if (97 <=? n)%nat && (n <=? 122)%nat then ascii_of_nat (n - 32) else c.

Fixpoint upper (s : string) : string :=
  match s with
  | EmptyString => EmptyString
  | String c s' => String (upper_ascii c) (upper s')
  end.

(** [str.isascii] *)
Fixpoint is_ascii (s : string) : bool :=
  match s with
  | EmptyString => true
  | String c s' => (nat_of_ascii c <? 128)%nat && is_ascii s'
  end.

(** ** numpy: dtypes and integer arrays *)

(** The ten dtypes that [numpy_to_exodus_dtype] knows. *)
Inductive dtype : Type :=
| float32 | float64
| int8 | int16 | int32 | int64
| uint8 | uint16 | uint32 | uint64.

Definition dtype_eqb (a b : dtype) : bool :=
  match a, b with
  | float32, float32 | float64, float64
  | int8, int8 | int16, int16 | int32, int32 | int64, int64
  | uint8, uint8 | uint16, uint16 | uint32, uint32 | uint64, uint64 => true
  | _, _ => false
  end.

(** [dtype.name] *)
Definition dtype_name (d : dtype) : string :=
  match d with
  | float32 => "float32" | float64 => "float64"
  | int8 => "int8" | int16 => "int16" | int32 => "int32" | int64 => "int64"
  | uint8 => "uint8" | uint16 => "uint16" | uint32 => "uint32"
  | uint64 => "uint64"
  end.

Definition numpy_to_exodus_dtype : dict string string :=
  [ ("float32", "f4"); ("float64", "f8");
    ("int8", "i1"); ("int16", "i2"); ("int32", "i4"); ("int64", "i8");
    ("uint8", "u1"); ("uint16", "u2"); ("uint32", "u4"); ("uint64", "u8") ].

(** [numpy_to_exodus_dtype[name]] *)
Definition exodus_dtype (name : string) : result string :=
  match dict_get name numpy_to_exodus_dtype with
  | Some code => Ok code
  | None => Raise (UnsupportedDtype name)
  end.

(** The type the array store gives to a variable created with a
    datatype code. *)
Definition dtype_of_code (code : string) : option dtype :=
  if code =? "f4" then Some float32 else
  if code =? "f8" then Some float64 else
  if code =? "i1" then Some int8 else
  if code =? "i2" then Some int16 else
  if code =? "i4" then Some int32 else
  if code =? "i8" then Some int64 else
  if code =? "u1" then Some uint8 else
  if code =? "u2" then Some uint16 else
  if code =? "u4" then Some uint32 else
  if code =? "u8" then Some uint64 else None.

(** Signedness and width of the integer dtypes. *)
Definition int_kind (d : dtype) : option (bool * Z) :=
  match d with
  | int8 => Some (true, 8%Z) | int16 => Some (true, 16%Z)
  | int32 => Some (true, 32%Z) | int64 => Some (true, 64%Z)
  | uint8 => Some (false, 8%Z) | uint16 => Some (false, 16%Z)
  | uint32 => Some (false, 32%Z) | uint64 => Some (false, 64%Z)
  | float32 | float64 => None
  end.

(** Two's-complement wrap-around to [bits] bits. *)
Definition wrap (signed : bool) (bits : Z) (z : Z) : Z :=
  if signed
  then ((z + 2 ^ (bits - 1)) mod 2 ^ bits - 2 ^ (bits - 1))%Z
  else (z mod 2 ^ bits)%Z.

(** An integer rounded to a binary float of [p] significant bits, to
    nearest, ties to even.  Infinities are not modelled. *)
Definition round_float (p : Z) (z : Z) : Z :=
  let a := Z.abs z in
  if (a <? 2 ^ p)%Z then z
  else
    let e := (Z.log2 a - (p - 1))%Z in
    let q := (a / 2 ^ e)%Z in
    let r := (a mod 2 ^ e)%Z in
    let half := (2 ^ (e - 1))%Z in
    let q' := if (r <? half)%Z then q
              else if (half <? r)%Z then (q + 1)%Z
              else if Z.even q then q else (q + 1)%Z in
    (Z.sgn z * (q' * 2 ^ e))%Z.

(** The value an integer takes in an array of dtype [d]: what
    [astype], and arithmetic carried out in [d], leave of it. *)
Definition astype (d : dtype) (z : Z) : Z :=
  match int_kind d with
  | Some (signed, bits) => wrap signed bits z
  | None => match d with
            | float32 => round_float 24 z
            | _ => round_float 53 z
            end
  end.

(** Conversion of an element of an array of dtype [src] on assignment
    into an array or a variable of dtype [dst]. *)
Definition convert (src dst : dtype) (z : Z) : Z :=
  if dtype_eqb src dst then z else astype dst z.

(** A sufficient test for [z] to be a value of dtype [d]. *)
Definition representable (d : dtype) (z : Z) : bool :=
  match int_kind d with
  | Some (true, bits) => (- 2 ^ (bits - 1) <=? z)%Z && (z <? 2 ^ (bits - 1))%Z
  | Some (false, bits) => (0 <=? z)%Z && (z <? 2 ^ bits)%Z
  | None => match d with
            | float32 => (Z.abs z <? 2 ^ 24)%Z
            | _ => (Z.abs z <? 2 ^ 53)%Z
            end
  end.

(** [numpy.result_type] on the ten dtypes. *)
Definition result_type (a b : dtype) : dtype :=
  match int_kind a, int_kind b with
  | Some (sa, wa), Some (sb, wb) =>
      if Bool.eqb sa sb then (if (wa <? wb)%Z then b else a)
      else
        let '(s, ws, wu) := if sa then (a, wa, wb) else (b, wb, wa) in
        if (wu <? ws)%Z then s
        else if (wu =? 8)%Z then int16
        else if (wu =? 16)%Z then int32
        else if (wu =? 32)%Z then int64
        else float64
  | None, None =>
      match a, b with float32, float32 => float32 | _, _ => float64 end
  | None, Some (_, w) | Some (_, w), None =>
      match a, b with
      | float64, _ | _, float64 => float64
      | _, _ => if (w <=? 16)%Z then float32 else float64
      end
  end.

(** A one-dimensional integer array. *)
Record iarray1 : Type := IArray1 {
  i1_dtype : dtype;
  i1_items : list Z
}.

(** A two-dimensional integer array of shape [(length rows, ncols)]. *)
Record iarray2 : Type := IArray2 {
  i2_dtype : dtype;
  i2_ncols : nat;
  i2_rows : list (list Z)
}.

Definition wf_rows {A} (ncols : nat) (rows : list (list A)) : Prop :=
  Forall (fun r => length r = ncols) rows.

(** [a + k], computed in the dtype of [a]. *)
Definition iarray2_add (a : iarray2) (k : Z) : iarray2 :=
  IArray2 (i2_dtype a) (i2_ncols a)
          (map (map (fun z => astype (i2_dtype a) (z + k))) (i2_rows a)).

Definition iarray1_add (a : iarray1) (k : Z) : iarray1 :=
  IArray1 (i1_dtype a) (map (fun z => astype (i1_dtype a) (z + k)) (i1_items a)).

(** [a[:, j]] *)
Definition iarray2_column (a : iarray2) (j : nat) : result iarray1 :=
  if (j <? i2_ncols a)%nat
  then Ok (IArray1 (i2_dtype a) (map (fun r => nth j r 0%Z) (i2_rows a)))
  else Raise StorageError.

(** [numpy.vstack([a, b])] *)
Definition vstack (a b : iarray2) : result iarray2 :=
  if (i2_ncols a =? i2_ncols b)%nat
  then
    let d := result_type (i2_dtype a) (i2_dtype b) in
    Ok (IArray2 d (i2_ncols a)
                (map (map (convert (i2_dtype a) d)) (i2_rows a)
                 ++ map (map (convert (i2_dtype b) d)) (i2_rows b)))
  else Raise StorageError.

(** The transpose of a matrix of [ncols] columns given by its rows. *)
Fixpoint transpose {A} (ncols : nat) (rows : list (list A)) : list (list A) :=
  match ncols with
  | O => []
  | S n =>
      flat_map (fun r => match r with [] => [] | x :: _ => [x] end) rows
      :: transpose n (map (@tl A) rows)
  end.

(** A column of heads put before the rows of their tails. *)
Definition zip_cons {A} (xs : list A) (cols : list (list A)) : list (list A) :=
  map (fun xc => fst xc :: snd xc) (combine xs cols).

(** Broadcasting a one-dimensional value to length [n]. *)
Definition broadcast_to {A} (n : nat) (xs : list A) : result (list A) :=
  if (length xs =? n)%nat then Ok xs
  else match xs with
       | [x] => Ok (repeat x n)
       | _ => Raise StorageError
       end.

(** [xs[j] = x] inside a row that has a position [j]. *)
Fixpoint set_nth {A} (j : nat) (x : A) (xs : list A) : list A :=
  match j, xs with
  | _, [] => []
  | O, _ :: xs' => x :: xs'
  | S j', y :: xs' => y :: set_nth j' x xs'
  end.

(** ** UTF-8 *)

(** [chr(c).encode("utf-8")]; surrogates do not encode. *)
Definition utf8_encode_char (c : Z) : result (list Z) :=
  if (c <? 0)%Z then Raise UnicodeError
  else if (c <? 128)%Z then Ok [c]
  else if (c <? 2048)%Z then Ok [192 + c / 64; 128 + c mod 64]%Z
  else if (c <? 65536)%Z then
    if (55296 <=? c)%Z && (c <=? 57343)%Z then Raise UnicodeError
    else Ok [224 + c / 4096; 128 + (c / 64) mod 64; 128 + c mod 64]%Z
  else if (c <? 1114112)%Z then
    Ok [240 + c / 262144; 128 + (c / 4096) mod 64;
        128 + (c / 64) mod 64; 128 + c mod 64]%Z
  else Raise UnicodeError.

Definition is_cont (b : Z) : bool := (128 <=? b)%Z && (b <=? 191)%Z.

(** [bytes.decode("UTF-8")], strict: no overlong forms, no surrogates,
    nothing above U+10FFFF. *)
Fixpoint utf8_decode (bs : list Z) : result pystr :=
  match bs with
  | [] => Ok []
  | b0 :: t0 =>
      if (0 <=? b0)%Z && (b0 <? 128)%Z then
        rest <- utf8_decode t0 ;; Ok (b0 :: rest)
      else if (194 <=? b0)%Z && (b0 <=? 223)%Z then
        match t0 with
        | b1 :: t1 =>
            if is_cont b1 then
              rest <- utf8_decode t1 ;;
              Ok (((b0 - 192) * 64 + (b1 - 128))%Z :: rest)
            else Raise UnicodeError
        | _ => Raise UnicodeError
        end
      else if (224 <=? b0)%Z && (b0 <=? 239)%Z then
        match t0 with
        | b1 :: b2 :: t2 =>
            let c := ((b0 - 224) * 4096 + (b1 - 128) * 64 + (b2 - 128))%Z in
            if is_cont b1 && is_cont b2 && (2048 <=? c)%Z
               && negb ((55296 <=? c)%Z && (c <=? 57343)%Z) then
              rest <- utf8_decode t2 ;; Ok (c :: rest)
            else Raise UnicodeError
        | _ => Raise UnicodeError
        end
      else if (240 <=? b0)%Z && (b0 <=? 244)%Z then
        match t0 with
        | b1 :: b2 :: b3 :: t3 =>
            let c := ((b0 - 240) * 262144 + (b1 - 128) * 4096
                      + (b2 - 128) * 64 + (b3 - 128))%Z in
            if is_cont b1 && is_cont b2 && is_cont b3
               && (65536 <=? c)%Z && (c <? 1114112)%Z then
              rest <- utf8_decode t3 ;; Ok (c :: rest)
            else Raise UnicodeError
        | _ => Raise UnicodeError
        end
      else Raise UnicodeError
  end.

(** The byte that an "S1" cell keeps of a letter: the first one of its
    encoding. *)
Definition first_byte (c : Z) : Z :=
  match utf8_encode_char c with
  | Ok bytes => hd 0%Z bytes
  | Raise _ => 0%Z
  end.

(** ["abc"] as a Python string. *)
Definition pystr_of_string (s : string) : pystr :=
  map (fun c => Z.of_nat (nat_of_ascii c)) (list_ascii_of_string s).

(** A loop whose body may raise. *)
Fixpoint foldM {S X} (f : S -> X -> result S) (xs : list X) (s : S) : result S :=
  match xs with
  | [] => Ok s
  | x :: xs' => s' <- f s x ;; foldM f xs' s'
  end.

(** A comprehension whose element expression may raise. *)
Fixpoint mapM {X Y} (f : X -> result Y) (xs : list X) : result (list Y) :=
  match xs with
  | [] => Ok []
  | x :: xs' => y <- f x ;; ys <- mapM f xs' ;; Ok (y :: ys)
  end.

(** ** exodus_io.py *)

Module exodus_io.

(** *** The element-type registry *)

Definition exodus_to_meshio_type : dict string string :=
  [ ("BEAM", "line"); ("BEAM2", "line"); ("BEAM3", "line3"); ("BAR2", "line");
    ("SHELL", "quad"); ("SHELL4", "quad"); ("SHELL8", "quad8");
    ("SHELL9", "quad9"); ("QUAD", "quad"); ("QUAD4", "quad");
    ("QUAD5", "quad5"); ("QUAD8", "quad8"); ("QUAD9", "quad9");
    ("TRIANGLE", "triangle"); ("TRI3", "triangle"); ("TRI7", "triangle7");
    ("TRI6", "triangle6");
    ("HEX", "hexahedron"); ("HEXAHEDRON", "hexahedron"); ("HEX8", "hexahedron");
    ("HEX9", "hexahedron9"); ("HEX20", "hexahedron20"); ("HEX27", "hexahedron27");
    ("TETRA", "tetra"); ("TETRA4", "tetra4"); ("TETRA8", "tetra8");
    ("TETRA10", "tetra10"); ("TETRA14", "tetra14");
    ("PYRAMID", "pyramid"); ("WEDGE", "wedge") ].

(** [{v: k for k, v in d.items()}] *)
Definition invert {K V} `{Key V} (d : dict K V) : dict V K :=
  dict_of_pairs (map (fun kv => (snd kv, fst kv)) d).

Definition meshio_to_exodus_type : dict string string :=
  invert exodus_to_meshio_type.

(** The disk tag of a canonical type that the registry lists last. *)
Definition last_alias (c : string) : option string :=
  dict_get c (rev (map (fun kv => (snd kv, fst kv)) exodus_to_meshio_type)).

(** The lookup of [read]: [exodus_to_meshio_type[value.elem_type.upper()]]. *)
Definition to_canonical (disk_tag : string) : result string :=
  match dict_get (upper disk_tag) exodus_to_meshio_type with
  | Some c => Ok c
  | None => Raise (UnknownElementType (upper disk_tag))
  end.

(** The lookup of [write]: [meshio_to_exodus_type[key]]. *)
Definition to_disk (canonical_tag : string) : result string :=
  match dict_get canonical_tag meshio_to_exodus_type with
  | Some t => Ok t
  | None => Raise (UnknownElementType canonical_tag)
  end.


(** *** The container

    The netCDF dataset as the codec sees it: global attributes,
    dimensions and variables, each in creation order.  A variable
    carries the names of its dimensions, its [elem_type] attribute if
    it has one, and its data.  Integer data is kept apart from other
    numeric data because the codec computes on the former ([+ 1],
    [- 1]) and only moves the latter. *)

Inductive attr : Type :=
| AText (s : string)
| AInt (z : Z)
| AFloat32 (decimal : string).

Section Codec.
(** Numeric payload: point coordinates and point data. *)
Variable F : Type.
(** [0.0] *)
Variable fzero : F.
(** The value that an assignment into an array or a variable of a
    dtype stores: numpy's and the array store's conversion. *)
Variable cast : dtype -> F -> F.
(** Whether the array store raises on an index outside a fixed
    dimension ([true]) or drops the assignment ([false]). *)
Variable strict_bounds : bool.

(** One-dimensional numeric array, with its [dtype.name]. *)
Record farray1 : Type := FArray1 {
  f1_dtype : string;
  f1_items : list F
}.

(** Two-dimensional numeric array of shape [(length rows, ncols)]. *)
Record farray2 : Type := FArray2 {
  f2_dtype : string;
  f2_ncols : nat;
  f2_rows : list (list F)
}.

Inductive vdata : Type :=
| Idx1 (d : dtype) (items : list Z)
| Idx2 (d : dtype) (ncols : nat) (rows : list (list Z))
| Num1 (d : dtype) (items : list F)
| Num2 (d : dtype) (ncols : nat) (rows : list (list F))
| Num3 (d : dtype) (steps : list (list (list F)))
    (* shape (time steps, fields, nodes) *)
| Char2 (ncols : nat) (rows : list (list Z)).
    (* "S1" cells, one byte each; 0 is the fill value *)

Record variable : Type := Var {
  v_dims : list string;
  v_elem_type : option string;
  v_data : vdata
}.

Record container : Type := Container {
  c_attrs : dict string attr;
  c_dims : dict string nat;
  c_vars : dict string variable
}.

(** **** read *)

(** What [read] returns. *)
Definition cell_data_t : Type := dict string (dict pystr farray1).
Definition field_data_t : Type := dict pystr farray1.
Definition mesh_tuple : Type :=
  (farray2 * dict string iarray2 * dict pystr farray1
   * cell_data_t * field_data_t)%type.

Definition points_of (t : mesh_tuple) : farray2 := fst (fst (fst (fst t))).
Definition cells_of (t : mesh_tuple) : dict string iarray2 :=
  snd (fst (fst (fst t))).
Definition point_data_of (t : mesh_tuple) : dict pystr farray1 :=
  snd (fst (fst t)).
Definition cell_data_of (t : mesh_tuple) : cell_data_t := snd (fst t).
Definition field_data_of (t : mesh_tuple) : field_data_t := snd t.

(** The locals of [read] that the scan updates. *)
Record locals : Type := Locals {
  l_points_dtype : dtype;
  l_points_ncols : nat;
  l_points : list (list F);
  l_point_data_names : list pystr;
  l_pd : list farray1;
  l_cells : dict string iarray2
}.

(** Conversion of a numeric element on assignment, as [convert]. *)
Definition convert_f (src dst : dtype) (x : F) : F :=
  if dtype_eqb src dst then x else cast dst x.

(** The same for a source array known by its [dtype.name]. *)
Definition convert_named (src : string) (dst : dtype) (x : F) : F :=
  if src =? dtype_name dst then x else cast dst x.

(** [points[:, j] = value[:]] for a [value] of dtype [src] *)
Definition set_column (j : nat) (src : dtype) (xs : list F) (st : locals)
    : result locals :=
  if (j <? l_points_ncols st)%nat then
    ys <- broadcast_to (length (l_points st)) xs ;;
    Ok (Locals (l_points_dtype st) (l_points_ncols st)
               (map (fun ry => set_nth j (convert_f src (l_points_dtype st) (snd ry))
                                       (fst ry))
                    (combine (l_points st) ys))
               (l_point_data_names st) (l_pd st) (l_cells st))
  else Raise StorageError.

(** [b"".join(c)]: a cell that holds the byte 0 is the empty bytes
    object. *)
Definition join_cells (c : list Z) : list Z :=
  flat_map (fun b => if (b =? 0)%Z then [] else [b]) c.

(** The body of the loop over [nc.variables.items()].

    The arrays of a variable are taken here as the store holds them.
    The store hands them out, for every variable but [name_nod_var]
    (the only one on which [read] calls [set_auto_mask(False)]), as
    masked arrays: an entry that equals the fill value of the
    variable ([default_fillvals]) comes masked, and the subtraction
    of 1 leaves a masked entry as it is.  The difference of such an
    array and 1 has the dtype of the variable where numpy takes the
    1 by its value (before numpy 2), and [result_type] of that dtype
    and [int64] where it takes it as an array of its default integer
    type (from numpy 2 on).  Neither the mask nor the second rule is
    modelled: the round trips are stated of meshes that no masked
    entry comes from and whose cells have a dtype that both rules
    keep ([block_plain], [points_plain] and [field_plain]), and
    they show that the container written is one that [read] gets as
    the store holds it ([plain]). *)
Definition read_step (st : locals) (kv : string * variable) : result locals :=
  let '(key, value) := kv in
  if substring 0 7 key =? "connect" then
    elem_type <- match v_elem_type value with
                 | Some e => Ok e
                 | None => Raise (MissingKey "elem_type")
                 end ;;
    meshio_type <- to_canonical elem_type ;;
    match v_data value with
    | Idx2 d ncols rows =>
        let block := iarray2_add (IArray2 d ncols rows) (-1) in
        match dict_get meshio_type (l_cells st) with
        | Some old =>
            stacked <- vstack old block ;;
            Ok (Locals (l_points_dtype st) (l_points_ncols st) (l_points st)
                       (l_point_data_names st) (l_pd st)
                       (dict_set meshio_type stacked (l_cells st)))
        | None =>
            Ok (Locals (l_points_dtype st) (l_points_ncols st) (l_points st)
                       (l_point_data_names st) (l_pd st)
                       (dict_set meshio_type block (l_cells st)))
        end
    | _ => Raise IllTyped
    end
  else if key =? "coord" then
    match v_data value with
    | Num2 d ncols rows =>
        Ok (Locals d (length rows) (transpose ncols rows)
                   (l_point_data_names st) (l_pd st) (l_cells st))
    | _ => Raise IllTyped
    end
  else if key =? "coordx" then
    match v_data value with
    | Num1 d xs => set_column 0 d xs st
    | _ => Raise IllTyped
    end
  else if key =? "coordy" then
    match v_data value with
    | Num1 d xs => set_column 1 d xs st
    | _ => Raise IllTyped
    end
  else if key =? "coordz" then
    match v_data value with
    | Num1 d xs => set_column 2 d xs st
    | _ => Raise IllTyped
    end
  else if key =? "name_nod_var" then
    match v_data value with
    | Char2 _ rows =>
        names <- mapM (fun c => utf8_decode (join_cells c)) rows ;;
        Ok (Locals (l_points_dtype st) (l_points_ncols st) (l_points st)
                   names (l_pd st) (l_cells st))
    | _ => Raise IllTyped
    end
  else if key =? "vals_nod_var" then
    match v_data value with
    | Num3 d steps =>
        match steps with
        | step0 :: _ =>
            Ok (Locals (l_points_dtype st) (l_points_ncols st) (l_points st)
                       (l_point_data_names st)
                       (map (FArray1 (dtype_name d)) step0) (l_cells st))
        | [] => Raise StorageError
        end
    | _ => Raise IllTyped
    end
  else Ok st.

(** The locals before the loop: [points = numpy.zeros((n, 3))],
    [point_data_names = []], [pd = []], [cells = {}]. *)
Definition initial_locals (num_nodes : nat) : locals :=
  Locals float64 3 (repeat [fzero; fzero; fzero] num_nodes) [] [] [].

(** The loop over [nc.variables.items()]. *)
Definition scan (nc : container) (num_nodes : nat) : result locals :=
  foldM read_step (c_vars nc) (initial_locals num_nodes).

(** What [read] builds and returns after the loop. *)
Definition assemble (st : locals) : mesh_tuple :=
  let point_data := dict_of_pairs (zip (l_point_data_names st) (l_pd st)) in
  (FArray2 (dtype_name (l_points_dtype st)) (l_points_ncols st) (l_points st),
   l_cells st, point_data, [], []).

(** [read], from the opened dataset on. *)
Definition read (nc : container) : result mesh_tuple :=
  num_nodes <- match dict_get "num_nodes" (c_dims nc) with
               | Some n => Ok n
               | None => Raise (MissingKey "num_nodes")
               end ;;
  st <- scan nc num_nodes ;;
  Ok (assemble st).

(** **** Views of a container, for the statements about [read] *)

(** The names that the loop does something with. *)
Definition recognised (key : string) : bool :=
  (substring 0 7 key =? "connect")
  || existsb (String.eqb key)
       ["coord"; "coordx"; "coordy"; "coordz"; "name_nod_var"; "vals_nod_var"].

(** The variables in which [write] stores node sets and side sets. *)
Definition is_set_variable (key : string) : bool :=
  existsb (String.eqb key) ["ns_prop1"; "ns_names"; "ss_prop1"; "ss_names"]
  || existsb (String.eqb (substring 0 7 key)) ["node_ns"; "elem_ss"; "side_ss"].

Definition without_sets (nc : container) : container :=
  Container (c_attrs nc) (c_dims nc)
            (filter (fun kv => negb (is_set_variable (fst kv))) (c_vars nc)).

(** A [connect] variable whose element type is the canonical [t]. *)
Definition is_block_of (t : string) (kv : string * variable) : bool :=
  (substring 0 7 (fst kv) =? "connect")
  && match v_elem_type (snd kv) with
     | Some e => match to_canonical e with
                 | Ok t' => t' =? t
                 | Raise _ => false
                 end
     | None => false
     end.

(** The rows of time step 0 of a [vals_nod_var] variable. *)
Definition step0_of (value : variable) : list farray1 :=
  match v_data value with
  | Num3 d (step0 :: _) => map (FArray1 (dtype_name d)) step0
  | _ => []
  end.

(** The decoded rows of a [name_nod_var] variable. *)
Definition names_of (value : variable) : list pystr :=
  match v_data value with
  | Char2 _ rows =>
      match mapM (fun c => utf8_decode (join_cells c)) rows with
      | Ok names => names
      | Raise _ => []
      end
  | _ => []
  end.

Definition first_time_step (nc : container) : list farray1 :=
  match dict_get "vals_nod_var" (c_vars nc) with
  | Some value => step0_of value
  | None => []
  end.

Definition field_names (nc : container) : list pystr :=
  match dict_get "name_nod_var" (c_vars nc) with
  | Some value => names_of value
  | None => []
  end.

(** The same variable with other time steps after the first, and
    with other rows in the first. *)
Definition with_later_steps (later : list (list (list F))) (value : variable)
    : variable :=
  match v_data value with
  | Num3 d (step0 :: _) =>
      Var (v_dims value) (v_elem_type value) (Num3 d (step0 :: later))
  | _ => value
  end.

Definition with_step0 (step0 : list (list F)) (value : variable) : variable :=
  match v_data value with
  | Num3 d (_ :: later) =>
      Var (v_dims value) (v_elem_type value) (Num3 d (step0 :: later))
  | _ => value
  end.

(** The container with its [vals_nod_var] variable changed by [f]. *)
Definition map_vals_nod_var (f : variable -> variable) (nc : container)
    : container :=
  Container (c_attrs nc) (c_dims nc)
            (map (fun kv => if fst kv =? "vals_nod_var"
                            then (fst kv, f (snd kv)) else kv)
                 (c_vars nc)).

(** The locals with other point-data values. *)
Definition with_pd (pd : list farray1) (st : locals) : locals :=
  Locals (l_points_dtype st) (l_points_ncols st) (l_points st)
         (l_point_data_names st) pd (l_cells st).

(** **** write *)

Definition or_empty {K V} (d : option (dict K V)) : dict K V :=
  match d with Some d' => d' | None => [] end.

(** [netCDF4.Dataset(filename, "w")] *)
Definition new_dataset : container := Container [] [] [].

Definition setattr (name : string) (a : attr) (c : container) : container :=
  Container (dict_set name a (c_attrs c)) (c_dims c) (c_vars c).

Definition createDimension (name : string) (size : nat) (c : container)
    : result container :=
  if dict_mem name (c_dims c) then Raise StorageError
  else Ok (Container (c_attrs c) (dict_set name size (c_dims c)) (c_vars c)).

Definition dim_len (name : string) (c : container) : result nat :=
  match dict_get name (c_dims c) with
  | Some n => Ok n
  | None => Raise StorageError
  end.

(** The dtype of a variable created with a datatype code. *)
Definition code_dtype (code : string) : result dtype :=
  match dtype_of_code code with
  | Some d => Ok d
  | None => Raise StorageError
  end.

(** [createVariable] together with the assignments that fill the
    new variable, [elem_type] included: the variable enters the
    container with the data it holds once they are done. *)
Definition createVariable (name : string) (dims : list string)
    (elem_type : option string) (data : vdata) (c : container)
    : result container :=
  if dict_mem name (c_vars c) then Raise StorageError
  else if forallb (fun d => dict_mem d (c_dims c)) dims
  then Ok (Container (c_attrs c) (c_dims c)
                     (dict_set name (Var dims elem_type data) (c_vars c)))
  else Raise StorageError.

(** An assigned value of shape [(length rows, ncols)] broadcast to
    the shape [(n, m)] of the variable. *)
Definition broadcast2 {A} (n m ncols : nat) (rows : list (list A))
    : result (list (list A)) :=
  if (ncols =? m)%nat || (ncols =? 1)%nat then
    rows' <- mapM (broadcast_to m) rows ;;
    broadcast_to n rows'
  else Raise StorageError.

(** [data[:] = a] on an integer variable of dtype [d] whose
    dimensions were declared from the shape of [a]. *)
Definition put_idx1 (d : dtype) (a : iarray1) : vdata :=
  Idx1 d (map (convert (i1_dtype a) d) (i1_items a)).

Definition put_idx2 (d : dtype) (a : iarray2) : vdata :=
  Idx2 d (i2_ncols a) (map (map (convert (i2_dtype a) d)) (i2_rows a)).

(** [data[k] = k for k in range(n)] *)
Definition put_range (d : dtype) (n : nat) : vdata :=
  Idx1 d (map (fun k => astype d (Z.of_nat k)) (seq 0 n)).

(** A fresh character variable: every cell holds the fill value. *)
Definition blank_chars (dim1 dim2 : string) (c : container)
    : result (list (list Z)) :=
  n <- dim_len dim1 c ;;
  m <- dim_len dim2 c ;;
  Ok (repeat (repeat 0%Z m) n).

(** [row[i] = bytes] on a row of "S1" cells: the cell keeps the
    first byte. *)
Definition put_cell (i : nat) (bytes : list Z) (row : list Z)
    : result (list Z) :=
  if (i <? length row)%nat then Ok (set_nth i (hd 0%Z bytes) row)
  else if strict_bounds then Raise StorageError
  else Ok row.

(** [for i, letter in enumerate(name): row[i] = letter.encode("utf-8")] *)
Definition write_name (row : list Z) (name : pystr) : result (list Z) :=
  foldM (fun r il => bytes <- utf8_encode_char (snd il) ;;
                     put_cell (fst il) bytes r)
        (enumerate name) row.

(** [for k, name in enumerate(names): write row k] *)
Definition write_names (blank : list (list Z)) (names : list pystr)
    : result (list (list Z)) :=
  mapM (fun rn => write_name (fst rn) (snd rn)) (combine blank names).

Definition suffixed (base : string) (k : nat) : string :=
  (base ++ format_nat (k + 1))%string.

(** The body of the loop over the cell blocks. *)
Definition write_block (c : container) (kkv : nat * (string * iarray2))
    : result container :=
  let '(k, (key, values)) := kkv in
  let dim1 := suffixed "num_el_in_blk" k in
  let dim2 := suffixed "num_nod_per_el" k in
  c <- createDimension dim1 (length (i2_rows values)) c ;;
  c <- createDimension dim2 (i2_ncols values) c ;;
  code <- exodus_dtype (dtype_name (i2_dtype values)) ;;
  d <- code_dtype code ;;
  elem_type <- to_disk key ;;
  (* Exodus is 1-based *)
  createVariable (suffixed "connect" k) [dim1; dim2] (Some elem_type)
                 (put_idx2 d (iarray2_add values 1)) c.

(** The body of the second loop over the node sets. *)
Definition write_nset (c : container) (kkv : nat * (pystr * iarray1))
    : result container :=
  let '(k, (key, values)) := kkv in
  let dim1 := suffixed "num_nod_ns" k in
  c <- createDimension dim1 (length (i1_items values)) c ;;
  code <- exodus_dtype (dtype_name (i1_dtype values)) ;;
  d <- code_dtype code ;;
  (* Exodus is 1-based *)
  createVariable (suffixed "node_ns" k) [dim1] None
                 (put_idx1 d (iarray1_add values 1)) c.

(** The body of the second loop over the side sets. *)
Definition write_sset (c : container) (kkv : nat * (pystr * iarray2))
    : result container :=
  let '(k, (key, values)) := kkv in
  let dim1 := suffixed "num_side_ss" k in
  c <- createDimension dim1 (length (i2_rows values)) c ;;
  code <- exodus_dtype (dtype_name (i2_dtype values)) ;;
  d <- code_dtype code ;;
  col0 <- iarray2_column values 0 ;;
  c <- createVariable (suffixed "elem_ss" k) [dim1] None
                      (put_idx1 d (iarray1_add col0 1)) c ;;
  col1 <- iarray2_column values 1 ;;
  createVariable (suffixed "side_ss" k) [dim1] None (put_idx1 d col1) c.

Definition write_point_data (point_data : dict pystr farray1) (c : container)
    : result container :=
  let num_nod_var := length point_data in
  if (0 <? num_nod_var)%nat then
    c <- createDimension "num_nod_var" num_nod_var c ;;
    (* set names *)
    blank <- blank_chars "num_nod_var" "len_string" c ;;
    len_string <- dim_len "len_string" c ;;
    names <- write_names blank (keys point_data) ;;
    c <- createVariable "name_nod_var" ["num_nod_var"; "len_string"] None
                        (Char2 len_string names) c ;;
    (* Set data.  Deliberately take the dtype from the first data block. *)
    code <- match values point_data with
            | first :: _ => exodus_dtype (f1_dtype first)
            | [] => Raise StorageError
            end ;;
    d <- code_dtype code ;;
    num_nodes <- dim_len "num_nodes" c ;;
    rows <- mapM (fun data =>
                    broadcast_to num_nodes
                      (map (convert_named (f1_dtype data) d) (f1_items data)))
                 (values point_data) ;;
    createVariable "vals_nod_var" ["time_step"; "num_nod_var"; "num_nodes"]
                   None (Num3 d [rows]) c
  else Ok c.

Definition write_nsets (nsets : dict pystr iarray1) (c : container)
    : result container :=
  if (0 <? length nsets)%nat then
    d <- code_dtype "i4" ;;
    blank <- blank_chars "num_node_sets" "len_string" c ;;
    len_string <- dim_len "len_string" c ;;
    names <- write_names blank (keys nsets) ;;
    c <- createVariable "ns_prop1" ["num_node_sets"] None
                        (put_range d (length nsets)) c ;;
    c <- createVariable "ns_names" ["num_node_sets"; "len_string"] None
                        (Char2 len_string names) c ;;
    foldM write_nset (enumerate nsets) c
  else Ok c.

Definition write_ssets (ssets : dict pystr iarray2) (c : container)
    : result container :=
  if (0 <? length ssets)%nat then
    d <- code_dtype "i4" ;;
    blank <- blank_chars "num_side_sets" "len_string" c ;;
    len_string <- dim_len "len_string" c ;;
    names <- write_names blank (keys ssets) ;;
    c <- createVariable "ss_prop1" ["num_side_sets"] None
                        (put_range d (length ssets)) c ;;
    c <- createVariable "ss_names" ["num_side_sets"; "len_string"] None
                        (Char2 len_string names) c ;;
    foldM write_sset (enumerate ssets) c
  else Ok c.

(** [sum([v.shape[0] for v in cells.values()])] *)
Definition total_num_elems (cells : dict string iarray2) : nat :=
  fold_left Nat.add (map (fun v => length (i2_rows v)) (values cells)) 0%nat.

(** "set global data"; [title] stands for the text that the source
    builds from the package version and the clock. *)
Definition set_global_data (title : string) (rootgrp : container) : container :=
  let rootgrp := setattr "title" (AText title) rootgrp in
  let rootgrp := setattr "version" (AFloat32 "5.1") rootgrp in
  let rootgrp := setattr "api_version" (AFloat32 "5.1") rootgrp in
  setattr "floating_point_word_size" (AInt 8) rootgrp.

(** "set dimensions" *)
Definition set_dimensions (num_nodes total_num_elems num_el_blk
    num_node_sets num_side_sets : nat) (rootgrp : container)
    : result container :=
  c <- createDimension "num_nodes" num_nodes rootgrp ;;
  c <- createDimension "num_dim" 3 c ;;
  c <- createDimension "num_elem" total_num_elems c ;;
  c <- createDimension "num_el_blk" num_el_blk c ;;
  c <- createDimension "num_node_sets" num_node_sets c ;;
  c <- createDimension "num_side_sets" num_side_sets c ;;
  c <- createDimension "len_string" 33 c ;;
  c <- createDimension "len_line" 81 c ;;
  c <- createDimension "four" 4 c ;;
  createDimension "time_step" 0 c.

(** "dummy time step": [data[:] = 0.0] on the variable along the
    unlimited dimension is taken to store one record, the time 0. *)
Definition write_time (c : container) : result container :=
  d <- code_dtype "f4" ;;
  createVariable "time_whole" ["time_step"] None (Num1 d [cast d fzero]) c.

(** "points" *)
Definition write_points (points : farray2) (c : container) : result container :=
  blank <- blank_chars "num_dim" "len_string" c ;;
  len_string <- dim_len "len_string" c ;;
  coor_names <- mapM (fun rl => put_cell 0 [snd rl] (fst rl))
                     (combine blank [88; 89; 90]%Z) ;;
  c <- createVariable "coor_names" ["num_dim"; "len_string"] None
                      (Char2 len_string coor_names) c ;;
  code <- exodus_dtype (f2_dtype points) ;;
  d <- code_dtype code ;;
  num_dim <- dim_len "num_dim" c ;;
  num_nodes <- dim_len "num_nodes" c ;;
  coord <- broadcast2 num_dim num_nodes (length (f2_rows points))
                      (transpose (f2_ncols points) (f2_rows points)) ;;
  createVariable "coord" ["num_dim"; "num_nodes"] None
                 (Num2 d num_nodes
                       (map (map (convert_named (f2_dtype points) d)) coord))
                 c.

(** "cells" *)
Definition write_cells (cells : dict string iarray2) (c : container)
    : result container :=
  d <- code_dtype "i4" ;;
  c <- createVariable "eb_prop1" ["num_el_blk"] None
                      (put_range d (length cells)) c ;;
  foldM write_block (enumerate cells) c.

(** [write]: the dataset as it is closed. *)
Definition write (title : string)
    (points : farray2) (cells : dict string iarray2)
    (point_data : option (dict pystr farray1))
    (cell_data : option cell_data_t) (field_data : option field_data_t)
    (nsets : option (dict pystr iarray1)) (ssets : option (dict pystr iarray2))
    : result container :=
  let point_data := or_empty point_data in
  let cell_data := or_empty cell_data in
  let field_data := or_empty field_data in
  let nsets := or_empty nsets in
  let ssets := or_empty ssets in
  let rootgrp := new_dataset in
  let rootgrp := set_global_data title rootgrp in
  c <- set_dimensions (length (f2_rows points)) (total_num_elems cells)
                      (length cells) (length nsets) (length ssets) rootgrp ;;
  c <- write_time c ;;
  c <- write_points points c ;;
  c <- write_cells cells c ;;
  c <- write_point_data point_data c ;;
  c <- write_nsets nsets c ;;
  c <- write_ssets ssets c ;;
  Ok c.

(** What the loops of [write] leave on disk for a cell block, a node
    set and a side set. *)
Definition block_on_disk (k : nat) (kv : string * iarray2) (c : container)
    : Prop :=
  exists dims et,
    dict_get (suffixed "connect" k) (c_vars c)
    = Some (Var dims et
              (Idx2 (i2_dtype (snd kv)) (i2_ncols (snd kv))
                 (map (map (fun i => astype (i2_dtype (snd kv)) (i + 1)))
                      (i2_rows (snd kv))))).

Definition nset_on_disk (k : nat) (kv : pystr * iarray1) (c : container)
    : Prop :=
  exists dims et,
    dict_get (suffixed "node_ns" k) (c_vars c)
    = Some (Var dims et
              (Idx1 (i1_dtype (snd kv))
                 (map (fun i => astype (i1_dtype (snd kv)) (i + 1))
                      (i1_items (snd kv))))).

Definition sset_on_disk (k : nat) (kv : pystr * iarray2) (c : container)
    : Prop :=
  (exists dims et,
     dict_get (suffixed "elem_ss" k) (c_vars c)
     = Some (Var dims et
               (Idx1 (i2_dtype (snd kv))
                  (map (fun row => astype (i2_dtype (snd kv)) (nth 0 row 0%Z + 1))
                       (i2_rows (snd kv))))))
  /\ (exists dims et,
        dict_get (suffixed "side_ss" k) (c_vars c)
        = Some (Var dims et
                  (Idx1 (i2_dtype (snd kv))
                     (map (fun row => nth 1 row 0%Z) (i2_rows (snd kv)))))).

(** [c'] is [c] with more dimensions and variables: what [c] declares
    is in [c'] unchanged, and distinct variable names stay distinct. *)
Definition extends (c c' : container) : Prop :=
  (forall name value,
     dict_get name (c_vars c) = Some value ->
     dict_get name (c_vars c') = Some value)
  /\ (forall name size,
        dict_get name (c_dims c) = Some size ->
        dict_get name (c_dims c') = Some size)
  /\ (NoDup (keys (c_vars c)) -> NoDup (keys (c_vars c'))).

(** [c'] is [c] with further dimensions, under names that satisfy
    [q], and further variables, under names that satisfy [p]; the
    global attributes are those of [c]. *)
Definition grows (p q : string -> bool) (c c' : container) : Prop :=
  c_attrs c' = c_attrs c
  /\ (exists dims,
        c_dims c' = c_dims c ++ dims
        /\ forallb (fun kv => q (fst kv)) dims = true)
  /\ (exists vars,
        c_vars c' = c_vars c ++ vars
        /\ forallb (fun kv => p (fst kv)) vars = true).

(** Any name but the two of the variables of the point data, and any
    name but the one of their dimension. *)
Definition not_field_variable (name : string) : bool :=
  negb (name =? "name_nod_var") && negb (name =? "vals_nod_var").

Definition not_field_dimension (name : string) : bool :=
  negb (name =? "num_nod_var").

Definition any_name (name : string) : bool := true.

(** An entry of an index array of dtype [d] that [+ 1] followed by
    [- 1] gives back: a value of [d] and, where [d] is a floating-point
    type, one whose successor is a value of [d] too. *)
Definition index_ok (d : dtype) (z : Z) : Prop :=
  astype d z = z /\ (int_kind d = None -> astype d (z + 1) = (z + 1)%Z).

(** The disk tag that [write] gives to a canonical type. *)
Definition disk_tag (key : string) : string :=
  match dict_get key meshio_to_exodus_type with
  | Some t => t
  | None => ""
  end.

(** The dimensions and the variable that the loop over the cell
    blocks adds for the [k]-th block. *)
Definition block_dims (kkv : nat * (string * iarray2)) : dict string nat :=
  [ (suffixed "num_el_in_blk" (fst kkv), length (i2_rows (snd (snd kkv))));
    (suffixed "num_nod_per_el" (fst kkv), i2_ncols (snd (snd kkv))) ].

Definition block_variable (kkv : nat * (string * iarray2))
    : string * variable :=
  (suffixed "connect" (fst kkv),
   Var [suffixed "num_el_in_blk" (fst kkv); suffixed "num_nod_per_el" (fst kkv)]
       (Some (disk_tag (fst (snd kkv))))
       (Idx2 (i2_dtype (snd (snd kkv))) (i2_ncols (snd (snd kkv)))
             (map (map (fun i => astype (i2_dtype (snd (snd kkv))) (i + 1)))
                  (i2_rows (snd (snd kkv)))))).

(** The [k]-th block as [write] declares it: its two dimensions, with
    the shape of the block, and its variable over them, with the disk
    tag of its type as [elem_type]. *)
Definition block_declared (k : nat) (kv : string * iarray2) (c : container)
    : Prop :=
  to_disk (fst kv) = Ok (disk_tag (fst kv))
  /\ dict_get (suffixed "num_el_in_blk" k) (c_dims c)
     = Some (length (i2_rows (snd kv)))
  /\ dict_get (suffixed "num_nod_per_el" k) (c_dims c)
     = Some (i2_ncols (snd kv))
  /\ dict_get (suffixed "connect" k) (c_vars c)
     = Some (snd (block_variable (k, kv))).

(** The dimension that [write] declares for the [k]-th node set. *)
Definition nset_declared (k : nat) (kv : pystr * iarray1) (c : container)
    : Prop :=
  dict_get (suffixed "num_nod_ns" k) (c_dims c)
  = Some (length (i1_items (snd kv))).

(** No dimension and no variable of a block numbered [k0] or more. *)
Definition fresh_from (k0 : nat) (c : container) : Prop :=
  forall k, (k0 <= k)%nat ->
    dict_get (suffixed "num_el_in_blk" k) (c_dims c) = None
    /\ dict_get (suffixed "num_nod_per_el" k) (c_dims c) = None
    /\ dict_get (suffixed "connect" k) (c_vars c) = None.

(** A name of ASCII characters other than NUL. *)
Definition ascii_name (name : pystr) : Prop :=
  Forall (fun ch => (1 <= ch < 128)%Z) name.

(** A name in a row of [n] cells, the rest of which hold the fill
    value. *)
Definition padded (n : nat) (name : pystr) : list Z :=
  name ++ repeat 0%Z (n - length name).

(** What the round trip asks of a cell block, of a field name and of
    a field of point data. *)
Definition block_ok (kv : string * iarray2) : Prop :=
  dict_mem (fst kv) meshio_to_exodus_type = true
  /\ Forall (Forall (index_ok (i2_dtype (snd kv)))) (i2_rows (snd kv)).

Definition name_ok (name : pystr) : Prop :=
  ascii_name name /\ (length name <= 33)%nat.

Definition field_ok (d : dtype) (num_nodes : nat) (a : farray1) : Prop :=
  f1_dtype a = dtype_name d /\ length (f1_items a) = num_nodes.

(** [netCDF4.default_fillvals]: the value that the store takes for
    missing in a variable of each dtype, when the variable has no
    [_FillValue] of its own, as is the case of every variable that
    [write] creates.  The fill value of the two float dtypes,
    9.969209968386869e+36, is the integer 15 * 2^119. *)
Definition default_fillvals (d : dtype) : Z :=
  match d with
  | int8 => -127
  | int16 => -32767
  | int32 => -2147483647
  | int64 => -9223372036854775806
  | uint8 => 255
  | uint16 => 65535
  | uint32 => 4294967295
  | uint64 => 18446744073709551614
  | float32 | float64 => 15 * 2 ^ 119
  end%Z.

(** A cell block that comes back from the store as it went in: its
    dtype is one that the subtraction of [read] keeps under either
    rule of numpy ([int64] and [float64] are), and none of the
    entries that [write] stores, the indices plus one, is the fill
    value of the dtype.  The block has a row and a column at least:
    a dimension that is created with the size 0 is an unlimited one
    to the store, where the dimensions here all have a fixed size. *)
Definition block_plain (kv : string * iarray2) : Prop :=
  result_type (i2_dtype (snd kv)) int64 = i2_dtype (snd kv)
  /\ Forall (Forall (fun i => astype (i2_dtype (snd kv)) (i + 1)
                               <> default_fillvals (i2_dtype (snd kv))))
            (i2_rows (snd kv))
  /\ i2_rows (snd kv) <> [] /\ i2_ncols (snd kv) <> 0%nat.

(** Points, one at least, and a field of point data without a value
    that the store masks on reading; [masked d x] tells whether it
    masks the value [x] in a variable of dtype [d], as it does for
    the fill value of the dtype. *)
Definition points_plain (masked : dtype -> F -> bool) (d : dtype)
    (points : farray2) : Prop :=
  f2_rows points <> []
  /\ Forall (Forall (fun x => masked d x = false)) (f2_rows points).

Definition field_plain (masked : dtype -> F -> bool) (d : dtype)
    (a : farray1) : Prop :=
  Forall (fun x => masked d x = false) (f1_items a).

(** The attributes and the dimensions that [write] sets first, and the
    variables that it creates before the cell blocks. *)
Definition global_attrs (title : string) : dict string attr :=
  [ ("title", AText title); ("version", AFloat32 "5.1");
    ("api_version", AFloat32 "5.1"); ("floating_point_word_size", AInt 8) ].

Definition fixed_dims (num_nodes total num_el_blk num_node_sets
    num_side_sets : nat) : dict string nat :=
  [ ("num_nodes", num_nodes); ("num_dim", 3%nat); ("num_elem", total);
    ("num_el_blk", num_el_blk); ("num_node_sets", num_node_sets);
    ("num_side_sets", num_side_sets); ("len_string", 33%nat);
    ("len_line", 81%nat); ("four", 4%nat); ("time_step", 0%nat) ].

Definition time_whole_variable : string * variable :=
  ("time_whole", Var ["time_step"] None (Num1 float32 [cast float32 fzero])).

Definition coor_names_variable : string * variable :=
  ("coor_names",
   Var ["num_dim"; "len_string"] None
       (Char2 33 [88%Z :: repeat 0%Z 32; 89%Z :: repeat 0%Z 32;
                  90%Z :: repeat 0%Z 32])).

Definition coord_variable (d : dtype) (points : farray2) : string * variable :=
  ("coord",
   Var ["num_dim"; "num_nodes"] None
       (Num2 d (length (f2_rows points))
             (transpose (f2_ncols points) (f2_rows points)))).

Definition eb_prop1_variable (num_el_blk : nat) : string * variable :=
  ("eb_prop1", Var ["num_el_blk"] None (put_range int32 num_el_blk)).

Definition name_nod_var_variable (names : list pystr) : string * variable :=
  ("name_nod_var",
   Var ["num_nod_var"; "len_string"] None (Char2 33 (map (padded 33) names))).

Definition vals_nod_var_variable (d : dtype) (fields : list farray1)
    : string * variable :=
  ("vals_nod_var",
   Var ["time_step"; "num_nod_var"; "num_nodes"] None
       (Num3 d [map f1_items fields])).

(** The dimensions and the variables that [write] creates before the
    node sets, for points of dtype [dp] and point data of dtype [d0]. *)
Definition mesh_dims (num_nodes num_node_sets num_side_sets : nat)
    (cells : dict string iarray2) (pd : dict pystr farray1) : dict string nat :=
  fixed_dims num_nodes (total_num_elems cells) (length cells)
             num_node_sets num_side_sets
  ++ flat_map block_dims (enumerate cells)
  ++ match pd with
     | [] => []
     | _ :: _ => [("num_nod_var", length pd)]
     end.

Definition mesh_variables (dp d0 : dtype) (points : farray2)
    (cells : dict string iarray2) (pd : dict pystr farray1)
    : dict string variable :=
  [time_whole_variable; coor_names_variable; coord_variable dp points;
   eb_prop1_variable (length cells)]
  ++ map block_variable (enumerate cells)
  ++ match pd with
     | [] => []
     | _ :: _ => [name_nod_var_variable (keys pd);
                  vals_nod_var_variable d0 (values pd)]
     end.

(** **** Further views of a container *)

(** The part of a container that [read] looks at: the dimension
    [num_nodes] and the variables under the names of [recognised]. *)
Definition recognised_part (nc : container) : container :=
  Container []
            match dict_get "num_nodes" (c_dims nc) with
            | Some n => [("num_nodes", n)]
            | None => []
            end
            (filter (fun kv => recognised (fst kv)) (c_vars nc)).

(** The container with every [elem_type] attribute changed by [f]. *)
Definition map_elem_types (f : string -> string) (nc : container)
    : container :=
  Container (c_attrs nc) (c_dims nc)
            (map (fun kv => (fst kv,
                             Var (v_dims (snd kv))
                                 (option_map f (v_elem_type (snd kv)))
                                 (v_data (snd kv))))
                 (c_vars nc)).

(** The names under which [read] takes coordinates. *)
Definition is_coordinate (key : string) : bool :=
  existsb (String.eqb key) ["coord"; "coordx"; "coordy"; "coordz"].

(** Column [j] of a matrix given by its rows. *)
Definition column (j : nat) (rows : list (list F)) : list F :=
  map (fun r => nth j r fzero) rows.

(** The column that the variable [name] ([coordx], [coordy] or
    [coordz]) gives to the points of [numpy.zeros]: its values
    converted to their dtype, or [zeros] where the container has no
    such variable. *)
Definition coordinate (name : string) (zeros : list F) (nc : container)
    : list F :=
  match dict_get name (c_vars nc) with
  | Some value =>
      match v_data value with
      | Num1 d xs => map (convert_f d float64) xs
      | _ => zeros
      end
  | None => zeros
  end.

(** The points of the locals are [n] rows of three values of
    [float64], as [numpy.zeros((n, 3))] makes them. *)
Definition points_shape (n : nat) (st : locals) : Prop :=
  l_points_dtype st = float64 /\ l_points_ncols st = 3%nat
  /\ length (l_points st) = n /\ wf_rows 3 (l_points st).

(** The columns of the points and the variables that fill them. *)
Definition axes : list (nat * string) :=
  [(0%nat, "coordx"); (1%nat, "coordy"); (2%nat, "coordz")].

(** The number of rows of a [connect] variable, 0 for any other. *)
Definition block_rows (kv : string * variable) : nat :=
  if substring 0 7 (fst kv) =? "connect" then
    match v_data (snd kv) with
    | Idx2 _ _ rows => length rows
    | _ => 0%nat
    end
  else 0%nat.

(** A variable from which [read] gets what the store holds: the
    arrays that [read] takes from it have no entry that the store
    masks, and the dtype of a [connect] variable is one that the
    subtraction keeps.  The variables that [read] skips are plain
    whatever they hold, and so is [name_nod_var], which [read] takes
    with the mask off. *)
Definition plain_variable (masked : dtype -> F -> bool)
    (kv : string * variable) : Prop :=
  if substring 0 7 (fst kv) =? "connect" then
    match v_data (snd kv) with
    | Idx2 d _ rows =>
        result_type d int64 = d
        /\ Forall (Forall (fun z => z <> default_fillvals d)) rows
    | _ => True
    end
  else if is_coordinate (fst kv) then
    match v_data (snd kv) with
    | Num2 d _ rows => Forall (Forall (fun x => masked d x = false)) rows
    | Num1 d xs => Forall (fun x => masked d x = false) xs
    | _ => True
    end
  else if fst kv =? "vals_nod_var" then
    match v_data (snd kv) with
    | Num3 d (step0 :: _) => Forall (Forall (fun x => masked d x = false)) step0
    | _ => True
    end
  else True.

(** A container that [read] gets as the store holds it. *)
Definition plain (masked : dtype -> F -> bool) (nc : container) : Prop :=
  Forall (plain_variable masked) (c_vars nc).

End Codec.

Arguments Idx1 {F} d items.
Arguments Idx2 {F} d ncols rows.
Arguments Char2 {F} ncols rows.
End exodus_io.

(** ** meshio/helpers.py *)

Module helpers.

(** *** Format resolution *)

Definition _extension_to_filetype : dict string string :=
  [ (".e", "exodus"); (".ex2", "exodus"); (".exo", "exodus");
    (".med", "med"); (".mesh", "medit"); (".msh", "gmsh-binary");
    (".xml", "dolfin-xml"); (".post", "permas"); (".post.gz", "permas");
    (".dato", "permas"); (".dato.gz", "permas"); (".h5m", "moab");
    (".off", "off"); (".stl", "stl-binary"); (".vtu", "vtu-binary");
    (".vtk", "vtk-binary"); (".xdmf", "xdmf"); (".xmf", "xdmf");
    (".inp", "abaqus") ].

(** [s.split(".")]: never empty. *)
Fixpoint split_dot (s : string) : list string :=
  match s with
  | EmptyString => [EmptyString]
  | String c s' =>
      if Ascii.eqb c "."%char then EmptyString :: split_dot s'
      else match split_dot s' with
           | [] => [String c EmptyString]
           | p :: ps => String c p :: ps
           end
  end.

(** [[".{}".format(ext) for ext in filename.split(".")[1:]]] *)
Definition suffixes_of (filename : string) : list string :=
  map (fun ext => ("." ++ ext)%string) (tl (split_dot filename)).

(** One turn of the loop of [_filetype_from_filename] over the state
    [(ext, out)]. *)
Definition suffix_step (table : dict string string)
    (st : string * option string) (suffix : string) : string * option string :=
  let ext := (suffix ++ fst st)%string in
  match dict_get ext table with
  | Some ft => (ext, Some ft)
  | None => (ext, snd st)
  end.

Definition filetype_loop (table : dict string string) (suffixes : list string)
    : string * option string :=
  fold_left (suffix_step table) (rev suffixes) ("", None).

Definition _filetype_from_filename (filename : string) : result string :=
  let '(ext, out) := filetype_loop _extension_to_filetype (suffixes_of filename) in
  match out with
  | Some ft => Ok ft
  | None => Raise (UnknownFormat ext)
  end.

(** ["".join(parts)] *)
Definition join (parts : list string) : string :=
  fold_right String.append "" parts.

(** Format resolution as the specification words it: the compound
    suffixes of the file name, the most specific (longest) first, and
    the first of them that the table knows. *)
Fixpoint compound_suffixes (suffixes : list string) : list string :=
  match suffixes with
  | [] => []
  | s :: rest => join (s :: rest) :: compound_suffixes rest
  end.

Fixpoint first_known (table : dict string string) (cands : list string)
    : option string :=
  match cands with
  | [] => None
  | c :: rest =>
      match dict_get c table with
      | Some ft => Some ft
      | None => first_known table rest
      end
  end.

Definition resolve_longest_suffix (filename : string) : result string :=
  let suffixes := suffixes_of filename in
  match first_known _extension_to_filetype (compound_suffixes suffixes) with
  | Some ft => Ok ft
  | None => Raise (UnknownFormat (join suffixes))
  end.


(** Whether a name has a dot in it. *)
Fixpoint contains_dot (s : string) : bool :=
  match s with
  | EmptyString => false
  | String c s' => Ascii.eqb c "."%char || contains_dot s'
  end.

(** A proper suffix [l] of [k]. *)
Definition proper_suffix (l k : string) : bool :=
  (String.length l <? String.length k)%nat
  && (substring (String.length k - String.length l) (String.length l) k =? l).

(** *** Dispatch *)

(** The format tags that the module lists for reading and for
    writing. *)
Definition input_filetypes : list string :=
  [ "abaqus"; "ansys"; "exodus"; "gmsh-ascii"; "gmsh-binary"; "dolfin-xml";
    "med"; "medit"; "permas"; "moab"; "off"; "stl-ascii"; "stl-binary";
    "vtk-ascii"; "vtk-binary"; "vtu-ascii"; "vtu-binary"; "xdmf" ].

Definition output_filetypes : list string :=
  [ "abaqus"; "ansys-ascii"; "ansys-binary"; "exodus"; "gmsh-ascii";
    "gmsh-binary"; "dolfin-xml"; "med"; "medit"; "permas"; "moab"; "off";
    "stl-ascii"; "stl-binary"; "vtk-ascii"; "vtk-binary"; "vtu-ascii";
    "vtu-binary"; "xdmf" ].

(** The codec modules that [helpers.py] imports. *)
Inductive codec : Type :=
| abaqus_io | ansys_io | dolfin_io | exodus_io | h5m_io | med_io | medit_io
| gmsh_io | off_io | permas_io | stl_io | vtk_io | vtu_io | xdmf_io.

(** The codecs whose [write] the dispatcher calls with the keyword
    [write_binary]. *)
Definition takes_write_binary (c : codec) : bool :=
  match c with
  | ansys_io | gmsh_io | stl_io | vtu_io | vtk_io => true
  | _ => false
  end.

Definition format_to_reader : dict string codec :=
  [ ("ansys", ansys_io); ("ansys-ascii", ansys_io); ("ansys-binary", ansys_io);
    ("gmsh", gmsh_io); ("gmsh-ascii", gmsh_io); ("gmsh-binary", gmsh_io);
    ("med", med_io); ("medit", medit_io); ("dolfin-xml", dolfin_io);
    ("permas", permas_io); ("moab", h5m_io); ("off", off_io);
    ("stl", stl_io); ("stl-ascii", stl_io); ("stl-binary", stl_io);
    ("vtu-ascii", vtu_io); ("vtu-binary", vtu_io);
    ("vtk-ascii", vtk_io); ("vtk-binary", vtk_io);
    ("xdmf", xdmf_io); ("exodus", exodus_io); ("abaqus", abaqus_io) ].

(** [if not file_format: file_format = _filetype_from_filename(filename)] *)
Definition deduce (filename : string) (file_format : option string)
    : result string :=
  match file_format with
  | None => _filetype_from_filename filename
  | Some fmt => if fmt =? "" then _filetype_from_filename filename else Ok fmt
  end.

(** [read]: the codec whose [read] it ends by calling on [filename]. *)
Definition read (filename : string) (file_format : option string)
    : result codec :=
  file_format <- deduce filename file_format ;;
  match dict_get file_format format_to_reader with
  | Some c => Ok c
  | None => Raise (UnsupportedFormat file_format filename)
  end.

Section Write.
(** The class [Mesh] of [mesh.py], which is not part of the sources
    at hand: [write] reads its attribute [cells], a mapping from
    canonical element type to a two-dimensional array of node
    indices, and passes the mesh on. *)
Variable Mesh : Type.
Variable cells : Mesh -> dict string iarray2.

(** [gmsh_io.num_nodes_per_cell], the fixed number of nodes per
    element of each canonical type; [gmsh_io.py] is not part of the
    sources at hand. *)
Variable num_nodes_per_cell : dict string nat.

(** A call [codec.write(filename, mesh)], with the flag
    [write_binary] where the source passes it. *)
Record call : Type := Call {
  call_codec : codec;
  call_filename : string;
  call_mesh : Mesh;
  call_write_binary : option bool
}.

(** The body of the loop "check cells for sanity". *)
Definition check_block (_ : unit) (kv : string * iarray2) : result unit :=
  match dict_get (fst kv) num_nodes_per_cell with
  | None => Raise (UnknownElementType (fst kv))
  | Some n =>
      if (i2_ncols (snd kv) =? n)%nat then Ok tt else Raise MalformedCellBlock
  end.

Definition mem (x : string) (xs : list string) : bool :=
  existsb (String.eqb x) xs.

(** A block that passes the check: its type is registered, with the
    width of its rows. *)
Definition checked (kv : string * iarray2) : Prop :=
  dict_get (fst kv) num_nodes_per_cell = Some (i2_ncols (snd kv)).

(** [write]: either it raises, or it ends by the one codec call that
    it returns here; the storage is touched by that call only. *)
Definition write (filename : string) (mesh : Mesh)
    (file_format : option string) : result call :=
  file_format <- deduce filename file_format ;;
  (* check cells for sanity *)
  _ <- foldM check_block (cells mesh) tt ;;
  if file_format =? "moab" then Ok (Call h5m_io filename mesh None)
  else if mem file_format ["ansys-ascii"; "ansys-binary"] then
    Ok (Call ansys_io filename mesh (Some (file_format =? "ansys-binary")))
  else if mem file_format ["gmsh-ascii"; "gmsh-binary"] then
    Ok (Call gmsh_io filename mesh (Some (file_format =? "gmsh-binary")))
  else if file_format =? "med" then Ok (Call med_io filename mesh None)
  else if file_format =? "medit" then Ok (Call medit_io filename mesh None)
  else if file_format =? "dolfin-xml" then Ok (Call dolfin_io filename mesh None)
  else if file_format =? "off" then Ok (Call off_io filename mesh None)
  else if file_format =? "permas" then Ok (Call permas_io filename mesh None)
  else if mem file_format ["stl-ascii"; "stl-binary"] then
    Ok (Call stl_io filename mesh (Some (negb (file_format =? "stl-ascii"))))
  else if file_format =? "vtu-ascii" then
    Ok (Call vtu_io filename mesh (Some false))
  else if mem file_format ["vtu"; "vtu-binary"] then
    Ok (Call vtu_io filename mesh (Some true))
  else if file_format =? "vtk-ascii" then
    Ok (Call vtk_io filename mesh (Some false))
  else if mem file_format ["vtk"; "vtk-binary"] then
    Ok (Call vtk_io filename mesh (Some true))
  else if mem file_format ["xdmf"; "xdmf3"] then
    Ok (Call xdmf_io filename mesh None)
  else if file_format =? "abaqus" then Ok (Call abaqus_io filename mesh None)
  else if file_format =? "exodus" then Ok (Call exodus_io filename mesh None)
  else Raise (UnsupportedFormat file_format filename).
End Write.
End helpers.

(** ** Sample data

    Meshes and containers whose numeric payload is integer-valued, so
    that the conversion of a value to a dtype is [astype]. *)

Module samples.

Definition read := exodus_io.read 0%Z astype.
Definition write := exodus_io.write 0%Z astype.

(** The store masks the fill value of the dtype. *)
Definition masked (d : dtype) (x : Z) : bool :=
  (x =? exodus_io.default_fillvals d)%Z.

(** A triangle with a temperature at each corner. *)
Definition points : exodus_io.farray2 Z :=
  exodus_io.FArray2 "float64" 3 [[0; 0; 0]; [1; 0; 0]; [0; 1; 0]]%Z.

Definition cells : dict string iarray2 :=
  [("triangle", IArray2 int64 3 [[0; 1; 2]]%Z)].

Definition point_data : dict pystr (exodus_io.farray1 Z) :=
  [(pystr_of_string "temperature", exodus_io.FArray1 "float64" [10; 20; 30]%Z)].

Definition cell_data : exodus_io.cell_data_t Z :=
  [("triangle", [(pystr_of_string "area", exodus_io.FArray1 "float64" [5]%Z)])].

Definition nsets : dict pystr iarray1 :=
  [(pystr_of_string "left", IArray1 int64 [0; 2]%Z)].

Definition ssets : dict pystr iarray2 :=
  [(pystr_of_string "base", IArray2 int64 2 [[0; 3]]%Z)].

(** What [read] returns for a mesh. *)
Definition mesh (points : exodus_io.farray2 Z) (cells : dict string iarray2)
    (point_data : dict pystr (exodus_io.farray1 Z))
    (cell_data : exodus_io.cell_data_t Z) : exodus_io.mesh_tuple Z :=
  (points, cells, point_data, cell_data, []).

(** 128 points and a line between the last two, with 8-bit indices. *)
Definition many_points : exodus_io.farray2 Z :=
  exodus_io.FArray2 "float64" 3 (repeat [0; 0; 0]%Z 128).

Definition last_line : dict string iarray2 :=
  [("line", IArray2 int8 2 [[126; 127]]%Z)].

(** Names of 32, 33 and 34 letters. *)
Definition name32 : pystr := repeat 97%Z 32.
Definition name33 : pystr := repeat 97%Z 33.
Definition name34 : pystr := repeat 97%Z 34.

Definition named (name : pystr) : dict pystr (exodus_io.farray1 Z) :=
  [(name, exodus_io.FArray1 "float64" [10; 20; 30]%Z)].

(** A row of names of a container. *)
Definition row (name : string) : list Z :=
  exodus_io.padded 33 (pystr_of_string name).

Definition dataset (dims : dict string nat)
    (vars : dict string (exodus_io.variable Z)) : exodus_io.container Z :=
  exodus_io.Container [] dims vars.

(** The block of cells numbered [k + 1], the names of fields or of
    sets along the dimension [count], and the values of the fields. *)
Definition connect (k : nat) (elem_type : string) (ncols : nat)
    (rows : list (list Z)) : exodus_io.variable Z :=
  exodus_io.Var [exodus_io.suffixed "num_el_in_blk" k;
                 exodus_io.suffixed "num_nod_per_el" k]
                (Some elem_type) (exodus_io.Idx2 int64 ncols rows).

Definition names (count : string) (rows : list (list Z))
    : exodus_io.variable Z :=
  exodus_io.Var [count; "len_string"] None (exodus_io.Char2 33 rows).

Definition vals (steps : list (list (list Z))) : exodus_io.variable Z :=
  exodus_io.Var ["time_step"; "num_nod_var"; "num_nodes"] None
                (exodus_io.Num3 float64 steps).

(** Two blocks of quadrilaterals under two disk tags, one of them in
    lower case. *)
Definition two_quad_blocks : exodus_io.container Z :=
  dataset [ ("num_nodes", 6%nat);
            ("num_el_in_blk1", 1%nat); ("num_nod_per_el1", 4%nat);
            ("num_el_in_blk2", 2%nat); ("num_nod_per_el2", 4%nat) ]
          [ ("connect1", connect 0 "QUAD" 4 [[1; 2; 3; 4]]%Z);
            ("connect2", connect 1 "shell4" 4 [[3; 4; 5; 6]; [1; 2; 5; 6]]%Z) ].

(** Two blocks of tetrahedra, of four and of ten nodes. *)
Definition two_tetra_blocks : exodus_io.container Z :=
  dataset [ ("num_nodes", 10%nat);
            ("num_el_in_blk1", 1%nat); ("num_nod_per_el1", 4%nat);
            ("num_el_in_blk2", 1%nat); ("num_nod_per_el2", 10%nat) ]
          [ ("connect1", connect 0 "TETRA" 4 [[1; 2; 3; 4]]%Z);
            ("connect2",
             connect 1 "TETRA" 10 [[1; 2; 3; 4; 5; 6; 7; 8; 9; 10]]%Z) ].

(** One field over two nodes and three time steps. *)
Definition three_time_steps : exodus_io.container Z :=
  dataset [ ("num_nodes", 2%nat); ("len_string", 33%nat);
            ("time_step", 3%nat); ("num_nod_var", 1%nat) ]
          [ ("name_nod_var", names "num_nod_var" [row "T"]);
            ("vals_nod_var", vals [[[1; 2]]; [[3; 4]]; [[5; 6]]]%Z) ].

(** Three names for two rows of values, and two rows under one name. *)
Definition more_names_than_rows : exodus_io.container Z :=
  dataset [ ("num_nodes", 2%nat); ("len_string", 33%nat);
            ("time_step", 1%nat); ("num_nod_var", 2%nat);
            ("num_names", 3%nat) ]
          [ ("name_nod_var", names "num_names" [row "a"; row "b"; row "c"]);
            ("vals_nod_var", vals [[[1; 2]; [3; 4]]]%Z) ].

Definition repeated_name : exodus_io.container Z :=
  dataset [ ("num_nodes", 2%nat); ("len_string", 33%nat);
            ("time_step", 1%nat); ("num_nod_var", 2%nat);
            ("num_names", 3%nat) ]
          [ ("name_nod_var", names "num_names" [row "a"; row "a"; row "b"]);
            ("vals_nod_var", vals [[[1; 2]; [3; 4]]]%Z) ].

(** A container with a node set and a side set. *)
Definition with_sets : exodus_io.container Z :=
  dataset
    [ ("num_nodes", 3%nat); ("len_string", 33%nat);
      ("num_el_in_blk1", 1%nat); ("num_nod_per_el1", 3%nat);
      ("num_node_sets", 1%nat); ("num_nod_ns1", 2%nat);
      ("num_side_sets", 1%nat); ("num_side_ss1", 1%nat) ]
    [ ("connect1", connect 0 "TRI3" 3 [[1; 2; 3]]%Z);
      ("ns_prop1",
       exodus_io.Var ["num_node_sets"] None (exodus_io.Idx1 int32 [0]%Z));
      ("ns_names", names "num_node_sets" [row "left"]);
      ("node_ns1",
       exodus_io.Var ["num_nod_ns1"] None (exodus_io.Idx1 int64 [1; 3]%Z));
      ("ss_prop1",
       exodus_io.Var ["num_side_sets"] None (exodus_io.Idx1 int32 [0]%Z));
      ("ss_names", names "num_side_sets" [row "base"]);
      ("elem_ss1",
       exodus_io.Var ["num_side_ss1"] None (exodus_io.Idx1 int64 [1]%Z));
      ("side_ss1",
       exodus_io.Var ["num_side_ss1"] None (exodus_io.Idx1 int64 [3]%Z)) ].

(** A mesh for the dispatcher: its cells, and the numbers of nodes of
    three canonical types. *)
Definition num_nodes_per_cell : dict string nat :=
  [("triangle", 3%nat); ("tetra", 4%nat); ("hexahedron", 8%nat)].

Definition short_hexahedron : dict string iarray2 :=
  [ ("triangle", IArray2 int64 3 [[0; 1; 2]]%Z);
    ("hexahedron", IArray2 int64 6 [[0; 1; 2; 3; 4; 5]]%Z) ].

Definition dispatch :=
  helpers.write (fun mesh : dict string iarray2 => mesh) num_nodes_per_cell.

(** A mesh for the dispatcher whose blocks have the registered
    widths. *)
Definition triangle_and_tetra : dict string iarray2 :=
  [ ("triangle", IArray2 int64 3 [[0; 1; 2]]%Z);
    ("tetra", IArray2 int64 4 [[0; 1; 2; 3]]%Z) ].

(** Two points stored by component, without [coordz]. *)
Definition by_component : exodus_io.container Z :=
  dataset [ ("num_nodes", 2%nat) ]
          [ ("coordx",
             exodus_io.Var ["num_nodes"] None (exodus_io.Num1 float64 [1; 2]%Z));
            ("coordy",
             exodus_io.Var ["num_nodes"] None (exodus_io.Num1 float32 [3; 4]%Z)) ].

(** A block of an element type that the registry does not have. *)
Definition sphere_block : exodus_io.container Z :=
  dataset [ ("num_nodes", 1%nat);
            ("num_el_in_blk1", 1%nat); ("num_nod_per_el1", 1%nat) ]
          [ ("connect1", connect 0 "SPHERE" 1 [[1]]%Z) ].

(** A field declared, and no time step stored. *)
Definition no_time_step : exodus_io.container Z :=
  dataset [ ("num_nodes", 2%nat); ("len_string", 33%nat);
            ("time_step", 0%nat); ("num_nod_var", 1%nat) ]
          [ ("name_nod_var", names "num_nod_var" [row "T"]);
            ("vals_nod_var", vals []) ].

(** The corners of the triangle in the plane, and in a dtype that the
    codec does not know. *)
Definition planar_points : exodus_io.farray2 Z :=
  exodus_io.FArray2 "float64" 2 [[0; 0]; [1; 0]; [0; 1]]%Z.

Definition half_points : exodus_io.farray2 Z :=
  exodus_io.FArray2 "float16" 3 [[0; 0; 0]; [1; 0; 0]; [0; 1; 0]]%Z.

(** A field under a one-letter name outside ASCII (U+00E9), and two
    fields of two dtypes. *)
Definition accented : dict pystr (exodus_io.farray1 Z) :=
  [([233]%Z, exodus_io.FArray1 "float64" [10; 20; 30]%Z)].

Definition mixed_fields : dict pystr (exodus_io.farray1 Z) :=
  [ (pystr_of_string "t", exodus_io.FArray1 "float32" [10; 20; 30]%Z);
    (pystr_of_string "p", exodus_io.FArray1 "float64" [1; 2; 3]%Z) ].

End samples.

(* ------------------------------------------------------------------ *)
(** * Properties *)

Unset Implicit Arguments.


(** ** Dictionaries and loops *)

Section DictFacts.
Context {K V : Type} `{Key K}.

Lemma keqb_refl (k : K) : keqb k k = true.
Proof. apply keqb_eq; reflexivity. Qed.

Lemma keqb_neq (a b : K) : a <> b -> keqb a b = false.
Proof.
  intros N. destruct (keqb a b) eqn:E; [|reflexivity].
  apply keqb_eq in E. contradiction.
Qed.

Lemma keqb_false (a b : K) : keqb a b = false -> a <> b.
Proof. intros E ->. rewrite keqb_refl in E. discriminate. Qed.

Lemma dict_get_app (k : K) (d1 d2 : dict K V) :
  dict_get k (d1 ++ d2) =
  match dict_get k d1 with Some v => Some v | None => dict_get k d2 end.
Proof.
  induction d1 as [|[k' v'] d1 IH]; simpl; [reflexivity|].
  destruct (keqb k k'); [reflexivity | exact IH].
Qed.

Lemma dict_get_set_same (k : K) (v : V) (d : dict K V) :
  dict_get k (dict_set k v d) = Some v.
Proof.
  induction d as [|[k' v'] d IH]; simpl.
  - rewrite keqb_refl. reflexivity.
  - destruct (keqb k k') eqn:E; simpl; rewrite E; [reflexivity | exact IH].
Qed.

Lemma dict_get_set_other (k k0 : K) (v : V) (d : dict K V) :
  k <> k0 -> dict_get k (dict_set k0 v d) = dict_get k d.
Proof.
  intros N. induction d as [|[k' v'] d IH]; simpl.
  - rewrite (keqb_neq _ _ N). reflexivity.
  - destruct (keqb k0 k') eqn:E; simpl.
    + apply keqb_eq in E. subst k'. rewrite (keqb_neq _ _ N). reflexivity.
    + rewrite IH. reflexivity.
Qed.

Lemma dict_get_In (k : K) (v : V) (d : dict K V) :
  dict_get k d = Some v -> In (k, v) d.
Proof.
  induction d as [|[k' v'] d IH]; simpl; [discriminate|].
  destruct (keqb k k') eqn:E.
  - apply keqb_eq in E. intros [= ->]. left. subst. reflexivity.
  - intros G. right. exact (IH G).
Qed.

Lemma dict_get_not_key (k : K) (d : dict K V) :
  ~ In k (keys d) -> dict_get k d = None.
Proof.
  induction d as [|[k' v'] d IH]; simpl; [reflexivity|].
  intros N. rewrite keqb_neq; [apply IH | ]; intuition congruence.
Qed.

Lemma dict_get_none_not_key (k : K) (d : dict K V) :
  dict_get k d = None -> ~ In k (keys d).
Proof.
  induction d as [|[k' v'] d IH]; simpl; [tauto|].
  destruct (keqb k k') eqn:E; [discriminate|].
  intros G [->|I]; [rewrite keqb_refl in E; discriminate | exact (IH G I)].
Qed.

Lemma dict_get_NoDup (k : K) (v : V) (d : dict K V) :
  NoDup (keys d) -> In (k, v) d -> dict_get k d = Some v.
Proof.
  induction d as [|[k' v'] d IH]; simpl; [tauto|].
  intros ND [E|I].
  - inversion E; subst. rewrite keqb_refl. reflexivity.
  - inversion ND as [|? ? NI ND']; subst.
    rewrite keqb_neq; [exact (IH ND' I)|].
    intros ->. apply NI. change k' with (fst (k', v)).
    apply in_map. exact I.
Qed.

(** Setting a key that the dictionary lacks appends it. *)
Lemma dict_set_fresh (k : K) (v : V) (d : dict K V) :
  dict_get k d = None -> dict_set k v d = d ++ [(k, v)].
Proof.
  induction d as [|[k' v'] d IH]; simpl; [reflexivity|].
  destruct (keqb k k'); [discriminate|].
  intros G. rewrite (IH G). reflexivity.
Qed.

Lemma keys_dict_set (k : K) (v : V) (d : dict K V) :
  keys (dict_set k v d) =
  match dict_get k d with Some _ => keys d | None => keys d ++ [k] end.
Proof.
  unfold keys.
  induction d as [|[k' v'] d IH]; simpl; [reflexivity|].
  destruct (keqb k k') eqn:E; simpl; [reflexivity|].
  rewrite IH.
  destruct (dict_get k d); reflexivity.
Qed.

Lemma NoDup_dict_set (k : K) (v : V) (d : dict K V) :
  NoDup (keys d) -> NoDup (keys (dict_set k v d)).
Proof.
  intros ND. rewrite keys_dict_set.
  destruct (dict_get k d) eqn:G; [exact ND|].
  apply NoDup_app; [exact ND | repeat constructor; simpl; tauto |].
  intros x I [<-|[]]. exact (dict_get_none_not_key _ _ G I).
Qed.

(** A comprehension keeps, for each key, the last of its pairs. *)
Lemma dict_get_fold_set (k : K) (ps : list (K * V)) (d : dict K V) :
  dict_get k (fold_left (fun d kv => dict_set (fst kv) (snd kv) d) ps d) =
  match dict_get k (rev ps) with Some v => Some v | None => dict_get k d end.
Proof.
  revert d. induction ps as [|[k' v'] ps IH]; intros d; simpl; [reflexivity|].
  rewrite IH, dict_get_app. simpl.
  destruct (dict_get k (rev ps)); [reflexivity|].
  destruct (keqb k k') eqn:E.
  - apply keqb_eq in E. subst. apply dict_get_set_same.
  - apply dict_get_set_other. exact (keqb_false _ _ E).
Qed.

Lemma dict_get_of_pairs (k : K) (ps : list (K * V)) :
  dict_get k (dict_of_pairs ps) = dict_get k (rev ps).
Proof.
  unfold dict_of_pairs. rewrite dict_get_fold_set.
  destruct (dict_get k (rev ps)); reflexivity.
Qed.

Lemma NoDup_fold_set (ps : list (K * V)) (d : dict K V) :
  NoDup (keys d) ->
  NoDup (keys (fold_left (fun d kv => dict_set (fst kv) (snd kv) d) ps d)).
Proof.
  revert d. induction ps as [|p ps IH]; intros d ND; simpl; [exact ND|].
  apply IH, NoDup_dict_set, ND.
Qed.

Lemma NoDup_dict_of_pairs (ps : list (K * V)) : NoDup (keys (dict_of_pairs ps)).
Proof. apply NoDup_fold_set. constructor. Qed.

Lemma keys_fold_set_incl (ps : list (K * V)) (d : dict K V) (k : K) :
  In k (keys (fold_left (fun d kv => dict_set (fst kv) (snd kv) d) ps d)) ->
  In k (keys d) \/ In k (map fst ps).
Proof.
  revert d. induction ps as [|p ps IH]; intros d I; simpl in *; [tauto|].
  destruct (IH _ I) as [I'|I']; [|tauto].
  rewrite keys_dict_set in I'.
  destruct (dict_get (fst p) d); [tauto|].
  apply in_app_or in I'. simpl in I'. tauto.
Qed.

(** A comprehension over pairs with pairwise distinct keys is the
    list of those pairs. *)
Lemma fold_set_NoDup (ps : list (K * V)) (d : dict K V) :
  NoDup (keys d ++ map fst ps) ->
  fold_left (fun d kv => dict_set (fst kv) (snd kv) d) ps d = d ++ ps.
Proof.
  revert d. induction ps as [|[k v] ps IH]; intros d ND; simpl.
  - rewrite app_nil_r. reflexivity.
  - rewrite dict_set_fresh.
    + rewrite IH.
      * rewrite <- app_assoc. reflexivity.
      * unfold keys in *. rewrite map_app, <- app_assoc. exact ND.
    + apply dict_get_not_key. intros I.
      apply NoDup_remove_2 in ND. apply ND. apply in_or_app. tauto.
Qed.

Lemma dict_of_pairs_NoDup (ps : list (K * V)) :
  NoDup (map fst ps) -> dict_of_pairs ps = ps.
Proof. intros ND. unfold dict_of_pairs. rewrite fold_set_NoDup; auto. Qed.
End DictFacts.

Lemma dict_get_cons_string {V} (k k' : string) (v : V) (d : dict string V) :
  dict_get k ((k', v) :: d) = if (k' =? k)%string then Some v else dict_get k d.
Proof. cbn [dict_get keqb string_Key]. rewrite String.eqb_sym. reflexivity. Qed.

Lemma foldM_cons {S X} (f : S -> X -> result S) (x : X) (xs : list X) (s : S) :
  foldM f (x :: xs) s = (s' <- f s x ;; foldM f xs s').
Proof. reflexivity. Qed.

Lemma foldM_app {S X} (f : S -> X -> result S) (xs ys : list X) (s : S) :
  foldM f (xs ++ ys) s = (s' <- foldM f xs s ;; foldM f ys s').
Proof.
  revert s. induction xs as [|x xs IH]; intros s; simpl; [reflexivity|].
  destruct (f s x); simpl; [apply IH | reflexivity].
Qed.

(** ** Format resolution *)

Lemma filetype_loop_spec (table : dict string string) (suffixes : list string) :
  helpers.filetype_loop table suffixes =
  (helpers.join suffixes,
   helpers.first_known table (helpers.compound_suffixes suffixes)).
Proof.
  unfold helpers.filetype_loop.
  induction suffixes as [|s rest IH]; [reflexivity|].
  simpl rev. rewrite fold_left_app, IH. simpl.
  unfold helpers.suffix_step. simpl.
  destruct (dict_get (s ++ helpers.join rest)%string table); reflexivity.
Qed.

(** C4. Without an explicit format, [_filetype_from_filename] returns
    the format of the longest compound suffix of the file name that
    the extension table knows, as if the compound suffixes were tried
    from the most specific one down ([".dato.gz"] before [".gz"]);
    when none is known it fails with [UnknownFormat] carrying the
    whole compound extension.  ["mesh.post.gz"] resolves to permas,
    ["mesh.xdmf"] to xdmf, and ["mesh.unknown"] fails naming
    [".unknown"]. *)
Theorem filetype_from_filename_longest_suffix :
  (forall filename,
     helpers._filetype_from_filename filename
     = helpers.resolve_longest_suffix filename)
  /\ helpers.compound_suffixes (helpers.suffixes_of "mesh.dato.gz")
     = [".dato.gz"; ".gz"]
  /\ helpers._filetype_from_filename "mesh.post.gz" = Ok "permas"
  /\ helpers._filetype_from_filename "mesh.xdmf" = Ok "xdmf"
  /\ helpers._filetype_from_filename "mesh.unknown"
     = Raise (UnknownFormat ".unknown").
Proof.
  split; [|repeat split; reflexivity].
  intros filename.
  unfold helpers._filetype_from_filename, helpers.resolve_longest_suffix.
  rewrite filetype_loop_spec. reflexivity.
Qed.

(** ** The element-type registry *)

(** C6. Every canonical tag [c] of the reverse mapping has a disk tag
    that maps back to [c]; every registered disk tag [t] is sent, by
    [to_canonical] and then [to_disk], to a registered disk tag of the
    same canonical type, which is the alias registered last and so not
    always [t] itself (["BEAM"] comes back as ["BAR2"]). *)
Theorem registry_round_trip :
  Forall (fun c => exists t,
            exodus_io.to_disk c = Ok t /\ exodus_io.to_canonical t = Ok c)
         (keys exodus_io.meshio_to_exodus_type)
  /\ Forall (fun t => exists c t',
               exodus_io.to_canonical t = Ok c
               /\ exodus_io.to_disk c = Ok t'
               /\ In t' (keys exodus_io.exodus_to_meshio_type)
               /\ exodus_io.to_canonical t' = Ok c)
            (keys exodus_io.exodus_to_meshio_type)
  /\ (forall c, dict_get c exodus_io.meshio_to_exodus_type
                = exodus_io.last_alias c)
  /\ exodus_io.to_canonical "BEAM" = Ok "line"
  /\ exodus_io.to_disk "line" = Ok "BAR2".
Proof.
  split; [|split; [|split; [|split; reflexivity]]].
  - repeat (apply Forall_cons; [eexists; split; reflexivity|]).
    apply Forall_nil.
  - repeat (apply Forall_cons;
            [eexists; eexists; split; [reflexivity|];
             split; [reflexivity|]; split; [simpl; tauto | reflexivity]|]).
    apply Forall_nil.
  - intros c. unfold exodus_io.meshio_to_exodus_type, exodus_io.invert.
    apply dict_get_of_pairs.
Qed.

(** ** The dispatcher *)

Section Dispatch.
Variable Mesh : Type.
Variable cells : Mesh -> dict string iarray2.
Variable num_nodes_per_cell : dict string nat.

Local Abbreviation check_block := (helpers.check_block num_nodes_per_cell).
Local Abbreviation write := (helpers.write cells num_nodes_per_cell).

Lemma check_loop_ok (blocks : dict string iarray2) :
  Forall (fun kv => check_block tt kv = Ok tt) blocks ->
  foldM check_block blocks tt = Ok tt.
Proof.
  induction 1 as [|kv blocks E _ IH]; simpl; [reflexivity|].
  rewrite E. simpl. exact IH.
Qed.

Lemma check_loop_raises (blocks : dict string iarray2) (kv : string * iarray2) :
  In kv blocks -> check_block tt kv <> Ok tt ->
  exists e, foldM check_block blocks tt = Raise e.
Proof.
  induction blocks as [|kv' blocks IH]; simpl; [tauto|].
  intros [->|I] N.
  - destruct (check_block tt kv) as [[]|e]; [congruence|].
    exists e. reflexivity.
  - destruct (check_block tt kv') as [[]|e]; simpl; [auto | eauto].
Qed.

Lemma check_block_mismatch (key : string) (block : iarray2) (n : nat) :
  dict_get key num_nodes_per_cell = Some n -> i2_ncols block <> n ->
  check_block tt (key, block) = Raise MalformedCellBlock.
Proof.
  intros G N. unfold helpers.check_block. simpl. rewrite G.
  destruct (Nat.eqb_spec (i2_ncols block) n); [contradiction | reflexivity].
Qed.

(** C5. A mesh with a cell block whose row width differs from the
    registered number of nodes of its type makes [write] raise, so
    that no codec is called.  The exception is [MalformedCellBlock]
    when the format is given or deduced from the file name and the
    blocks before the offending one pass the check. *)
Theorem write_rejects_malformed_block
    (filename : string) (mesh : Mesh) (file_format : option string)
    (key : string) (block : iarray2) (n : nat) :
  In (key, block) (cells mesh) ->
  dict_get key num_nodes_per_cell = Some n ->
  i2_ncols block <> n ->
  (exists e, write filename mesh file_format = Raise e)
  /\ (forall fmt before after,
        helpers.deduce filename file_format = Ok fmt ->
        cells mesh = before ++ (key, block) :: after ->
        Forall (fun kv => check_block tt kv = Ok tt) before ->
        write filename mesh file_format = Raise MalformedCellBlock).
Proof.
  intros I G N.
  pose proof (check_block_mismatch key block n G N) as M.
  split.
  - unfold helpers.write.
    destruct (helpers.deduce filename file_format) as [fmt|e]; simpl;
      [|eauto].
    destruct (check_loop_raises (cells mesh) (key, block) I) as [e E].
    + rewrite M. discriminate.
    + rewrite E. simpl. eauto.
  - intros fmt before after D C B.
    unfold helpers.write. rewrite D. simpl.
    rewrite C, foldM_app, (check_loop_ok before B). simpl.
    rewrite M. reflexivity.
Qed.
End Dispatch.

(** ** Reading a container *)

Ltac innermost_match H :=
  match type of H with
  | context [match ?x with _ => _ end] =>
      lazymatch x with
      | context [match _ with _ => _ end] => fail
      | _ => let E := fresh "E" in destruct x eqn:E
      end
  end.

(** Case analysis of a computation in [result] that is known to have
    returned. *)
Ltac invert_ok H :=
  repeat (unfold bind in H; simpl in H;
          first [ discriminate H
                | match type of H with Ok _ = Ok _ => injection H as H end
                | innermost_match H ]).

(** Settles the tests of a key against the literal names. *)
Ltac decide_keys :=
  repeat match goal with
         | E : (?k =? _)%string = true |- _ =>
             is_var k; apply String.eqb_eq in E; subst k
         end;
  repeat match goal with
         | |- context [(?k =? ?lit)%string] =>
             is_var k;
             destruct (String.eqb_spec k lit);
             [subst k; simpl in *; try discriminate|]
         end.

Section Reading.
Variable F : Type.
Variable fzero : F.
Variable cast : dtype -> F -> F.

Local Abbreviation read_step := (exodus_io.read_step cast).
Local Abbreviation scan := (exodus_io.scan fzero cast).
Local Abbreviation read := (exodus_io.read fzero cast).

(** What a turn of the loop does to the names and to the values of
    the point data. *)
Lemma read_step_point_data (st st' : exodus_io.locals F) key value :
  read_step st (key, value) = Ok st' ->
  exodus_io.l_pd st'
  = (if key =? "vals_nod_var" then exodus_io.step0_of value
     else exodus_io.l_pd st)
  /\ exodus_io.l_point_data_names st'
     = (if key =? "name_nod_var" then exodus_io.names_of value
        else exodus_io.l_point_data_names st).
Proof.
  intros H. unfold exodus_io.read_step, exodus_io.set_column in H.
  invert_ok H; subst st'; simpl;
    unfold exodus_io.step0_of, exodus_io.names_of;
    decide_keys; simpl;
    repeat match goal with E : _ = _ |- _ => rewrite E end;
    split; reflexivity.
Qed.

Lemma scan_point_data (vars : dict string (exodus_io.variable F))
    (st st' : exodus_io.locals F) :
  NoDup (keys vars) ->
  foldM read_step vars st = Ok st' ->
  exodus_io.l_pd st'
  = match dict_get "vals_nod_var" vars with
    | Some value => exodus_io.step0_of value
    | None => exodus_io.l_pd st
    end
  /\ exodus_io.l_point_data_names st'
     = match dict_get "name_nod_var" vars with
       | Some value => exodus_io.names_of value
       | None => exodus_io.l_point_data_names st
       end.
Proof.
  revert st. induction vars as [|[key value] vars IH]; intros st ND H.
  - simpl in H. injection H as <-. split; reflexivity.
  - rewrite foldM_cons in H.
    destruct (read_step st (key, value)) as [st1|] eqn:E;
      simpl in H; [|discriminate H].
    inversion ND as [|? ? NI ND']; subst.
    destruct (IH st1 ND' H) as [P N].
    destruct (read_step_point_data _ _ _ _ E) as [P1 N1].
    rewrite !dict_get_cons_string.
    split.
    + destruct (String.eqb_spec key "vals_nod_var") as [->|].
      * rewrite (dict_get_not_key _ _ NI) in P. congruence.
      * rewrite P. destruct (dict_get "vals_nod_var" vars); congruence.
    + destruct (String.eqb_spec key "name_nod_var") as [->|].
      * rewrite (dict_get_not_key _ _ NI) in N. congruence.
      * rewrite N. destruct (dict_get "name_nod_var" vars); congruence.
Qed.

(** What [read] returns as point data. *)
Lemma read_point_data (nc : exodus_io.container F) (r : exodus_io.mesh_tuple F) :
  NoDup (keys (exodus_io.c_vars nc)) ->
  read nc = Ok r ->
  exodus_io.point_data_of r
  = dict_of_pairs (zip (exodus_io.field_names nc) (exodus_io.first_time_step nc)).
Proof.
  intros ND H. unfold exodus_io.read in H.
  destruct (dict_get "num_nodes" (exodus_io.c_dims nc)) as [n|];
    simpl in H; [|discriminate H].
  destruct (scan nc n) as [st|] eqn:E; simpl in H; [|discriminate H].
  injection H as <-.
  destruct (scan_point_data _ _ _ ND E) as [P N].
  unfold exodus_io.point_data_of, exodus_io.assemble. simpl.
  rewrite P, N. unfold exodus_io.field_names, exodus_io.first_time_step.
  destruct (dict_get "vals_nod_var" (exodus_io.c_vars nc));
    destruct (dict_get "name_nod_var" (exodus_io.c_vars nc));
    reflexivity.
Qed.

(** A variable under any other name is skipped. *)
Lemma read_step_ignored (st : exodus_io.locals F) key value :
  exodus_io.recognised key = false -> read_step st (key, value) = Ok st.
Proof.
  unfold exodus_io.recognised, exodus_io.read_step. simpl.
  intros H.
  repeat (apply orb_false_iff in H; destruct H as [? H]).
  repeat match goal with E : _ = false |- _ => rewrite E; clear E end.
  reflexivity.
Qed.

Lemma set_variable_ignored key :
  exodus_io.is_set_variable key = true -> exodus_io.recognised key = false.
Proof.
  unfold exodus_io.is_set_variable, exodus_io.recognised. simpl.
  intros H.
  repeat (apply orb_true_iff in H; destruct H as [H|H]);
    try discriminate H; apply String.eqb_eq in H;
    try (subst key; reflexivity);
    rewrite H; simpl;
    decide_keys; reflexivity.
Qed.

Lemma scan_filter (p : string -> bool)
    (vars : dict string (exodus_io.variable F)) (st : exodus_io.locals F) :
  (forall key, p key = false -> exodus_io.recognised key = false) ->
  foldM read_step (filter (fun kv => p (fst kv)) vars) st
  = foldM read_step vars st.
Proof.
  intros P. revert st.
  induction vars as [|[key value] vars IH]; intros st; [reflexivity|].
  cbn [filter fst]. destruct (p key) eqn:E; rewrite !foldM_cons.
  - destruct (read_step st (key, value)); simpl; [apply IH | reflexivity].
  - rewrite (read_step_ignored st key value (P key E)). simpl. apply IH.
Qed.

(** C8. When [read] returns, the fourth and the fifth component of
    its result are empty mappings, and the result is the one of the
    same container without the variables of node sets and side
    sets: none of them is read. *)
Theorem read_leaves_cell_field_data_and_sets_out
    (nc : exodus_io.container F) (r : exodus_io.mesh_tuple F) :
  read nc = Ok r ->
  exodus_io.cell_data_of r = []
  /\ exodus_io.field_data_of r = []
  /\ read (exodus_io.without_sets nc) = Ok r.
Proof.
  intros H.
  assert (S : read (exodus_io.without_sets nc) = read nc).
  { unfold exodus_io.read, exodus_io.scan, exodus_io.without_sets. simpl.
    destruct (dict_get "num_nodes" (exodus_io.c_dims nc)); simpl;
      [|reflexivity].
    rewrite (scan_filter (fun key => negb (exodus_io.is_set_variable key))).
    - reflexivity.
    - intros key E. apply set_variable_ignored.
      destruct (exodus_io.is_set_variable key); [reflexivity | discriminate]. }
  rewrite S. split; [|split; [|exact H]].
  - unfold exodus_io.read in H. invert_ok H. subst r. reflexivity.
  - unfold exodus_io.read in H. invert_ok H. subst r. reflexivity.
Qed.

Lemma scan_map (g : string * exodus_io.variable F -> string * exodus_io.variable F)
    (vars : dict string (exodus_io.variable F)) (st : exodus_io.locals F) :
  (forall st kv, read_step st (g kv) = read_step st kv) ->
  foldM read_step (map g vars) st = foldM read_step vars st.
Proof.
  intros G. revert st.
  induction vars as [|kv vars IH]; intros st; [reflexivity|].
  cbn [map]. rewrite !foldM_cons, G.
  destruct (read_step st kv); simpl; [apply IH | reflexivity].
Qed.

Lemma read_step_later_steps later (st : exodus_io.locals F) kv :
  read_step st (if fst kv =? "vals_nod_var"
                then (fst kv, exodus_io.with_later_steps later (snd kv))
                else kv)
  = read_step st kv.
Proof.
  destruct kv as [key [dims et data]]. cbn [fst snd].
  destruct (String.eqb_spec key "vals_nod_var") as [->|]; [|reflexivity].
  unfold exodus_io.with_later_steps. cbn [exodus_io.v_data].
  destruct data as [| | | | d [|step0 steps] |]; reflexivity.
Qed.

(** C7. When the [vals_nod_var] variable holds the time steps
    [step0 :: later], the point data that [read] returns pairs the
    field names with the rows of [step0], and [read] returns the
    same result whatever the later time steps hold. *)
Theorem read_takes_first_time_step
    (nc : exodus_io.container F) (r : exodus_io.mesh_tuple F)
    (value : exodus_io.variable F) (d : dtype)
    (step0 : list (list F)) (later : list (list (list F))) :
  NoDup (keys (exodus_io.c_vars nc)) ->
  dict_get "vals_nod_var" (exodus_io.c_vars nc) = Some value ->
  exodus_io.v_data value = exodus_io.Num3 d (step0 :: later) ->
  read nc = Ok r ->
  exodus_io.point_data_of r
  = dict_of_pairs (zip (exodus_io.field_names nc)
                       (map (exodus_io.FArray1 (dtype_name d)) step0))
  /\ forall later',
       read (exodus_io.map_vals_nod_var (exodus_io.with_later_steps later') nc)
       = Ok r.
Proof.
  intros ND G D H. split.
  - rewrite (read_point_data nc r ND H).
    unfold exodus_io.first_time_step. rewrite G.
    unfold exodus_io.step0_of. rewrite D. reflexivity.
  - intros later'. rewrite <- H.
    unfold exodus_io.read, exodus_io.scan, exodus_io.map_vals_nod_var.
    cbn [exodus_io.c_dims exodus_io.c_vars].
    destruct (dict_get "num_nodes" (exodus_io.c_dims nc)); simpl;
      [|reflexivity].
    rewrite scan_map; [reflexivity|].
    intros st kv. apply read_step_later_steps.
Qed.

(** The values of the point data are a frame for every other turn
    of the loop. *)
Lemma read_step_frame_pd pd (st : exodus_io.locals F) key value :
  key <> "vals_nod_var" ->
  read_step (exodus_io.with_pd pd st) (key, value)
  = (st' <- read_step st (key, value) ;; Ok (exodus_io.with_pd pd st')).
Proof.
  intros N. unfold exodus_io.read_step, exodus_io.set_column,
    exodus_io.with_pd, bind.
  cbn [exodus_io.l_points_dtype exodus_io.l_points_ncols exodus_io.l_points
       exodus_io.l_point_data_names exodus_io.l_pd exodus_io.l_cells].
  repeat match goal with
         | |- context [if ?b then _ else _] =>
             lazymatch b with
             | context [if _ then _ else _] => fail
             | _ => destruct b eqn:?
             end
         | |- context [match ?x with _ => _ end] =>
             lazymatch x with
             | context [match _ with _ => _ end] => fail
             | _ => destruct x eqn:?
             end
         end; simpl; try reflexivity.
  decide_keys. congruence.
Qed.

Lemma scan_with_step0 step0'
    (vars : dict string (exodus_io.variable F)) (st st' : exodus_io.locals F) :
  foldM read_step vars st = Ok st' ->
  forall pd, exists pd',
    foldM read_step
      (map (fun kv => if fst kv =? "vals_nod_var"
                      then (fst kv, exodus_io.with_step0 step0' (snd kv))
                      else kv) vars)
      (exodus_io.with_pd pd st)
    = Ok (exodus_io.with_pd pd' st').
Proof.
  revert st. induction vars as [|[key value] vars IH]; intros st H pd.
  - simpl in H. injection H as <-. exists pd. reflexivity.
  - rewrite foldM_cons in H.
    destruct (read_step st (key, value)) as [st1|] eqn:E; simpl in H;
      [|discriminate H].
    cbn [map fst snd]. rewrite foldM_cons.
    destruct (String.eqb_spec key "vals_nod_var") as [->|N].
    + destruct value as [dims et data].
      unfold exodus_io.read_step in E. simpl in E.
      destruct data as [| | | | d [|s0 steps] |]; try discriminate E.
      injection E as <-.
      destruct (IH _ H (map (exodus_io.FArray1 (dtype_name d)) step0'))
        as [pd' IH'].
      exists pd'. rewrite <- IH'. reflexivity.
    + rewrite (read_step_frame_pd pd st key value N), E. simpl.
      apply IH. exact H.
Qed.

Lemma length_dict_set {K V} `{Key K} (k : K) (v : V) (d : dict K V) :
  (length (dict_set k v d) <= S (length d))%nat.
Proof.
  induction d as [|[k' v'] d IH]; simpl; [lia|].
  destruct (keqb k k'); simpl; lia.
Qed.

Lemma length_dict_of_pairs {K V} `{Key K} (ps : list (K * V)) :
  (length (dict_of_pairs ps) <= length ps)%nat.
Proof.
  unfold dict_of_pairs.
  assert (G : forall d : dict K V,
             (length (fold_left (fun d kv => dict_set (fst kv) (snd kv) d) ps d)
              <= length d + length ps)%nat).
  { induction ps as [|p ps IH]; intros d; simpl; [lia|].
    specialize (IH (dict_set (fst p) (snd p) d)).
    pose proof (length_dict_set (fst p) (snd p) d). lia. }
  apply (G []).
Qed.

Lemma map_fst_zip {A B} (xs : list A) (ys : list B) :
  map fst (zip xs ys) = firstn (length ys) xs.
Proof.
  unfold zip. revert ys.
  induction xs as [|x xs IH]; intros [|y ys]; simpl; try reflexivity.
  rewrite IH. reflexivity.
Qed.

(** C10. On a container whose variables have distinct names, a
    [read] that returns gives the point data obtained by pairing the
    decoded field names with the rows of the first time step in
    order, up to the shorter of the two and with a later pair
    replacing an earlier one of the same name: at most
    [min (number of names) (number of rows)] entries, exactly that
    many when the names paired are distinct, and none when either
    variable is absent.  The number of rows has no part in whether
    [read] returns. *)
Theorem read_pairs_names_with_rows
    (nc : exodus_io.container F) (r : exodus_io.mesh_tuple F) :
  NoDup (keys (exodus_io.c_vars nc)) ->
  read nc = Ok r ->
  let names := exodus_io.field_names nc in
  let rows := exodus_io.first_time_step nc in
  exodus_io.point_data_of r = dict_of_pairs (zip names rows)
  /\ (length (exodus_io.point_data_of r)
      <= Nat.min (length names) (length rows))%nat
  /\ (NoDup (firstn (length rows) names) ->
      exodus_io.point_data_of r = zip names rows
      /\ length (exodus_io.point_data_of r)
         = Nat.min (length names) (length rows))
  /\ (dict_get "name_nod_var" (exodus_io.c_vars nc) = None
      \/ dict_get "vals_nod_var" (exodus_io.c_vars nc) = None ->
      exodus_io.point_data_of r = [])
  /\ (forall step0', exists r',
        read (exodus_io.map_vals_nod_var (exodus_io.with_step0 step0') nc)
        = Ok r').
Proof.
  intros ND H names rows.
  pose proof (read_point_data nc r ND H) as P. fold names rows in P.
  assert (L : length (zip names rows) = Nat.min (length names) (length rows)).
  { unfold zip. apply length_combine. }
  split; [exact P|]. split; [|split; [|split]].
  - rewrite P, <- L. apply length_dict_of_pairs.
  - intros D. rewrite P, dict_of_pairs_NoDup.
    + split; [reflexivity | exact L].
    + rewrite map_fst_zip. exact D.
  - rewrite P. unfold names, rows, exodus_io.field_names,
      exodus_io.first_time_step.
    intros [-> | ->]; [reflexivity|].
    destruct (dict_get "name_nod_var" (exodus_io.c_vars nc)) as [v|];
      [|reflexivity].
    unfold zip. destruct (exodus_io.names_of v); reflexivity.
  - intros step0'. unfold exodus_io.read in *.
    unfold exodus_io.map_vals_nod_var.
    cbn [exodus_io.c_dims exodus_io.c_vars].
    destruct (dict_get "num_nodes" (exodus_io.c_dims nc)) as [n|];
      simpl in *; [|discriminate H].
    unfold exodus_io.scan in *. cbn [exodus_io.c_vars].
    destruct (foldM read_step (exodus_io.c_vars nc)
                    (exodus_io.initial_locals fzero n)) as [st|] eqn:E;
      simpl in H; [|discriminate H].
    destruct (scan_with_step0 step0' _ _ _ E []) as [pd' S].
    change (exodus_io.with_pd [] (exodus_io.initial_locals fzero n))
      with (exodus_io.initial_locals fzero n) in S.
    rewrite S. simpl. eauto.
Qed.

(** *** Stacking of cell blocks *)

Lemma read_step_cells_NoDup (st st' : exodus_io.locals F) kv :
  NoDup (keys (exodus_io.l_cells st)) ->
  read_step st kv = Ok st' ->
  NoDup (keys (exodus_io.l_cells st')).
Proof.
  intros ND H. destruct kv as [key value].
  unfold exodus_io.read_step, exodus_io.set_column in H.
  invert_ok H; subst st'; simpl; auto using NoDup_dict_set.
Qed.

Lemma scan_cells_NoDup (vars : dict string (exodus_io.variable F))
    (st st' : exodus_io.locals F) :
  NoDup (keys (exodus_io.l_cells st)) ->
  foldM read_step vars st = Ok st' ->
  NoDup (keys (exodus_io.l_cells st')).
Proof.
  revert st. induction vars as [|kv vars IH]; intros st ND H.
  - simpl in H. injection H as <-. exact ND.
  - rewrite foldM_cons in H.
    destruct (read_step st kv) as [st1|] eqn:E; simpl in H;
      [|discriminate H].
    exact (IH st1 (read_step_cells_NoDup st st1 kv ND E) H).
Qed.

(** A variable that is not a block of type [t] leaves the entry of
    [t] as it is. *)
Lemma read_step_cells_other t (st st' : exodus_io.locals F) kv :
  exodus_io.is_block_of t kv = false ->
  read_step st kv = Ok st' ->
  dict_get t (exodus_io.l_cells st') = dict_get t (exodus_io.l_cells st).
Proof.
  intros B H. destruct kv as [key value].
  unfold exodus_io.is_block_of in B. cbn [fst snd] in B.
  unfold exodus_io.read_step, exodus_io.set_column in H.
  invert_ok H; subst st'; simpl; try reflexivity;
    repeat match goal with
           | E : ?x = _, B : context [?x] |- _ => rewrite E in B
           end;
    simpl in B; apply dict_get_set_other;
    intros ->; rewrite String.eqb_refl in B; discriminate B.
Qed.

Lemma scan_cells_other t (vars : dict string (exodus_io.variable F))
    (st st' : exodus_io.locals F) :
  forallb (fun kv => negb (exodus_io.is_block_of t kv)) vars = true ->
  foldM read_step vars st = Ok st' ->
  dict_get t (exodus_io.l_cells st') = dict_get t (exodus_io.l_cells st).
Proof.
  revert st. induction vars as [|kv vars IH]; intros st B H.
  - simpl in H. injection H as <-. reflexivity.
  - rewrite foldM_cons in H. simpl in B.
    apply andb_true_iff in B. destruct B as [B1 B2].
    destruct (read_step st kv) as [st1|] eqn:E; simpl in H;
      [|discriminate H].
    rewrite (IH st1 B2 H).
    apply (read_step_cells_other t st st1 kv); [|exact E].
    destruct (exodus_io.is_block_of t kv); [discriminate B1 | reflexivity].
Qed.

(** A block of type [t] opens the entry of [t] or is stacked under
    what the entry holds. *)
Lemma read_step_block t (st st' : exodus_io.locals F) key value d w rows :
  exodus_io.is_block_of t (key, value) = true ->
  exodus_io.v_data value = exodus_io.Idx2 d w rows ->
  read_step st (key, value) = Ok st' ->
  match dict_get t (exodus_io.l_cells st) with
  | None =>
      dict_get t (exodus_io.l_cells st')
      = Some (iarray2_add (IArray2 d w rows) (-1))
  | Some old =>
      exists stacked,
        vstack old (iarray2_add (IArray2 d w rows) (-1)) = Ok stacked
        /\ dict_get t (exodus_io.l_cells st') = Some stacked
  end.
Proof.
  intros B D H.
  unfold exodus_io.is_block_of in B. cbn [fst snd] in B.
  apply andb_true_iff in B. destruct B as [B1 B2].
  unfold exodus_io.read_step in H. rewrite B1, D in H.
  destruct (exodus_io.v_elem_type value) as [e|]; [|discriminate B2].
  cbn [bind] in H.
  destruct (exodus_io.to_canonical e) as [t'|]; [|discriminate B2].
  apply String.eqb_eq in B2. subst t'. unfold bind in H.
  destruct (dict_get t (exodus_io.l_cells st)) as [old|].
  - destruct (vstack old (iarray2_add (IArray2 d w rows) (-1)))
      as [stacked|] eqn:V; [|discriminate H].
    injection H as <-. exists stacked. split; [reflexivity|].
    simpl. apply dict_get_set_same.
  - injection H as <-. simpl. apply dict_get_set_same.
Qed.

Lemma vstack_ok (a b stacked : iarray2) :
  vstack a b = Ok stacked ->
  i2_ncols a = i2_ncols b
  /\ stacked
     = IArray2 (result_type (i2_dtype a) (i2_dtype b)) (i2_ncols a)
         (map (map (convert (i2_dtype a) (result_type (i2_dtype a) (i2_dtype b))))
              (i2_rows a)
          ++ map (map (convert (i2_dtype b) (result_type (i2_dtype a) (i2_dtype b))))
              (i2_rows b)).
Proof.
  unfold vstack. destruct (Nat.eqb_spec (i2_ncols a) (i2_ncols b)) as [E|];
    [|discriminate].
  intros [= <-]. split; [exact E | reflexivity].
Qed.

(** C3. Let a container hold exactly two [connect] blocks whose
    element types map to the canonical type [t], the one with
    [rows1] before the one with [rows2].  When [read] returns, the
    two blocks have the same row width and the cells hold one entry
    for [t]: the two blocks, each decremented by one, stacked by
    [vstack], which is the rows of the first followed by the rows of
    the second, as many as the two have together. *)
Theorem read_stacks_blocks_of_one_type
    (nc : exodus_io.container F) (r : exodus_io.mesh_tuple F) (t : string)
    (vars1 vars2 vars3 : dict string (exodus_io.variable F))
    (key1 key2 : string) (value1 value2 : exodus_io.variable F)
    (d1 d2 : dtype) (w1 w2 : nat) (rows1 rows2 : list (list Z)) :
  exodus_io.c_vars nc
  = vars1 ++ (key1, value1) :: vars2 ++ (key2, value2) :: vars3 ->
  exodus_io.is_block_of t (key1, value1) = true ->
  exodus_io.is_block_of t (key2, value2) = true ->
  exodus_io.v_data value1 = exodus_io.Idx2 d1 w1 rows1 ->
  exodus_io.v_data value2 = exodus_io.Idx2 d2 w2 rows2 ->
  forallb (fun kv => negb (exodus_io.is_block_of t kv))
          (vars1 ++ vars2 ++ vars3) = true ->
  read nc = Ok r ->
  w1 = w2
  /\ NoDup (keys (exodus_io.cells_of r))
  /\ exists stacked,
       dict_get t (exodus_io.cells_of r) = Some stacked
       /\ vstack (iarray2_add (IArray2 d1 w1 rows1) (-1))
                 (iarray2_add (IArray2 d2 w2 rows2) (-1)) = Ok stacked
       /\ length (i2_rows stacked) = (length rows1 + length rows2)%nat
       /\ i2_rows stacked
          = map (map (fun z => convert d1 (result_type d1 d2) (astype d1 (z + -1))))
                rows1
            ++ map (map (fun z => convert d2 (result_type d1 d2) (astype d2 (z + -1))))
                rows2.
Proof.
  intros V B1 B2 D1 D2 O H.
  rewrite !forallb_app in O.
  apply andb_true_iff in O. destruct O as [O1 O].
  apply andb_true_iff in O. destruct O as [O2 O3].
  unfold exodus_io.read in H.
  destruct (dict_get "num_nodes" (exodus_io.c_dims nc)) as [n|];
    simpl in H; [|discriminate H].
  destruct (scan nc n) as [st|] eqn:E; simpl in H; [|discriminate H].
  injection H as <-.
  unfold exodus_io.scan in E. rewrite V in E.
  assert (ND : NoDup (keys (exodus_io.l_cells st))).
  { apply (scan_cells_NoDup _ _ st) in E; [exact E | simpl; constructor]. }
  rewrite foldM_app in E.
  destruct (foldM read_step vars1 _) as [s1|] eqn:E1; cbn [bind] in E;
    [|discriminate E].
  rewrite foldM_cons in E.
  destruct (read_step s1 (key1, value1)) as [s2|] eqn:E2; cbn [bind] in E;
    [|discriminate E].
  rewrite foldM_app in E.
  destruct (foldM read_step vars2 s2) as [s3|] eqn:E3; cbn [bind] in E;
    [|discriminate E].
  rewrite foldM_cons in E.
  destruct (read_step s3 (key2, value2)) as [s4|] eqn:E4; cbn [bind] in E;
    [|discriminate E].
  pose proof (scan_cells_other t _ _ _ O1 E1) as C1. simpl in C1.
  pose proof (read_step_block t _ _ _ _ _ _ _ B1 D1 E2) as C2.
  rewrite C1 in C2.
  pose proof (scan_cells_other t _ _ _ O2 E3) as C3. rewrite C2 in C3.
  pose proof (read_step_block t _ _ _ _ _ _ _ B2 D2 E4) as C4.
  rewrite C3 in C4. destruct C4 as [stacked [S C4]].
  pose proof (scan_cells_other t _ _ _ O3 E) as C5. rewrite C4 in C5.
  destruct (vstack_ok _ _ _ S) as [W ->]. simpl in W.
  split; [exact W|]. split; [exact ND|].
  eexists. split; [exact C5|]. split; [exact S|].
  simpl. rewrite !map_map. split.
  - rewrite length_app, !length_map. reflexivity.
  - f_equal; apply map_ext; intros row; apply map_map.
Qed.
End Reading.

(** ** Writing a container *)

Lemma dtype_eqb_refl (d : dtype) : dtype_eqb d d = true.
Proof. destruct d; reflexivity. Qed.

Lemma convert_same (d : dtype) (z : Z) : convert d d z = z.
Proof. unfold convert. rewrite dtype_eqb_refl. reflexivity. Qed.

Lemma map_convert_same (d : dtype) (zs : list Z) : map (convert d d) zs = zs.
Proof.
  induction zs as [|z zs IH]; simpl; [reflexivity|].
  rewrite convert_same, IH. reflexivity.
Qed.

Lemma map_map_convert_same (d : dtype) (rows : list (list Z)) :
  map (map (convert d d)) rows = rows.
Proof.
  induction rows as [|row rows IH]; simpl; [reflexivity|].
  rewrite map_convert_same, IH. reflexivity.
Qed.

(** The store gives a variable the dtype that the array had. *)
Lemma code_of_dtype (d d' : dtype) (code : string) :
  exodus_dtype (dtype_name d) = Ok code ->
  exodus_io.code_dtype code = Ok d' -> d' = d.
Proof.
  destruct d; simpl; intros [= <-]; simpl; intros [= <-]; reflexivity.
Qed.

Lemma code_of_dtype_ok (d : dtype) :
  exists code, exodus_dtype (dtype_name d) = Ok code
               /\ exodus_io.code_dtype code = Ok d.
Proof. destruct d; eexists; split; reflexivity. Qed.

Lemma representable_astype (d : dtype) (z : Z) :
  representable d z = true -> astype d z = z.
Proof.
  unfold representable, astype, wrap, round_float.
  destruct d; simpl; intros H;
    try (apply andb_true_iff in H; destruct H as [L U];
         apply Z.leb_le in L; apply Z.ltb_lt in U);
    try (rewrite H; reflexivity).
  all: try (rewrite Z.mod_small; lia).
Qed.

Lemma mapM_length {X Y} (f : X -> result Y) (xs : list X) (ys : list Y) :
  mapM f xs = Ok ys -> length ys = length xs.
Proof.
  revert ys. induction xs as [|x xs IH]; intros ys H; simpl in H.
  - injection H as <-. reflexivity.
  - destruct (f x); simpl in H; [|discriminate H].
    destruct (mapM f xs) as [ys'|]; simpl in H; [|discriminate H].
    injection H as <-. simpl. rewrite (IH ys' eq_refl). reflexivity.
Qed.

Lemma mapM_ok {X Y} (f : X -> result Y) (g : X -> Y) (xs : list X) :
  Forall (fun x => f x = Ok (g x)) xs -> mapM f xs = Ok (map g xs).
Proof.
  induction 1 as [|x xs E _ IH]; simpl; [reflexivity|].
  rewrite E, IH. reflexivity.
Qed.

(** *** Arrays *)

Lemma wrap_succ_pred (signed : bool) (bits z : Z) :
  wrap signed bits (wrap signed bits (z + 1) + -1) = wrap signed bits z.
Proof.
  unfold wrap. destruct signed.
  - f_equal.
    replace ((z + 1 + 2 ^ (bits - 1)) mod 2 ^ bits - 2 ^ (bits - 1) + -1
             + 2 ^ (bits - 1))%Z
      with ((z + 1 + 2 ^ (bits - 1)) mod 2 ^ bits - 1)%Z by lia.
    rewrite Zminus_mod_idemp_l. f_equal. lia.
  - replace ((z + 1) mod 2 ^ bits + -1)%Z with ((z + 1) mod 2 ^ bits - 1)%Z
      by lia.
    rewrite Zminus_mod_idemp_l. f_equal. lia.
Qed.

Lemma index_round_trip (d : dtype) (z : Z) :
  exodus_io.index_ok d z -> astype d (astype d (z + 1) + -1) = z.
Proof.
  intros [V S]. unfold astype in *.
  destruct (int_kind d) as [[signed bits]|].
  - rewrite wrap_succ_pred. exact V.
  - rewrite (S eq_refl). replace (z + 1 + -1)%Z with z by lia. exact V.
Qed.

Lemma length_transpose {A} (n : nat) (rows : list (list A)) :
  length (transpose n rows) = n.
Proof.
  revert rows. induction n as [|n IH]; intros rows; simpl;
    [reflexivity | rewrite IH; reflexivity].
Qed.

Lemma transpose_cons {A} (n : nat) (r : list A) (rows : list (list A)) :
  length r = n ->
  transpose n (r :: rows) = zip_cons r (transpose n rows).
Proof.
  revert r rows. induction n as [|n IH]; intros r rows L.
  - destruct r; [reflexivity | discriminate L].
  - destruct r as [|x r]; [discriminate L|].
    injection L as L. cbn [transpose flat_map map tl app].
    rewrite (IH r (map (@tl A) rows) L). reflexivity.
Qed.

Lemma transpose_zip_cons {A} (m : nat) (r : list A) (cols : list (list A)) :
  length r = length cols ->
  transpose (S m) (zip_cons r cols) = r :: transpose m cols.
Proof.
  intros L. cbn [transpose]. f_equal.
  - revert cols L. induction r as [|x r IH]; intros [|c cols] L;
      try discriminate L; [reflexivity|].
    injection L as L. unfold zip_cons in *. simpl. rewrite (IH cols L).
    reflexivity.
  - f_equal. revert cols L. induction r as [|x r IH]; intros [|c cols] L;
      try discriminate L; [reflexivity|].
    injection L as L. unfold zip_cons in *. simpl. rewrite (IH cols L).
    reflexivity.
Qed.

(** Transposing twice gives the matrix back. *)
Lemma transpose_involutive {A} (n : nat) (rows : list (list A)) :
  wf_rows n rows -> transpose (length rows) (transpose n rows) = rows.
Proof.
  induction 1 as [|r rows L _ IH]; [reflexivity|].
  rewrite (transpose_cons n r rows L). cbn [length].
  rewrite transpose_zip_cons; [rewrite IH; reflexivity|].
  rewrite length_transpose. exact L.
Qed.

Lemma transpose_row_lengths {A} (n : nat) (rows : list (list A)) :
  wf_rows n rows -> wf_rows (length rows) (transpose n rows).
Proof.
  induction 1 as [|r rows L _ IH].
  - unfold wf_rows. clear. induction n as [|n IH]; simpl; constructor; auto.
  - rewrite (transpose_cons n r rows L). unfold wf_rows, zip_cons in *.
    apply Forall_forall. intros col I. apply in_map_iff in I.
    destruct I as [[x c] [<- I]]. apply in_combine_r in I.
    rewrite Forall_forall in IH. simpl. rewrite (IH c I). reflexivity.
Qed.

Lemma broadcast_to_same {A} (n : nat) (xs : list A) :
  length xs = n -> broadcast_to n xs = Ok xs.
Proof. intros L. unfold broadcast_to. rewrite L, Nat.eqb_refl. reflexivity. Qed.

Lemma broadcast2_same {A} (n m : nat) (rows : list (list A)) :
  length rows = n -> wf_rows m rows ->
  exodus_io.broadcast2 n m m rows = Ok rows.
Proof.
  intros L W. unfold exodus_io.broadcast2. rewrite Nat.eqb_refl. simpl.
  rewrite (mapM_ok (broadcast_to m) (fun r => r)).
  - rewrite map_id. simpl. apply broadcast_to_same, L.
  - unfold wf_rows in W. apply Forall_forall. intros r I.
    rewrite Forall_forall in W. apply broadcast_to_same, W, I.
Qed.

(** *** Names of dimensions and variables *)

Lemma format_nat_inj (n m : nat) : format_nat n = format_nat m -> n = m.
Proof.
  unfold format_nat. intros E.
  apply (f_equal DecimalString.NilEmpty.uint_of_string) in E.
  rewrite !DecimalString.NilEmpty.usu in E. injection E as E.
  apply DecimalNat.Unsigned.to_uint_inj, E.
Qed.

Lemma append_inj_r (b x y : string) : (b ++ x = b ++ y)%string -> x = y.
Proof.
  induction b as [|ch b IH]; simpl; [auto|]. intros [= E]. exact (IH E).
Qed.

Lemma suffixed_eqb (base : string) (k j : nat) :
  (exodus_io.suffixed base k =? exodus_io.suffixed base j)%string = Nat.eqb k j.
Proof.
  destruct (Nat.eqb_spec k j) as [->|N]; [apply String.eqb_refl|].
  apply String.eqb_neq. intros E. apply N.
  apply append_inj_r, format_nat_inj in E. lia.
Qed.

Lemma substring_0_0 (s : string) : substring 0 0 s = "".
Proof. destruct s; reflexivity. Qed.

Lemma connect_prefix (k : nat) :
  substring 0 7 (exodus_io.suffixed "connect" k) = "connect".
Proof. unfold exodus_io.suffixed. simpl. rewrite substring_0_0. reflexivity. Qed.

(** The disk tag of a canonical type is a tag of that type. *)
Lemma to_canonical_disk_tag (key : string) :
  dict_mem key exodus_io.meshio_to_exodus_type = true ->
  exodus_io.to_disk key = Ok (exodus_io.disk_tag key)
  /\ exodus_io.to_canonical (exodus_io.disk_tag key) = Ok key.
Proof.
  unfold dict_mem, exodus_io.to_disk, exodus_io.disk_tag.
  destruct (dict_get key exodus_io.meshio_to_exodus_type) as [t|] eqn:G;
    [|discriminate].
  intros _. split; [reflexivity|].
  apply dict_get_In in G. vm_compute in G.
  repeat (destruct G as [G|G]; [injection G as <- <-; reflexivity|]).
  contradiction.
Qed.

(** *** Names in fixed-width rows *)

Lemma utf8_decode_ascii (name : pystr) :
  exodus_io.ascii_name name -> utf8_decode name = Ok name.
Proof.
  induction 1 as [|ch name [L U] _ IH]; [reflexivity|].
  cbn [utf8_decode].
  replace ((0 <=? ch)%Z && (ch <? 128)%Z) with true
    by (symmetry; apply andb_true_iff; split;
        [apply Z.leb_le | apply Z.ltb_lt]; lia).
  rewrite IH. reflexivity.
Qed.

Lemma utf8_encode_ascii (ch : Z) :
  (1 <= ch < 128)%Z -> utf8_encode_char ch = Ok [ch].
Proof.
  intros [L U]. unfold utf8_encode_char.
  destruct (Z.ltb_spec ch 0); [lia|].
  destruct (Z.ltb_spec ch 128); [reflexivity | lia].
Qed.

Lemma join_cells_fill (n : nat) : exodus_io.join_cells (repeat 0%Z n) = [].
Proof. induction n as [|n IH]; simpl; [reflexivity | exact IH]. Qed.

Lemma join_cells_padded (n : nat) (name : pystr) :
  exodus_io.ascii_name name ->
  exodus_io.join_cells (exodus_io.padded n name) = name.
Proof.
  unfold exodus_io.padded, exodus_io.join_cells.
  intros A. rewrite flat_map_app.
  fold (exodus_io.join_cells (repeat 0%Z (n - length name))).
  rewrite join_cells_fill, app_nil_r.
  induction A as [|ch name [L U] _ IH]; simpl; [reflexivity|].
  destruct (Z.eqb_spec ch 0); [lia|]. simpl. rewrite IH. reflexivity.
Qed.

Lemma decode_padded (n : nat) (name : pystr) :
  exodus_io.ascii_name name ->
  utf8_decode (exodus_io.join_cells (exodus_io.padded n name)) = Ok name.
Proof.
  intros A. rewrite (join_cells_padded n name A). apply utf8_decode_ascii, A.
Qed.

Lemma set_nth_middle {A} (pre : list A) (x y : A) (rest : list A) :
  set_nth (length pre) x (pre ++ y :: rest) = pre ++ x :: rest.
Proof. induction pre as [|p pre IH]; simpl; [reflexivity | rewrite IH; reflexivity]. Qed.

Lemma write_name_from (strict_bounds : bool) (name pre : list Z) (m : nat) :
  exodus_io.ascii_name name -> (length name <= m)%nat ->
  foldM (fun r il => bytes <- utf8_encode_char (snd il) ;;
                     exodus_io.put_cell strict_bounds (fst il) bytes r)
        (enumerate_from (length pre) name) (pre ++ repeat 0%Z m)
  = Ok (pre ++ name ++ repeat 0%Z (m - length name)).
Proof.
  intros A. revert pre m.
  induction A as [|ch name R _ IH]; intros pre m L.
  - simpl. rewrite Nat.sub_0_r. reflexivity.
  - cbn [enumerate_from]. rewrite foldM_cons. cbn [fst snd].
    rewrite (utf8_encode_ascii ch R). cbn [bind].
    destruct m as [|m]; [simpl in L; lia|].
    unfold exodus_io.put_cell.
    replace (length pre <? length (pre ++ repeat 0%Z (S m)))%nat with true
      by (symmetry; apply Nat.ltb_lt; rewrite length_app, repeat_length; lia).
    cbn [repeat hd bind]. rewrite set_nth_middle.
    replace (S (length pre)) with (length (pre ++ [ch]))
      by (rewrite length_app; simpl; lia).
    replace (pre ++ ch :: repeat 0%Z m) with ((pre ++ [ch]) ++ repeat 0%Z m)
      by (rewrite <- app_assoc; reflexivity).
    rewrite IH by (simpl in L; lia).
    rewrite <- app_assoc. reflexivity.
Qed.

Lemma write_name_ascii (strict_bounds : bool) (name : pystr) (n : nat) :
  exodus_io.ascii_name name -> (length name <= n)%nat ->
  exodus_io.write_name strict_bounds (repeat 0%Z n) name
  = Ok (exodus_io.padded n name).
Proof.
  intros A L. unfold exodus_io.write_name, enumerate.
  exact (write_name_from strict_bounds name [] n A L).
Qed.

Lemma write_names_ascii (strict_bounds : bool) (names : list pystr) (n : nat) :
  Forall (fun name => exodus_io.ascii_name name /\ (length name <= n)%nat) names ->
  exodus_io.write_names strict_bounds
    (repeat (repeat 0%Z n) (length names)) names
  = Ok (map (exodus_io.padded n) names).
Proof.
  unfold exodus_io.write_names.
  induction 1 as [|name names [A L] _ IH]; [reflexivity|].
  cbn [length repeat combine mapM fst snd map].
  rewrite (write_name_ascii strict_bounds name n A L). cbn [bind].
  rewrite IH. reflexivity.
Qed.

Lemma decode_padded_names (n : nat) (names : list pystr) :
  Forall (fun name => exodus_io.ascii_name name /\ (length name <= n)%nat) names ->
  mapM (fun c => utf8_decode (exodus_io.join_cells c))
       (map (exodus_io.padded n) names)
  = Ok names.
Proof.
  induction 1 as [|name names [A L] _ IH]; [reflexivity|].
  cbn [map mapM]. rewrite (decode_padded n name A), IH. reflexivity.
Qed.

Section Writing.
Variable F : Type.
Variable fzero : F.
Variable cast : dtype -> F -> F.
Variable strict_bounds : bool.

Local Abbreviation container := (exodus_io.container F).
Local Abbreviation extends := (@exodus_io.extends F).
Local Abbreviation write_block := (@exodus_io.write_block F).
Local Abbreviation write_nset := (@exodus_io.write_nset F).
Local Abbreviation write_sset := (@exodus_io.write_sset F).
Local Abbreviation write := (exodus_io.write fzero cast strict_bounds).

Lemma extends_refl (c : container) : extends c c.
Proof. repeat split; auto. Qed.

Lemma extends_trans (c1 c2 c3 : container) :
  extends c1 c2 -> extends c2 c3 -> extends c1 c3.
Proof.
  intros (A1 & A2 & A3) (B1 & B2 & B3). repeat split; eauto.
Qed.

Lemma extends_var (c c' : container) name value :
  extends c c' ->
  dict_get name (exodus_io.c_vars c) = Some value ->
  dict_get name (exodus_io.c_vars c') = Some value.
Proof. intros (A & _ & _). apply A. Qed.

Lemma extends_dim (c c' : container) name size :
  extends c c' ->
  exodus_io.dim_len name c = Ok size -> exodus_io.dim_len name c' = Ok size.
Proof.
  intros (_ & A & _). unfold exodus_io.dim_len.
  destruct (dict_get name (exodus_io.c_dims c)) as [n|] eqn:G; [|discriminate].
  intros [= <-]. rewrite (A _ _ G). reflexivity.
Qed.

Lemma extends_NoDup (c c' : container) :
  extends c c' ->
  NoDup (keys (exodus_io.c_vars c)) -> NoDup (keys (exodus_io.c_vars c')).
Proof. intros (_ & _ & A). exact A. Qed.

Lemma createDimension_dims name size (c c' : container) :
  exodus_io.createDimension name size c = Ok c' ->
  dict_get name (exodus_io.c_dims c) = None
  /\ exodus_io.c_dims c' = exodus_io.c_dims c ++ [(name, size)]
  /\ exodus_io.c_vars c' = exodus_io.c_vars c
  /\ exodus_io.c_attrs c' = exodus_io.c_attrs c.
Proof.
  unfold exodus_io.createDimension, dict_mem.
  destruct (dict_get name (exodus_io.c_dims c)) eqn:G; [discriminate|].
  intros [= <-]. simpl. rewrite (dict_set_fresh _ _ _ G). auto.
Qed.

Lemma createDimension_extends name size (c c' : container) :
  exodus_io.createDimension name size c = Ok c' -> extends c c'.
Proof.
  intros H. destruct (createDimension_dims _ _ _ _ H) as (G & D & V & _).
  repeat split; rewrite ?V, ?D; auto.
  intros name' size' G'. rewrite dict_get_app, G'. reflexivity.
Qed.

Lemma createVariable_vars name dims et data (c c' : container) :
  exodus_io.createVariable name dims et data c = Ok c' ->
  dict_get name (exodus_io.c_vars c) = None
  /\ exodus_io.c_vars c'
     = exodus_io.c_vars c ++ [(name, exodus_io.Var dims et data)]
  /\ exodus_io.c_dims c' = exodus_io.c_dims c
  /\ exodus_io.c_attrs c' = exodus_io.c_attrs c.
Proof.
  unfold exodus_io.createVariable, dict_mem.
  destruct (dict_get name (exodus_io.c_vars c)) eqn:G; [discriminate|].
  destruct (forallb _ dims); [|discriminate].
  intros [= <-]. simpl. rewrite (dict_set_fresh _ _ _ G). auto.
Qed.

Lemma createVariable_get name dims et data (c c' : container) :
  exodus_io.createVariable name dims et data c = Ok c' ->
  dict_get name (exodus_io.c_vars c') = Some (exodus_io.Var dims et data).
Proof.
  intros H. destruct (createVariable_vars _ _ _ _ _ _ H) as (G & -> & _).
  rewrite dict_get_app, G. simpl. rewrite String.eqb_refl. reflexivity.
Qed.

Lemma createVariable_extends name dims et data (c c' : container) :
  exodus_io.createVariable name dims et data c = Ok c' -> extends c c'.
Proof.
  intros H. destruct (createVariable_vars _ _ _ _ _ _ H) as (G & V & D & _).
  repeat split; rewrite ?V, ?D; auto.
  - intros name' value G'. rewrite dict_get_app, G'. reflexivity.
  - intros ND. unfold keys. rewrite map_app. simpl.
    apply NoDup_app; [exact ND | repeat constructor; simpl; tauto |].
    intros x I [<-|[]]. exact (dict_get_none_not_key _ _ G I).
Qed.

(** A loop over [enumerate(xs)] whose turns only add variables:
    what a turn establishes about its own variables still holds at
    the end. *)
Lemma loop_adds_variables {X : Type}
    (step : container -> nat * X -> result container)
    (Q : nat -> X -> container -> Prop) :
  (forall c kx c', step c kx = Ok c' -> extends c c' /\ Q (fst kx) (snd kx) c') ->
  (forall k x c c', Q k x c -> extends c c' -> Q k x c') ->
  forall xs k0 c c',
    foldM step (enumerate_from k0 xs) c = Ok c' ->
    extends c c'
    /\ forall j x, nth_error xs j = Some x -> Q (k0 + j)%nat x c'.
Proof.
  intros Step Mono.
  induction xs as [|x xs IH]; intros k0 c c' H.
  - simpl in H. injection H as <-. split; [apply extends_refl|].
    intros [|j] y; discriminate.
  - cbn [enumerate_from] in H. rewrite foldM_cons in H.
    destruct (step c (k0, x)) as [c1|] eqn:E; cbn [bind] in H;
      [|discriminate H].
    destruct (Step _ _ _ E) as [X1 Q1].
    destruct (IH _ _ _ H) as [X2 Q2].
    split; [exact (extends_trans _ _ _ X1 X2)|].
    intros [|j] y G; simpl in G.
    + injection G as <-. rewrite Nat.add_0_r.
      exact (Mono _ _ _ _ Q1 X2).
    + replace (k0 + S j)%nat with (S k0 + j)%nat by lia.
      exact (Q2 _ _ G).
Qed.


Lemma block_on_disk_mono k kv (c c' : container) :
  exodus_io.block_on_disk k kv c -> extends c c' ->
  exodus_io.block_on_disk k kv c'.
Proof. intros (dims & et & G) X. exists dims, et. exact (extends_var _ _ _ _ X G). Qed.

Lemma nset_on_disk_mono k kv (c c' : container) :
  exodus_io.nset_on_disk k kv c -> extends c c' ->
  exodus_io.nset_on_disk k kv c'.
Proof. intros (dims & et & G) X. exists dims, et. exact (extends_var _ _ _ _ X G). Qed.

Lemma sset_on_disk_mono k kv (c c' : container) :
  exodus_io.sset_on_disk k kv c -> extends c c' ->
  exodus_io.sset_on_disk k kv c'.
Proof.
  intros [(dims & et & G) (dims' & et' & G')] X.
  split; [exists dims, et; exact (extends_var _ _ _ _ X G)
        | exists dims', et'; exact (extends_var _ _ _ _ X G')].
Qed.

Lemma write_block_on_disk (c : container) kx (c' : container) :
  write_block c kx = Ok c' ->
  extends c c' /\ exodus_io.block_on_disk (fst kx) (snd kx) c'.
Proof.
  destruct kx as [k [key values]]. unfold exodus_io.write_block.
  intros H.
  destruct (exodus_io.createDimension _ _ c) as [c1|] eqn:E1;
    cbn [bind] in H; [|discriminate H].
  destruct (exodus_io.createDimension _ _ c1) as [c2|] eqn:E2;
    cbn [bind] in H; [|discriminate H].
  destruct (exodus_dtype _) as [code|] eqn:E3; cbn [bind] in H;
    [|discriminate H].
  destruct (exodus_io.code_dtype code) as [d|] eqn:E4; cbn [bind] in H;
    [|discriminate H].
  destruct (exodus_io.to_disk key) as [elem_type|]; cbn [bind] in H;
    [|discriminate H].
  pose proof (code_of_dtype _ _ _ E3 E4) as ->.
  split.
  - eapply extends_trans; [exact (createDimension_extends _ _ _ _ E1)|].
    eapply extends_trans; [exact (createDimension_extends _ _ _ _ E2)|].
    exact (createVariable_extends _ _ _ _ _ _ H).
  - eexists _, _. cbn [fst snd]. rewrite (createVariable_get _ _ _ _ _ _ H).
    unfold exodus_io.put_idx2, iarray2_add. cbn [i2_dtype i2_ncols i2_rows].
    do 3 f_equal. rewrite <- (map_id (map _ (i2_rows values))) at 2.
    apply map_ext. intros row. apply map_convert_same.
Qed.

Lemma write_nset_on_disk (c : container) kx (c' : container) :
  write_nset c kx = Ok c' ->
  extends c c' /\ exodus_io.nset_on_disk (fst kx) (snd kx) c'.
Proof.
  destruct kx as [k [key values]]. unfold exodus_io.write_nset.
  intros H.
  destruct (exodus_io.createDimension _ _ c) as [c1|] eqn:E1;
    cbn [bind] in H; [|discriminate H].
  destruct (exodus_dtype _) as [code|] eqn:E3; cbn [bind] in H;
    [|discriminate H].
  destruct (exodus_io.code_dtype code) as [d|] eqn:E4; cbn [bind] in H;
    [|discriminate H].
  pose proof (code_of_dtype _ _ _ E3 E4) as ->.
  split.
  - eapply extends_trans; [exact (createDimension_extends _ _ _ _ E1)|].
    exact (createVariable_extends _ _ _ _ _ _ H).
  - eexists _, _. cbn [fst snd]. rewrite (createVariable_get _ _ _ _ _ _ H).
    unfold exodus_io.put_idx1, iarray1_add. cbn [i1_dtype i1_items].
    rewrite map_convert_same. reflexivity.
Qed.

Lemma write_sset_on_disk (c : container) kx (c' : container) :
  write_sset c kx = Ok c' ->
  extends c c' /\ exodus_io.sset_on_disk (fst kx) (snd kx) c'.
Proof.
  destruct kx as [k [key values]]. unfold exodus_io.write_sset.
  intros H.
  destruct (exodus_io.createDimension _ _ c) as [c1|] eqn:E1;
    cbn [bind] in H; [|discriminate H].
  destruct (exodus_dtype _) as [code|] eqn:E3; cbn [bind] in H;
    [|discriminate H].
  destruct (exodus_io.code_dtype code) as [d|] eqn:E4; cbn [bind] in H;
    [|discriminate H].
  pose proof (code_of_dtype _ _ _ E3 E4) as ->.
  unfold iarray2_column in H.
  destruct (0 <? i2_ncols values)%nat; cbn [bind] in H; [|discriminate H].
  destruct (exodus_io.createVariable _ _ _ _ c1) as [c2|] eqn:E5;
    cbn [bind] in H; [|discriminate H].
  destruct (1 <? i2_ncols values)%nat; cbn [bind] in H; [|discriminate H].
  split.
  - eapply extends_trans; [exact (createDimension_extends _ _ _ _ E1)|].
    eapply extends_trans; [exact (createVariable_extends _ _ _ _ _ _ E5)|].
    exact (createVariable_extends _ _ _ _ _ _ H).
  - split; eexists _, _; cbn [fst snd].
    + rewrite (extends_var _ _ _ _ (createVariable_extends _ _ _ _ _ _ H)
                 (createVariable_get _ _ _ _ _ _ E5)).
      unfold exodus_io.put_idx1, iarray1_add. cbn [i1_dtype i1_items].
      rewrite map_convert_same, map_map. reflexivity.
    + rewrite (createVariable_get _ _ _ _ _ _ H).
      unfold exodus_io.put_idx1. cbn [i1_dtype i1_items].
      rewrite map_convert_same. reflexivity.
Qed.

Ltac bind_inv H :=
  match type of H with
  | bind ?r _ = Ok _ =>
      let E := fresh "E" in
      destruct r eqn:E; cbn [bind] in H; [|discriminate H]
  end.

Ltac extends_chain :=
  repeat match goal with
         | E : exodus_io.createDimension _ _ _ = Ok _ |- _ =>
             apply createDimension_extends in E
         | E : exodus_io.createVariable _ _ _ _ _ = Ok _ |- _ =>
             apply createVariable_extends in E
         end;
  repeat match goal with
         | |- exodus_io.extends ?a ?a => apply extends_refl
         | X : exodus_io.extends ?a ?b |- exodus_io.extends ?a ?c =>
             apply (extends_trans a b c X); clear X
         end.

Lemma write_point_data_extends pd (c c' : container) :
  exodus_io.write_point_data cast strict_bounds pd c = Ok c' -> extends c c'.
Proof.
  unfold exodus_io.write_point_data. intros H.
  destruct (0 <? length pd)%nat.
  - repeat bind_inv H. extends_chain.
  - injection H as <-. apply extends_refl.
Qed.

Lemma write_nsets_on_disk nsets (c c' : container) :
  exodus_io.write_nsets strict_bounds nsets c = Ok c' ->
  extends c c'
  /\ forall j kv, nth_error nsets j = Some kv -> exodus_io.nset_on_disk j kv c'.
Proof.
  unfold exodus_io.write_nsets. intros H.
  destruct (0 <? length nsets)%nat eqn:L.
  - repeat bind_inv H.
    destruct (loop_adds_variables write_nset (@exodus_io.nset_on_disk F)
                write_nset_on_disk nset_on_disk_mono _ _ _ _ H) as [X Q].
    split; [extends_chain | exact Q].
  - injection H as <-. split; [apply extends_refl|].
    destruct nsets; [|discriminate L]. intros [|j] kv; discriminate.
Qed.

Lemma write_ssets_on_disk ssets (c c' : container) :
  exodus_io.write_ssets strict_bounds ssets c = Ok c' ->
  extends c c'
  /\ forall j kv, nth_error ssets j = Some kv -> exodus_io.sset_on_disk j kv c'.
Proof.
  unfold exodus_io.write_ssets. intros H.
  destruct (0 <? length ssets)%nat eqn:L.
  - repeat bind_inv H.
    destruct (loop_adds_variables write_sset (@exodus_io.sset_on_disk F)
                write_sset_on_disk sset_on_disk_mono _ _ _ _ H) as [X Q].
    split; [extends_chain | exact Q].
  - injection H as <-. split; [apply extends_refl|].
    destruct ssets; [|discriminate L]. intros [|j] kv; discriminate.
Qed.

Lemma write_time_extends (c c' : container) :
  exodus_io.write_time fzero cast c = Ok c' -> extends c c'.
Proof.
  unfold exodus_io.write_time. intros H. repeat bind_inv H. extends_chain.
Qed.

Lemma write_points_extends points (c c' : container) :
  exodus_io.write_points cast strict_bounds points c = Ok c' -> extends c c'.
Proof.
  unfold exodus_io.write_points. intros H. repeat bind_inv H. extends_chain.
Qed.

Lemma write_cells_on_disk cells (c c' : container) :
  exodus_io.write_cells cells c = Ok c' ->
  extends c c'
  /\ forall k kv, nth_error cells k = Some kv -> exodus_io.block_on_disk k kv c'.
Proof.
  unfold exodus_io.write_cells. intros H. repeat bind_inv H.
  destruct (loop_adds_variables write_block (@exodus_io.block_on_disk F)
              write_block_on_disk block_on_disk_mono _ _ _ _ H) as [X Q].
  split; [extends_chain | exact Q].
Qed.

(** The dimensions that [write] declares first. *)
Lemma set_dimensions_new title n e b ns ss :
  exodus_io.set_dimensions n e b ns ss
    (exodus_io.set_global_data title (exodus_io.new_dataset F))
  = Ok (exodus_io.Container
          [("title", exodus_io.AText title);
           ("version", exodus_io.AFloat32 "5.1");
           ("api_version", exodus_io.AFloat32 "5.1");
           ("floating_point_word_size", exodus_io.AInt 8)]
          [("num_nodes", n); ("num_dim", 3%nat); ("num_elem", e);
           ("num_el_blk", b); ("num_node_sets", ns); ("num_side_sets", ss);
           ("len_string", 33%nat); ("len_line", 81%nat); ("four", 4%nat);
           ("time_step", 0%nat)]
          []).
Proof. reflexivity. Qed.

(** The two variables that [write] makes of the point data, when the
    names are ASCII and fit the rows. *)
Lemma write_point_data_names pd (c c' : container) (n : nat) :
  exodus_io.write_point_data cast strict_bounds pd c = Ok c' ->
  exodus_io.dim_len "len_string" c = Ok n ->
  pd <> [] ->
  Forall (fun name => exodus_io.ascii_name name /\ (length name <= n)%nat)
         (keys pd) ->
  (exists dims et,
     dict_get "name_nod_var" (exodus_io.c_vars c')
     = Some (exodus_io.Var dims et
               (exodus_io.Char2 n (map (exodus_io.padded n) (keys pd)))))
  /\ (exists dims et d rows,
        dict_get "vals_nod_var" (exodus_io.c_vars c')
        = Some (exodus_io.Var dims et (exodus_io.Num3 d [rows]))
        /\ length rows = length pd).
Proof.
  unfold exodus_io.write_point_data. intros H L N A.
  destruct (0 <? length pd)%nat eqn:P;
    [|destruct pd; [congruence | discriminate P]].
  bind_inv H.
  match goal with
  | E : exodus_io.createDimension _ _ _ = Ok ?c1 |- _ =>
      pose proof (extends_dim _ _ _ _ (createDimension_extends _ _ _ _ E) L) as L1;
      destruct (createDimension_dims _ _ _ _ E) as (G & D & _ & _)
  end.
  unfold exodus_io.blank_chars in H. rewrite L1 in H.
  unfold exodus_io.dim_len at 1 in H. rewrite D, dict_get_app, G in H.
  cbn [dict_get keqb string_Key String.eqb Ascii.eqb Bool.eqb bind] in H.
  replace (length pd) with (length (keys pd)) in H
    by (unfold keys; apply length_map).
  rewrite (write_names_ascii strict_bounds (keys pd) n A) in H.
  cbn [bind] in H.
  repeat bind_inv H.
  split.
  - eexists _, _.
    apply (extends_var _ _ _ _ (createVariable_extends _ _ _ _ _ _ H)).
    match goal with
    | E : exodus_io.createVariable "name_nod_var" _ _ _ _ = Ok _ |- _ =>
        exact (createVariable_get _ _ _ _ _ _ E)
    end.
  - eexists _, _, _, _. split.
    + exact (createVariable_get _ _ _ _ _ _ H).
    + match goal with
      | E : mapM _ (values pd) = Ok _ |- _ =>
          rewrite (mapM_length _ _ _ E)
      end.
      unfold values. apply length_map.
Qed.

(** C2. In the container that [write] returns, the variable
    [connect<k+1>] holds the [k]-th cell block, [node_ns<k+1>] the
    [k]-th node set and [elem_ss<k+1>] column 0 of the [k]-th side
    set, each entry [i] stored as [i + 1] computed in the dtype of its
    array, which is [i + 1] whenever that dtype can hold it;
    [side_ss<k+1>] holds column 1 of the side set as it is. *)
Theorem write_stores_one_based
    (title : string) (points : exodus_io.farray2 F)
    (cells : dict string iarray2)
    (point_data : option (dict pystr (exodus_io.farray1 F)))
    (cell_data : option (exodus_io.cell_data_t F))
    (field_data : option (exodus_io.field_data_t F))
    (nsets : option (dict pystr iarray1)) (ssets : option (dict pystr iarray2))
    (c : container) :
  write title points cells point_data cell_data field_data nsets ssets = Ok c ->
  (forall k kv, nth_error cells k = Some kv -> exodus_io.block_on_disk k kv c)
  /\ (forall k kv, nth_error (exodus_io.or_empty nsets) k = Some kv ->
        exodus_io.nset_on_disk k kv c)
  /\ (forall k kv, nth_error (exodus_io.or_empty ssets) k = Some kv ->
        exodus_io.sset_on_disk k kv c)
  /\ (forall d i, representable d (i + 1) = true -> astype d (i + 1) = (i + 1)%Z).
Proof.
  unfold exodus_io.write. cbv zeta. intros H.
  repeat bind_inv H. injection H as <-.
  match goal with
  | B : exodus_io.write_cells _ _ = Ok _ |- _ =>
      unfold exodus_io.write_cells in B; repeat bind_inv B;
      destruct (loop_adds_variables write_block (@exodus_io.block_on_disk F)
                  write_block_on_disk block_on_disk_mono _ _ _ _ B) as [_ QB]
  end.
  match goal with
  | P : exodus_io.write_point_data _ _ _ _ = Ok _ |- _ =>
      pose proof (write_point_data_extends _ _ _ P) as XP
  end.
  match goal with
  | N : exodus_io.write_nsets _ _ _ = Ok _ |- _ =>
      destruct (write_nsets_on_disk _ _ _ N) as [XN QN]
  end.
  match goal with
  | S : exodus_io.write_ssets _ _ _ = Ok _ |- _ =>
      destruct (write_ssets_on_disk _ _ _ S) as [XS QS]
  end.
  split; [|split; [|split]].
  - intros k kv G. apply (block_on_disk_mono _ _ _ _ (QB _ _ G)).
    extends_chain.
  - intros k kv G. apply (nset_on_disk_mono _ _ _ _ (QN _ _ G)). exact XS.
  - exact QS.
  - intros d i. apply representable_astype.
Qed.

(** C9. Written by [write] and read back by [read], the names of the
    point-data fields come back exactly when each is made of ASCII
    characters other than NUL and has at most 33 of them, the width of
    a row of names: the fill values after a name are not decoded into
    it, a name of 32 characters comes back as it is, and so does a
    name of 33 characters, which fills its row and is not cut to 32. *)
Theorem point_data_names_round_trip
    (title : string) (points : exodus_io.farray2 F)
    (cells : dict string iarray2)
    (pd : dict pystr (exodus_io.farray1 F))
    (cell_data : option (exodus_io.cell_data_t F))
    (field_data : option (exodus_io.field_data_t F))
    (nsets : option (dict pystr iarray1)) (ssets : option (dict pystr iarray2))
    (c : container) (r : exodus_io.mesh_tuple F) :
  pd <> [] ->
  NoDup (keys pd) ->
  Forall (fun name => exodus_io.ascii_name name /\ (length name <= 33)%nat)
         (keys pd) ->
  write title points cells (Some pd) cell_data field_data nsets ssets = Ok c ->
  exodus_io.read fzero cast c = Ok r ->
  keys (exodus_io.point_data_of r) = keys pd.
Proof.
  intros NE ND A H R.
  unfold exodus_io.write in H. cbv zeta in H.
  rewrite set_dimensions_new in H. cbn [bind exodus_io.or_empty] in H.
  repeat bind_inv H. injection H as <-.
  repeat match goal with
         | E : exodus_io.write_time _ _ _ = Ok _ |- _ =>
             apply write_time_extends in E
         | E : exodus_io.write_points _ _ _ _ = Ok _ |- _ =>
             apply write_points_extends in E
         | E : exodus_io.write_cells _ _ = Ok _ |- _ =>
             apply write_cells_on_disk in E; destruct E as [E _]
         | E : exodus_io.write_nsets _ _ _ = Ok _ |- _ =>
             apply write_nsets_on_disk in E; destruct E as [E _]
         | E : exodus_io.write_ssets _ _ _ = Ok _ |- _ =>
             apply write_ssets_on_disk in E; destruct E as [E _]
         end.
  match goal with
  | P : exodus_io.write_point_data _ _ _ ?c3 = Ok ?c4,
    R : exodus_io.read _ _ ?cf = Ok _,
    X0 : exodus_io.extends (exodus_io.Container ?x ?y ?z) _ |- _ =>
      assert (X3 : extends (exodus_io.Container x y z) c3) by extends_chain;
      assert (L3 : exodus_io.dim_len "len_string" c3 = Ok 33%nat)
        by (apply (extends_dim _ _ _ _ X3); reflexivity);
      assert (N3 : NoDup (keys (exodus_io.c_vars c3)))
        by (apply (extends_NoDup _ _ X3); apply NoDup_nil);
      assert (X4 : extends c4 cf) by extends_chain;
      pose proof (write_point_data_extends _ _ _ P) as XP;
      destruct (write_point_data_names pd c3 c4 33 P L3 NE A)
        as [(dims & et & GN) (dims' & et' & d & rows & GV & LV)];
      apply (extends_var _ _ _ _ X4) in GN, GV;
      pose proof (extends_NoDup _ _ X4 (extends_NoDup _ _ XP N3)) as NV
  end.
  rewrite (read_point_data F fzero cast _ r NV R).
  unfold exodus_io.field_names, exodus_io.first_time_step.
  rewrite GN, GV.
  unfold exodus_io.names_of, exodus_io.step0_of. cbn [exodus_io.v_data].
  rewrite (decode_padded_names 33 (keys pd) A).
  rewrite dict_of_pairs_NoDup; unfold keys at 1; rewrite map_fst_zip,
    length_map, LV;
    replace (length pd) with (length (keys pd))
      by (unfold keys; apply length_map);
    rewrite firstn_all; [reflexivity | exact ND].
Qed.
End Writing.

(** ** Writing and reading back *)

(** Runs the first statement of a sequence by computation. *)
Ltac run_head :=
  match goal with
  | |- bind ?r _ = _ =>
      let E := fresh "E" in
      eassert (E : r = Ok _) by reflexivity;
      rewrite E; clear E; cbn [bind]
  end.

(** Runs the first statement of a sequence by a lemma. *)
Ltac run_by lem :=
  match goal with
  | |- bind ?r _ = _ =>
      let E := fresh "E" in
      eassert (E : r = Ok _) by (eapply lem; eauto);
      rewrite E; clear E; cbn [bind]
  end.

Section RoundTrip.
Variable F : Type.
Variable fzero : F.
Variable cast : dtype -> F -> F.
Variable strict_bounds : bool.

Local Abbreviation container := (exodus_io.container F).

Lemma write_time_new A n e b ns ss :
  exodus_io.write_time fzero cast
    (exodus_io.Container A (exodus_io.fixed_dims n e b ns ss) [])
  = Ok (exodus_io.Container A (exodus_io.fixed_dims n e b ns ss)
          [exodus_io.time_whole_variable fzero cast]).
Proof. reflexivity. Qed.

Lemma convert_named_same (d : dtype) (x : F) :
  exodus_io.convert_named cast (dtype_name d) d x = x.
Proof. unfold exodus_io.convert_named. rewrite String.eqb_refl. reflexivity. Qed.

Lemma map_convert_named_same (d : dtype) (xs : list F) :
  map (exodus_io.convert_named cast (dtype_name d) d) xs = xs.
Proof.
  induction xs as [|x xs IH]; simpl; [reflexivity|].
  rewrite convert_named_same, IH. reflexivity.
Qed.

Lemma write_points_new A n e b ns ss (points : exodus_io.farray2 F) (d : dtype) :
  n = length (exodus_io.f2_rows points) ->
  exodus_io.f2_ncols points = 3%nat ->
  wf_rows 3 (exodus_io.f2_rows points) ->
  exodus_io.f2_dtype points = dtype_name d ->
  exodus_io.write_points cast strict_bounds points
    (exodus_io.Container A (exodus_io.fixed_dims n e b ns ss)
       [exodus_io.time_whole_variable fzero cast])
  = Ok (exodus_io.Container A (exodus_io.fixed_dims n e b ns ss)
          [exodus_io.time_whole_variable fzero cast;
           exodus_io.coor_names_variable F;
           exodus_io.coord_variable d points]).
Proof.
  intros -> C W D. unfold exodus_io.write_points.
  do 4 run_head.
  rewrite D. destruct (code_of_dtype_ok d) as (code & E1 & E2).
  rewrite E1. cbn [bind]. rewrite E2. cbn [bind].
  do 2 run_head.
  rewrite C, (broadcast2_same 3 _ (transpose 3 (exodus_io.f2_rows points)));
    [|apply length_transpose | apply transpose_row_lengths, W].
  cbn [bind].
  rewrite (map_ext _ (fun r => r))
    by (intros r; apply map_convert_named_same).
  rewrite map_id. unfold exodus_io.coord_variable. rewrite C. reflexivity.
Qed.

Lemma createDimension_fresh name size (c : container) :
  dict_get name (exodus_io.c_dims c) = None ->
  exodus_io.createDimension name size c
  = Ok (exodus_io.Container (exodus_io.c_attrs c)
          (exodus_io.c_dims c ++ [(name, size)]) (exodus_io.c_vars c)).
Proof.
  intros G. unfold exodus_io.createDimension, dict_mem. rewrite G.
  rewrite (dict_set_fresh _ _ _ G). reflexivity.
Qed.

Lemma createVariable_fresh name dims et data (c : container) :
  dict_get name (exodus_io.c_vars c) = None ->
  forallb (fun d => dict_mem d (exodus_io.c_dims c)) dims = true ->
  exodus_io.createVariable name dims et data c
  = Ok (exodus_io.Container (exodus_io.c_attrs c) (exodus_io.c_dims c)
          (exodus_io.c_vars c ++ [(name, exodus_io.Var dims et data)])).
Proof.
  intros G D. unfold exodus_io.createVariable, dict_mem at 1. rewrite G, D.
  rewrite (dict_set_fresh _ _ _ G). reflexivity.
Qed.

Lemma dict_mem_app_l {V} (name : string) (d1 d2 : dict string V) :
  dict_mem name d1 = true -> dict_mem name (d1 ++ d2) = true.
Proof.
  unfold dict_mem. rewrite dict_get_app.
  destruct (dict_get name d1); [reflexivity | discriminate].
Qed.

Lemma dict_mem_app_r {V} (name : string) (d1 d2 : dict string V) :
  dict_mem name d2 = true -> dict_mem name (d1 ++ d2) = true.
Proof.
  unfold dict_mem. rewrite dict_get_app.
  destruct (dict_get name d1); [reflexivity | auto].
Qed.

(** One turn of the loop over the cell blocks, on a container that
    has no names of the block yet. *)
Lemma write_block_fresh (k : nat) (key : string) (values : iarray2)
    (c : container) :
  exodus_io.fresh_from k c ->
  dict_mem key exodus_io.meshio_to_exodus_type = true ->
  exodus_io.write_block c (k, (key, values))
  = Ok (exodus_io.Container (exodus_io.c_attrs c)
          (exodus_io.c_dims c ++ exodus_io.block_dims (k, (key, values)))
          (exodus_io.c_vars c
           ++ [exodus_io.block_variable F (k, (key, values))])).
Proof.
  intros Fr R. destruct (Fr k (le_n k)) as (G1 & G2 & G3).
  destruct (to_canonical_disk_tag key R) as [T _].
  destruct (code_of_dtype_ok (i2_dtype values)) as (code & E1 & E2).
  unfold exodus_io.write_block.
  rewrite (createDimension_fresh _ _ _ G1). cbn [bind].
  rewrite createDimension_fresh
    by (cbn [exodus_io.c_dims]; rewrite dict_get_app, G2; reflexivity).
  cbn [bind exodus_io.c_dims exodus_io.c_attrs exodus_io.c_vars].
  rewrite E1. cbn [bind]. rewrite E2. cbn [bind]. rewrite T. cbn [bind].
  rewrite createVariable_fresh.
  - cbn [exodus_io.c_dims exodus_io.c_attrs exodus_io.c_vars].
    rewrite <- app_assoc. unfold exodus_io.block_variable, exodus_io.block_dims.
    cbn [fst snd app]. do 5 f_equal.
    unfold exodus_io.put_idx2, iarray2_add. cbn [i2_dtype i2_ncols i2_rows].
    rewrite map_map_convert_same. reflexivity.
  - exact G3.
  - cbn [exodus_io.c_dims forallb]. rewrite andb_true_r.
    apply andb_true_iff. split.
    + apply dict_mem_app_l, dict_mem_app_r. unfold dict_mem. simpl.
      rewrite String.eqb_refl. reflexivity.
    + apply dict_mem_app_r. unfold dict_mem. simpl.
      rewrite String.eqb_refl. reflexivity.
Qed.

Lemma block_dim_names_differ (k j : nat) :
  (exodus_io.suffixed "num_el_in_blk" k =? exodus_io.suffixed "num_nod_per_el" j)
  = false
  /\ (exodus_io.suffixed "num_nod_per_el" k =? exodus_io.suffixed "num_el_in_blk" j)
     = false.
Proof. split; reflexivity. Qed.

Lemma fresh_from_step (k : nat) (kv : string * iarray2) (c : container) :
  exodus_io.fresh_from k c ->
  exodus_io.fresh_from (S k)
    (exodus_io.Container (exodus_io.c_attrs c)
       (exodus_io.c_dims c ++ exodus_io.block_dims (k, kv))
       (exodus_io.c_vars c ++ [exodus_io.block_variable F (k, kv)])).
Proof.
  intros Fr j Hj. destruct (Fr j ltac:(lia)) as (G1 & G2 & G3).
  destruct (block_dim_names_differ k j) as [N1 N2].
  assert (N : Nat.eqb k j = false) by (apply Nat.eqb_neq; lia).
  cbn [exodus_io.c_dims exodus_io.c_vars].
  unfold exodus_io.block_dims, exodus_io.block_variable. cbn [fst snd].
  rewrite !dict_get_app, G1, G2, G3, !dict_get_cons_string.
  rewrite !suffixed_eqb, N, N1, N2. auto.
Qed.

(** The loop over the cell blocks. *)
Lemma write_blocks_fresh (cells : dict string iarray2) :
  forall (k0 : nat) (c : container),
    exodus_io.fresh_from k0 c ->
    Forall (fun kv => dict_mem (fst kv) exodus_io.meshio_to_exodus_type = true)
           cells ->
    foldM (@exodus_io.write_block F) (enumerate_from k0 cells) c
    = Ok (exodus_io.Container (exodus_io.c_attrs c)
            (exodus_io.c_dims c
             ++ flat_map exodus_io.block_dims (enumerate_from k0 cells))
            (exodus_io.c_vars c
             ++ map (exodus_io.block_variable F) (enumerate_from k0 cells))).
Proof.
  induction cells as [|[key values] cells IH]; intros k0 c Fr R.
  - simpl. rewrite !app_nil_r. destruct c; reflexivity.
  - inversion R as [|? ? R1 R2]; subst. cbn [fst] in R1.
    cbn [enumerate_from]. rewrite foldM_cons.
    rewrite (write_block_fresh k0 key values c Fr R1). cbn [bind].
    rewrite (IH (S k0) _ (fresh_from_step k0 (key, values) c Fr) R2).
    cbn [exodus_io.c_attrs exodus_io.c_dims exodus_io.c_vars flat_map map].
    rewrite <- !app_assoc. reflexivity.
Qed.

Lemma fresh_from_start A n e b ns ss (v1 v2 v3 v4 : exodus_io.variable F) :
  exodus_io.fresh_from 0
    (exodus_io.Container A (exodus_io.fixed_dims n e b ns ss)
       [("time_whole", v1); ("coor_names", v2); ("coord", v3);
        ("eb_prop1", v4)]).
Proof. intros k _. repeat split; reflexivity. Qed.

Lemma write_cells_new A n e b ns ss (v1 v2 v3 : exodus_io.variable F)
    (cells : dict string iarray2) :
  b = length cells ->
  Forall (fun kv => dict_mem (fst kv) exodus_io.meshio_to_exodus_type = true)
         cells ->
  exodus_io.write_cells cells
    (exodus_io.Container A (exodus_io.fixed_dims n e b ns ss)
       [("time_whole", v1); ("coor_names", v2); ("coord", v3)])
  = Ok (exodus_io.Container A
          (exodus_io.fixed_dims n e b ns ss
           ++ flat_map exodus_io.block_dims (enumerate cells))
          ([("time_whole", v1); ("coor_names", v2); ("coord", v3);
            exodus_io.eb_prop1_variable F b]
           ++ map (exodus_io.block_variable F) (enumerate cells))).
Proof.
  intros -> R. unfold exodus_io.write_cells.
  do 2 run_head.
  exact (write_blocks_fresh cells 0 _ (fresh_from_start _ _ _ _ _ _ _ _ _ _) R).
Qed.

Lemma dim_len_get name (c : container) (n : nat) :
  exodus_io.dim_len name c = Ok n <-> dict_get name (exodus_io.c_dims c) = Some n.
Proof.
  unfold exodus_io.dim_len.
  destruct (dict_get name (exodus_io.c_dims c)); split; congruence.
Qed.

(** The point data, on a container that has the dimensions they need
    and none of their names yet. *)
Lemma write_point_data_new (pd : dict pystr (exodus_io.farray1 F))
    (d0 : dtype) (n t : nat) (c : container) :
  pd <> [] ->
  Forall exodus_io.name_ok (keys pd) ->
  Forall (exodus_io.field_ok d0 n) (values pd) ->
  dict_get "num_nod_var" (exodus_io.c_dims c) = None ->
  dict_get "len_string" (exodus_io.c_dims c) = Some 33%nat ->
  dict_get "num_nodes" (exodus_io.c_dims c) = Some n ->
  dict_get "time_step" (exodus_io.c_dims c) = Some t ->
  dict_get "name_nod_var" (exodus_io.c_vars c) = None ->
  dict_get "vals_nod_var" (exodus_io.c_vars c) = None ->
  exodus_io.write_point_data cast strict_bounds pd c
  = Ok (exodus_io.Container (exodus_io.c_attrs c)
          (exodus_io.c_dims c ++ [("num_nod_var", length pd)])
          (exodus_io.c_vars c
           ++ [exodus_io.name_nod_var_variable F (keys pd);
               exodus_io.vals_nod_var_variable d0 (values pd)])).
Proof.
  intros NE A Fd G1 G2 G3 G4 G5 G6.
  unfold exodus_io.write_point_data.
  destruct pd as [|[name0 field0] pd']; [congruence|].
  set (pd := (name0, field0) :: pd') in *.
  change (0 <? length pd)%nat with true. cbv iota.
  rewrite (createDimension_fresh _ _ _ G1). cbn [bind].
  unfold exodus_io.blank_chars, exodus_io.dim_len.
  cbn [exodus_io.c_dims exodus_io.c_vars exodus_io.c_attrs].
  rewrite !dict_get_app, G1, G2. cbn [dict_get keqb string_Key bind].
  change ("num_nod_var" =? "num_nod_var") with true. cbv iota. cbn [bind].
  replace (length pd) with (length (keys pd)) at 1
    by (unfold keys; apply length_map).
  rewrite (write_names_ascii strict_bounds (keys pd) 33)
    by (apply Forall_impl with (2 := A); intros name [? ?]; auto).
  cbn [bind].
  rewrite createVariable_fresh; cbn [exodus_io.c_dims exodus_io.c_vars
                                     exodus_io.c_attrs bind].
  2: exact G5.
  2: { cbn [forallb]. rewrite andb_true_r. apply andb_true_iff. split.
       - apply dict_mem_app_r. reflexivity.
       - apply dict_mem_app_l. unfold dict_mem. rewrite G2. reflexivity. }
  assert (Fd1 : exodus_io.f1_dtype field0 = dtype_name d0)
    by (inversion Fd as [|? ? [Fd1 _] _]; exact Fd1).
  unfold values at 1. unfold pd at 1. cbn [map snd]. rewrite Fd1.
  destruct (code_of_dtype_ok d0) as (code & E1 & E2).
  rewrite E1. cbn [bind]. rewrite E2. cbn [bind].
  rewrite dict_get_app, G3. cbn [bind].
  rewrite (mapM_ok _ (@exodus_io.f1_items F)).
  2: { apply Forall_impl with (2 := Fd). intros a [Da La].
       rewrite Da, map_convert_named_same. apply broadcast_to_same, La. }
  cbn [bind].
  rewrite createVariable_fresh; cbn [exodus_io.c_dims exodus_io.c_vars
                                     exodus_io.c_attrs].
  - rewrite <- app_assoc. reflexivity.
  - rewrite dict_get_app, G6. reflexivity.
  - cbn [forallb]. rewrite andb_true_r.
    apply andb_true_iff. split; [|apply andb_true_iff; split].
    + apply dict_mem_app_l. unfold dict_mem. rewrite G4. reflexivity.
    + apply dict_mem_app_r. reflexivity.
    + apply dict_mem_app_l. unfold dict_mem. rewrite G3. reflexivity.
Qed.

Lemma not_in_block_dims (name : string) (cells : dict string iarray2) :
  (forall k, (exodus_io.suffixed "num_el_in_blk" k =? name) = false) ->
  (forall k, (exodus_io.suffixed "num_nod_per_el" k =? name) = false) ->
  forall k0,
    dict_get name (flat_map exodus_io.block_dims (enumerate_from k0 cells)) = None.
Proof.
  intros N1 N2. induction cells as [|kv cells IH]; intros k0; [reflexivity|].
  cbn [enumerate_from flat_map]. unfold exodus_io.block_dims at 1.
  cbn [fst snd app]. rewrite !dict_get_cons_string, N1, N2. apply IH.
Qed.

Lemma not_in_block_variables (name : string) (cells : dict string iarray2) :
  (forall k, (exodus_io.suffixed "connect" k =? name) = false) ->
  forall k0,
    dict_get name (map (exodus_io.block_variable F) (enumerate_from k0 cells))
    = None.
Proof.
  intros N. induction cells as [|kv cells IH]; intros k0; [reflexivity|].
  cbn [enumerate_from map]. unfold exodus_io.block_variable at 1.
  cbn [fst snd]. rewrite dict_get_cons_string, N. apply IH.
Qed.

(** [- 1] undoes [+ 1] on a block whose entries are values of its
    dtype. *)
Lemma block_round_trip (values : iarray2) :
  Forall (Forall (exodus_io.index_ok (i2_dtype values))) (i2_rows values) ->
  iarray2_add
    (IArray2 (i2_dtype values) (i2_ncols values)
       (map (map (fun i => astype (i2_dtype values) (i + 1))) (i2_rows values)))
    (-1)
  = values.
Proof.
  destruct values as [d w rows]. unfold iarray2_add. cbn [i2_dtype i2_ncols i2_rows].
  intros H. f_equal. rewrite map_map.
  rewrite <- (map_id rows) at 2. apply map_ext_Forall.
  apply Forall_impl with (2 := H). intros row R.
  rewrite map_map. rewrite <- (map_id row) at 2. apply map_ext_Forall.
  apply Forall_impl with (2 := R). intros z. apply index_round_trip.
Qed.

(** [read] over the blocks that [write] made of cells whose types are
    pairwise distinct and new to the cells read so far. *)
Lemma read_blocks (cells : dict string iarray2) :
  forall (k0 : nat) (st : exodus_io.locals F),
    NoDup (keys (exodus_io.l_cells st) ++ keys cells) ->
    Forall exodus_io.block_ok cells ->
    foldM (exodus_io.read_step cast)
          (map (exodus_io.block_variable F) (enumerate_from k0 cells)) st
    = Ok (exodus_io.Locals (exodus_io.l_points_dtype st)
            (exodus_io.l_points_ncols st) (exodus_io.l_points st)
            (exodus_io.l_point_data_names st) (exodus_io.l_pd st)
            (exodus_io.l_cells st ++ cells)).
Proof.
  induction cells as [|[key values] cells IH]; intros k0 st ND B.
  - simpl. rewrite app_nil_r. destruct st; reflexivity.
  - inversion B as [|? ? [R V] B']; subst. cbn [fst snd] in R, V.
    cbn [enumerate_from map]. rewrite foldM_cons.
    destruct (to_canonical_disk_tag key R) as [_ T].
    assert (G : dict_get key (exodus_io.l_cells st) = None).
    { apply dict_get_not_key. intros I.
      apply NoDup_remove_2 in ND. apply ND.
      apply in_or_app. left. exact I. }
    unfold exodus_io.read_step at 1, exodus_io.block_variable at 1.
    cbn [fst snd]. rewrite connect_prefix. cbn [String.eqb Ascii.eqb Bool.eqb].
    cbv iota. cbn [exodus_io.v_elem_type exodus_io.v_data bind].
    rewrite T. cbn [bind]. rewrite G.
    rewrite (block_round_trip values V), (dict_set_fresh _ _ _ G). cbn [bind].
    rewrite IH; cbn [exodus_io.l_cells exodus_io.l_points_dtype
                     exodus_io.l_points_ncols exodus_io.l_points
                     exodus_io.l_point_data_names exodus_io.l_pd].
    + rewrite <- app_assoc. reflexivity.
    + unfold keys in *. rewrite map_app, <- app_assoc. exact ND.
    + exact B'.
Qed.

Lemma set_dimensions_fixed title n e b ns ss :
  exodus_io.set_dimensions n e b ns ss
    (exodus_io.set_global_data title (exodus_io.new_dataset F))
  = Ok (exodus_io.Container (exodus_io.global_attrs title)
          (exodus_io.fixed_dims n e b ns ss) []).
Proof. reflexivity. Qed.

Lemma combine_keys_values {K V} (d : dict K V) : zip (keys d) (values d) = d.
Proof.
  unfold zip, keys, values.
  induction d as [|[k v] d IH]; simpl; [reflexivity|].
  rewrite IH. reflexivity.
Qed.

Lemma fields_read_back (d0 : dtype) (n : nat)
    (fields : list (exodus_io.farray1 F)) :
  Forall (exodus_io.field_ok d0 n) fields ->
  map (exodus_io.FArray1 (dtype_name d0)) (map (@exodus_io.f1_items F) fields)
  = fields.
Proof.
  induction 1 as [|a fields [D _] _ IH]; [reflexivity|].
  cbn [map]. rewrite IH, <- D. destruct a; reflexivity.
Qed.

(** The variables that [write] creates before the cell blocks, read
    from the initial locals. *)
Lemma scan_header (points : exodus_io.farray2 F) (d : dtype) (n b : nat) :
  exodus_io.f2_ncols points = 3%nat ->
  wf_rows 3 (exodus_io.f2_rows points) ->
  foldM (exodus_io.read_step cast)
        [exodus_io.time_whole_variable fzero cast;
         exodus_io.coor_names_variable F;
         exodus_io.coord_variable d points;
         exodus_io.eb_prop1_variable F b]
        (exodus_io.initial_locals fzero n)
  = Ok (exodus_io.Locals d 3 (exodus_io.f2_rows points) [] [] []).
Proof.
  intros C W. do 4 (rewrite foldM_cons; run_head). cbn [foldM].
  rewrite C, length_transpose, (transpose_involutive 3 _ W). reflexivity.
Qed.

(** The two variables of the point data, read. *)
Lemma scan_point_data_variables (st : exodus_io.locals F)
    (pd : dict pystr (exodus_io.farray1 F)) (d0 : dtype) (n : nat) :
  Forall exodus_io.name_ok (keys pd) ->
  Forall (exodus_io.field_ok d0 n) (values pd) ->
  foldM (exodus_io.read_step cast)
        [exodus_io.name_nod_var_variable F (keys pd);
         exodus_io.vals_nod_var_variable d0 (values pd)] st
  = Ok (exodus_io.Locals (exodus_io.l_points_dtype st)
          (exodus_io.l_points_ncols st) (exodus_io.l_points st)
          (keys pd) (values pd) (exodus_io.l_cells st)).
Proof.
  intros A Fd. rewrite foldM_cons.
  unfold exodus_io.read_step at 1, exodus_io.name_nod_var_variable.
  cbn [substring String.eqb Ascii.eqb Bool.eqb exodus_io.v_data].
  rewrite (decode_padded_names 33 (keys pd))
    by (apply Forall_impl with (2 := A); intros name [? ?]; auto).
  cbn [bind]. rewrite foldM_cons. run_head. cbn [foldM].
  rewrite (fields_read_back d0 n _ Fd). reflexivity.
Qed.

(** *** What the store masks *)

Lemma transpose_Forall {A} (P : A -> Prop) (n : nat) (rows : list (list A)) :
  Forall (Forall P) rows -> Forall (Forall P) (transpose n rows).
Proof.
  revert rows. induction n as [|n IH]; intros rows H; cbn [transpose].
  - constructor.
  - constructor.
    + apply Forall_flat_map. apply Forall_impl with (2 := H).
      intros [|x r] Hr; [constructor|].
      inversion Hr; subst. constructor; [assumption | constructor].
    + apply IH. apply Forall_map. apply Forall_impl with (2 := H).
      intros [|x r] Hr; [constructor|]. inversion Hr; assumption.
Qed.

Lemma plain_unrecognised (masked : dtype -> F -> bool) key
    (value : exodus_io.variable F) :
  exodus_io.recognised key = false ->
  exodus_io.plain_variable masked (key, value).
Proof.
  unfold exodus_io.recognised, exodus_io.plain_variable,
    exodus_io.is_coordinate.
  cbn [fst snd existsb]. intros H.
  repeat (apply orb_false_iff in H; destruct H as [? H]).
  repeat match goal with E : _ = false |- _ => rewrite E; clear E end.
  exact I.
Qed.

Lemma plain_header (masked : dtype -> F -> bool)
    (points : exodus_io.farray2 F) (dp : dtype) (num_el_blk : nat) :
  exodus_io.points_plain masked dp points ->
  Forall (exodus_io.plain_variable masked)
         [exodus_io.time_whole_variable fzero cast;
          exodus_io.coor_names_variable F;
          exodus_io.coord_variable dp points;
          exodus_io.eb_prop1_variable F num_el_blk].
Proof.
  intros P. repeat apply Forall_cons; try apply Forall_nil;
    try (apply plain_unrecognised; reflexivity).
  unfold exodus_io.plain_variable, exodus_io.coord_variable.
  cbn [fst snd substring String.eqb Ascii.eqb Bool.eqb exodus_io.is_coordinate
       existsb orb exodus_io.v_data].
  destruct P as [_ P]. apply transpose_Forall, P.
Qed.

Lemma plain_blocks (masked : dtype -> F -> bool)
    (cells : dict string iarray2) (k : nat) :
  Forall exodus_io.block_plain cells ->
  Forall (exodus_io.plain_variable masked)
         (map (exodus_io.block_variable F) (enumerate_from k cells)).
Proof.
  intros B. revert k.
  induction B as [|[key values] cells (T & E & _) _ IH]; intros k;
    cbn [enumerate_from map]; constructor; [|apply IH].
  unfold exodus_io.plain_variable, exodus_io.block_variable.
  cbn [fst snd exodus_io.v_data] in *. rewrite connect_prefix.
  cbn [String.eqb Ascii.eqb Bool.eqb]. split; [exact T|].
  apply Forall_map. apply Forall_impl with (2 := E).
  intros row R. apply Forall_map. exact R.
Qed.

Lemma plain_point_data (masked : dtype -> F -> bool)
    (names : list pystr) (fields : list (exodus_io.farray1 F)) (d0 : dtype) :
  Forall (exodus_io.field_plain masked d0) fields ->
  Forall (exodus_io.plain_variable masked)
         [exodus_io.name_nod_var_variable F names;
          exodus_io.vals_nod_var_variable d0 fields].
Proof.
  intros P. repeat apply Forall_cons; try apply Forall_nil.
  - exact I.
  - unfold exodus_io.plain_variable, exodus_io.vals_nod_var_variable.
    cbn [fst snd substring String.eqb Ascii.eqb Bool.eqb exodus_io.is_coordinate
         existsb orb exodus_io.v_data].
    apply Forall_map. exact P.
Qed.

(** The variables of a mesh without a fill-valued entry are plain. *)
Lemma plain_mesh_variables (masked : dtype -> F -> bool)
    (points : exodus_io.farray2 F) (cells : dict string iarray2)
    (pd : dict pystr (exodus_io.farray1 F)) (dp d0 : dtype) :
  Forall exodus_io.block_plain cells ->
  exodus_io.points_plain masked dp points ->
  Forall (exodus_io.field_plain masked d0) (values pd) ->
  Forall (exodus_io.plain_variable masked)
         (exodus_io.mesh_variables fzero cast dp d0 points cells pd).
Proof.
  intros B P Fp. unfold exodus_io.mesh_variables.
  apply Forall_app. split; [apply plain_header, P|].
  apply Forall_app. split; [apply plain_blocks, B|].
  destruct pd as [|kv pd']; [constructor|].
  apply plain_point_data, Fp.
Qed.

(** C1. Let a mesh have points in three columns of a dtype the codec
    knows, cells under pairwise distinct registered types whose
    entries [+ 1] and [- 1] give back, point data under pairwise
    distinct ASCII names of at most 33 characters whose arrays all
    have one dtype the codec knows and one value per point, and no
    cell data, field data, node sets or side sets.  Let also nothing
    of it come back masked or in another dtype: the cell blocks have
    dtype [int64] or [float64] and none of their indices plus one is
    the fill value of the dtype, no coordinate and no value of the
    point data is one that the store masks, and there is a point and
    every block has a row and a column at least.  Then [write]
    returns a container that [read] gets as the store holds it, and
    from which it returns the mesh: the same points, cells and point
    data, and empty cell data and field data. *)
Theorem write_read_round_trip
    (title : string) (points : exodus_io.farray2 F)
    (cells : dict string iarray2)
    (pd : dict pystr (exodus_io.farray1 F))
    (cell_data : option (exodus_io.cell_data_t F))
    (field_data : option (exodus_io.field_data_t F))
    (nsets : option (dict pystr iarray1)) (ssets : option (dict pystr iarray2))
    (dp d0 : dtype) (masked : dtype -> F -> bool) :
  exodus_io.f2_ncols points = 3%nat ->
  wf_rows 3 (exodus_io.f2_rows points) ->
  exodus_io.f2_dtype points = dtype_name dp ->
  NoDup (keys cells) ->
  Forall exodus_io.block_ok cells ->
  NoDup (keys pd) ->
  Forall exodus_io.name_ok (keys pd) ->
  Forall (exodus_io.field_ok d0 (length (exodus_io.f2_rows points))) (values pd) ->
  Forall exodus_io.block_plain cells ->
  exodus_io.points_plain masked dp points ->
  Forall (exodus_io.field_plain masked d0) (values pd) ->
  exodus_io.or_empty cell_data = [] ->
  exodus_io.or_empty field_data = [] ->
  exodus_io.or_empty nsets = [] ->
  exodus_io.or_empty ssets = [] ->
  exists c,
    exodus_io.write fzero cast strict_bounds title points cells (Some pd)
      cell_data field_data nsets ssets = Ok c
    /\ exodus_io.plain masked c
    /\ exodus_io.read fzero cast c
       = Ok (points, cells, pd, exodus_io.or_empty cell_data,
             exodus_io.or_empty field_data).
Proof.
  intros C W D NDc B NDp A Fd Bp Pp Fp Hcd Hfd Hns Hss.
  pose proof (plain_mesh_variables masked points cells pd dp d0 Bp Pp Fp)
    as PL.
  unfold exodus_io.mesh_variables in PL.
  assert (R : Forall (fun kv => dict_mem (fst kv) exodus_io.meshio_to_exodus_type
                                = true) cells)
    by (apply Forall_impl with (2 := B); intros kv [? _]; auto).
  set (n := length (exodus_io.f2_rows points)) in *.
  set (dims := exodus_io.fixed_dims n (exodus_io.total_num_elems cells)
                 (length cells) 0 0
               ++ flat_map exodus_io.block_dims (enumerate cells)).
  set (vars := [exodus_io.time_whole_variable fzero cast;
                exodus_io.coor_names_variable F;
                exodus_io.coord_variable dp points;
                exodus_io.eb_prop1_variable F (length cells)]
               ++ map (exodus_io.block_variable F) (enumerate cells)).
  assert (W4 : forall k : container -> result container,
             (c <- exodus_io.set_dimensions n (exodus_io.total_num_elems cells)
                     (length cells) 0 0
                     (exodus_io.set_global_data title (exodus_io.new_dataset F)) ;;
              c <- exodus_io.write_time fzero cast c ;;
              c <- exodus_io.write_points cast strict_bounds points c ;;
              c <- exodus_io.write_cells cells c ;; k c)
             = k (exodus_io.Container (exodus_io.global_attrs title) dims vars)).
  { intros k. rewrite set_dimensions_fixed. cbn [bind].
    rewrite write_time_new. cbn [bind].
    rewrite (write_points_new _ _ _ _ _ _ points dp eq_refl C W D). cbn [bind].
    run_by write_cells_new. reflexivity. }
  rewrite Hcd, Hfd.
  unfold exodus_io.write. cbv zeta. rewrite Hns, Hss.
  cbn [length exodus_io.or_empty]. fold n. rewrite W4.
  destruct pd as [|[name0 field0] pd'] eqn:P.
  - exists (exodus_io.Container (exodus_io.global_attrs title) dims vars).
    split; [reflexivity|].
    split; [unfold exodus_io.plain, vars; cbn [exodus_io.c_vars];
            rewrite app_nil_r in PL; exact PL|].
    unfold exodus_io.read, exodus_io.scan. cbn [exodus_io.c_dims exodus_io.c_vars].
    unfold dims at 1. rewrite dict_get_app. cbn [bind].
    change (dict_get "num_nodes" (exodus_io.fixed_dims n _ _ 0 0)) with (Some n).
    cbn [bind]. unfold vars. rewrite foldM_app, (scan_header points dp n _ C W).
    cbn [bind]. unfold enumerate. rewrite read_blocks; [|exact NDc | exact B].
    cbn [bind]. unfold exodus_io.assemble. cbn. rewrite <- D.
    destruct points as [pdt pnc prows]. cbn in *. subst pnc. reflexivity.
  - assert (NE : pd <> []) by (rewrite P; discriminate).
    rewrite <- P in *. clear P.
    rewrite (write_point_data_new pd d0 n 0
               (exodus_io.Container (exodus_io.global_attrs title) dims vars)
               NE A Fd).
    + cbn [bind exodus_io.c_attrs exodus_io.c_dims exodus_io.c_vars].
      eexists. split; [reflexivity|].
      split; [unfold exodus_io.plain, vars; cbn [exodus_io.c_vars];
              destruct pd; [contradiction|]; rewrite <- app_assoc; exact PL|].
      unfold exodus_io.read, exodus_io.scan.
      cbn [exodus_io.c_dims exodus_io.c_vars].
      unfold dims at 1. rewrite !dict_get_app.
      change (dict_get "num_nodes" (exodus_io.fixed_dims n _ _ 0 0)) with (Some n).
      cbn [bind]. unfold vars.
      rewrite !foldM_app, (scan_header points dp n _ C W).
      cbn [bind]. unfold enumerate. rewrite read_blocks; [|exact NDc | exact B].
      cbn [bind]. rewrite (scan_point_data_variables _ pd d0 n A Fd).
      cbn [bind]. unfold exodus_io.assemble.
      cbn [exodus_io.l_points_dtype exodus_io.l_points_ncols exodus_io.l_points
           exodus_io.l_point_data_names exodus_io.l_pd exodus_io.l_cells app].
      rewrite combine_keys_values, (dict_of_pairs_NoDup pd NDp), <- D.
      destruct points as [pdt pnc prows]. cbn in *. subst pnc. reflexivity.
    + unfold dims. cbn [exodus_io.c_dims]. rewrite dict_get_app.
      apply not_in_block_dims; intros k; reflexivity.
    + unfold dims. cbn [exodus_io.c_dims]. rewrite dict_get_app. reflexivity.
    + unfold dims. cbn [exodus_io.c_dims]. rewrite dict_get_app. reflexivity.
    + unfold dims. cbn [exodus_io.c_dims]. rewrite dict_get_app. reflexivity.
    + unfold vars. cbn [exodus_io.c_vars]. rewrite dict_get_app.
      apply not_in_block_variables; intros k; reflexivity.
    + unfold vars. cbn [exodus_io.c_vars]. rewrite dict_get_app.
      apply not_in_block_variables; intros k; reflexivity.
Qed.
End RoundTrip.

(** ** The properties on sample data *)

Ltac sample :=
  unfold exodus_io.block_ok, exodus_io.index_ok, exodus_io.name_ok,
    exodus_io.field_ok, exodus_io.ascii_name, wf_rows;
  repeat first
    [ reflexivity
    | discriminate
    | lia
    | solve [simpl in *; intuition discriminate]
    | progress intros
    | split
    | constructor ].

(** The sample mesh has nothing that the store masks, and its cells
    are of dtype [int64]. *)
Ltac no_fill :=
  unfold exodus_io.block_plain, exodus_io.points_plain, exodus_io.field_plain;
  repeat first
    [ reflexivity
    | apply Forall_nil
    | apply Forall_cons
    | split
    | solve [vm_compute; discriminate]
    | discriminate ].

Lemma sample_blocks_plain : Forall exodus_io.block_plain samples.cells.
Proof. no_fill. Qed.

Lemma sample_points_plain :
  exodus_io.points_plain samples.masked float64 samples.points.
Proof. no_fill. Qed.

Lemma sample_fields_plain :
  Forall (exodus_io.field_plain samples.masked float64)
         (values samples.point_data).
Proof. no_fill. Qed.

(** A block of dtype [uint8] that names the nodes 253 and 254 meets
    [block_ok], but for node 254 [write] stores 255, the fill value
    of the dtype: the block is not plain. *)
Lemma fill_valued_index_is_not_plain :
  exodus_io.block_ok ("line", IArray2 uint8 2 [[253; 254]]%Z)
  /\ astype uint8 (254 + 1) = exodus_io.default_fillvals uint8
  /\ ~ exodus_io.block_plain ("line", IArray2 uint8 2 [[253; 254]]%Z).
Proof.
  split; [sample|]. split; [reflexivity|].
  intros [E _]. vm_compute in E. discriminate.
Qed.

(** The round trip of the triangle. *)
Lemma write_read_round_trip_witness :
  exodus_io.f2_ncols samples.points = 3%nat
  /\ wf_rows 3 (exodus_io.f2_rows samples.points)
  /\ exodus_io.f2_dtype samples.points = dtype_name float64
  /\ NoDup (keys samples.cells)
  /\ Forall exodus_io.block_ok samples.cells
  /\ NoDup (keys samples.point_data)
  /\ Forall exodus_io.name_ok (keys samples.point_data)
  /\ Forall (exodus_io.field_ok float64 (length (exodus_io.f2_rows samples.points)))
            (values samples.point_data)
  /\ Forall exodus_io.block_plain samples.cells
  /\ exodus_io.points_plain samples.masked float64 samples.points
  /\ Forall (exodus_io.field_plain samples.masked float64)
            (values samples.point_data)
  /\ exists c,
       samples.write true "sample" samples.points samples.cells
         (Some samples.point_data) None None None None = Ok c
       /\ exodus_io.plain samples.masked c
       /\ samples.read c
          = Ok (samples.mesh samples.points samples.cells samples.point_data []).
Proof.
  assert (H1 : exodus_io.f2_ncols samples.points = 3%nat) by reflexivity.
  assert (H2 : wf_rows 3 (exodus_io.f2_rows samples.points)) by sample.
  assert (H3 : exodus_io.f2_dtype samples.points = dtype_name float64)
    by reflexivity.
  assert (H4 : NoDup (keys samples.cells)) by sample.
  assert (H5 : Forall exodus_io.block_ok samples.cells) by sample.
  assert (H6 : NoDup (keys samples.point_data)) by sample.
  assert (H7 : Forall exodus_io.name_ok (keys samples.point_data)) by sample.
  assert (H8 : Forall (exodus_io.field_ok float64
                         (length (exodus_io.f2_rows samples.points)))
                      (values samples.point_data)) by sample.
  assert (H9 := sample_blocks_plain).
  assert (H10 := sample_points_plain).
  assert (H11 := sample_fields_plain).
  repeat (split; [assumption|]).
  exact (write_read_round_trip Z 0%Z astype true "sample" samples.points
           samples.cells samples.point_data None None None None
           float64 float64 samples.masked H1 H2 H3 H4 H5 H6 H7 H8 H9 H10 H11
           eq_refl eq_refl eq_refl eq_refl).
Defined.

(** C1 fails on a mesh with cell data: the mesh read back has none. *)
Lemma round_trip_loses_cell_data :
  (c <- samples.write true "sample" samples.points samples.cells
          (Some samples.point_data) (Some samples.cell_data) None None None ;;
   samples.read c)
  = Ok (samples.mesh samples.points samples.cells samples.point_data [])
  /\ samples.mesh samples.points samples.cells samples.point_data []
     <> samples.mesh samples.points samples.cells samples.point_data
          samples.cell_data.
Proof. split; [vm_compute; reflexivity | discriminate]. Qed.

(** What [write] stores for the triangle with a node set and a side
    set. *)
Lemma write_stores_one_based_witness :
  exists c,
    samples.write true "sample" samples.points samples.cells None None None
      (Some samples.nsets) (Some samples.ssets) = Ok c
    /\ (forall k kv, nth_error samples.cells k = Some kv ->
          exodus_io.block_on_disk k kv c)
    /\ (forall k kv, nth_error samples.nsets k = Some kv ->
          exodus_io.nset_on_disk k kv c)
    /\ (forall k kv, nth_error samples.ssets k = Some kv ->
          exodus_io.sset_on_disk k kv c)
    /\ (forall d i, representable d (i + 1) = true ->
          astype d (i + 1) = (i + 1)%Z).
Proof.
  eexists. split; [vm_compute; reflexivity|].
  apply (write_stores_one_based Z 0%Z astype true "sample" samples.points
           samples.cells None None None (Some samples.nsets)
           (Some samples.ssets)).
  vm_compute. reflexivity.
Defined.

(** C2 fails for the largest value of a dtype: index 127 of an [int8]
    block is stored as -128. *)
Lemma write_wraps_largest_index :
  exists c dims et,
    samples.write true "sample" samples.many_points samples.last_line
      None None None None None = Ok c
    /\ dict_get "connect1" (exodus_io.c_vars c)
       = Some (exodus_io.Var dims et
                 (exodus_io.Idx2 int8 2 [[127; -128]]%Z))
    /\ (-128 <> 127 + 1)%Z.
Proof.
  eexists _, _, _. split; [vm_compute; reflexivity|].
  split; [vm_compute; reflexivity | discriminate].
Qed.

(** The two blocks of quadrilaterals stacked. *)
Lemma read_stacks_blocks_of_one_type_witness :
  exodus_io.is_block_of "quad"
    ("connect1", samples.connect 0 "QUAD" 4 [[1; 2; 3; 4]]%Z) = true
  /\ exodus_io.is_block_of "quad"
       ("connect2", samples.connect 1 "shell4" 4 [[3; 4; 5; 6]; [1; 2; 5; 6]]%Z)
     = true
  /\ exists r,
       samples.read samples.two_quad_blocks = Ok r
       /\ NoDup (keys (exodus_io.cells_of r))
       /\ exists stacked,
            dict_get "quad" (exodus_io.cells_of r) = Some stacked
            /\ i2_rows stacked = [[0; 1; 2; 3]; [2; 3; 4; 5]; [0; 1; 4; 5]]%Z
            /\ length (i2_rows stacked) = (1 + 2)%nat.
Proof.
  split; [reflexivity|]. split; [reflexivity|].
  eexists. split; [vm_compute; reflexivity|].
  destruct (read_stacks_blocks_of_one_type Z 0%Z astype
              samples.two_quad_blocks _ "quad" [] [] []
              "connect1" "connect2"
              (samples.connect 0 "QUAD" 4 [[1; 2; 3; 4]]%Z)
              (samples.connect 1 "shell4" 4 [[3; 4; 5; 6]; [1; 2; 5; 6]]%Z)
              int64 int64 4 4 [[1; 2; 3; 4]]%Z [[3; 4; 5; 6]; [1; 2; 5; 6]]%Z
              eq_refl eq_refl eq_refl eq_refl eq_refl eq_refl eq_refl)
    as (_ & ND & stacked & G & _ & L & R).
  split; [exact ND|]. exists stacked.
  split; [exact G|]. split; [exact R | exact L].
Defined.

(** C3 fails when the two blocks differ in row width: [read] raises. *)
Lemma read_raises_on_blocks_of_two_widths :
  exodus_io.is_block_of "tetra"
    ("connect1", samples.connect 0 "TETRA" 4 [[1; 2; 3; 4]]%Z) = true
  /\ exodus_io.is_block_of "tetra"
       ("connect2",
        samples.connect 1 "TETRA" 10 [[1; 2; 3; 4; 5; 6; 7; 8; 9; 10]]%Z) = true
  /\ samples.read samples.two_tetra_blocks = Raise StorageError.
Proof. repeat split; vm_compute; reflexivity. Qed.

(** The dispatcher on a mesh with a hexahedron block of width 6. *)
Lemma write_rejects_malformed_block_witness :
  In ("hexahedron", IArray2 int64 6 [[0; 1; 2; 3; 4; 5]]%Z)
     samples.short_hexahedron
  /\ dict_get "hexahedron" samples.num_nodes_per_cell = Some 8%nat
  /\ 6%nat <> 8%nat
  /\ samples.dispatch "mesh.e" samples.short_hexahedron None
     = Raise MalformedCellBlock
  /\ samples.dispatch "mesh.vtk" samples.short_hexahedron (Some "exodus")
     = Raise MalformedCellBlock.
Proof.
  assert (H1 : In ("hexahedron", IArray2 int64 6 [[0; 1; 2; 3; 4; 5]]%Z)
                  samples.short_hexahedron) by (right; left; reflexivity).
  assert (H2 : dict_get "hexahedron" samples.num_nodes_per_cell = Some 8%nat)
    by reflexivity.
  assert (H3 : 6%nat <> 8%nat) by discriminate.
  repeat (split; [assumption|]).
  split.
  - apply (proj2 (write_rejects_malformed_block _ (fun mesh => mesh)
                    samples.num_nodes_per_cell "mesh.e"
                    samples.short_hexahedron None "hexahedron" _ 8 H1 H2 H3)
             "exodus"
             [("triangle", IArray2 int64 3 [[0; 1; 2]]%Z)] []);
      [reflexivity | reflexivity | repeat constructor].
  - apply (proj2 (write_rejects_malformed_block _ (fun mesh => mesh)
                    samples.num_nodes_per_cell "mesh.vtk"
                    samples.short_hexahedron (Some "exodus") "hexahedron" _ 8
                    H1 H2 H3)
             "exodus"
             [("triangle", IArray2 int64 3 [[0; 1; 2]]%Z)] []);
      [reflexivity | reflexivity | repeat constructor].
Defined.

(** C5 fails when no format is given and the extension is unknown:
    the exception is that of the format resolution. *)
Lemma write_raises_unknown_format_first :
  In ("hexahedron", IArray2 int64 6 [[0; 1; 2; 3; 4; 5]]%Z)
     samples.short_hexahedron
  /\ dict_get "hexahedron" samples.num_nodes_per_cell = Some 8%nat
  /\ samples.dispatch "mesh.unknown" samples.short_hexahedron None
     = Raise (UnknownFormat ".unknown")
  /\ UnknownFormat ".unknown" <> MalformedCellBlock.
Proof.
  split; [right; left; reflexivity|].
  repeat split; try reflexivity. discriminate.
Qed.

(** Three stored time steps: the point data are those of the first. *)
Lemma read_takes_first_time_step_witness :
  NoDup (keys (exodus_io.c_vars samples.three_time_steps))
  /\ samples.read samples.three_time_steps
     = Ok (samples.mesh
             (exodus_io.FArray2 "float64" 3 [[0; 0; 0]; [0; 0; 0]]%Z) []
             [(pystr_of_string "T", exodus_io.FArray1 "float64" [1; 2]%Z)] [])
  /\ forall later',
       samples.read
         (exodus_io.map_vals_nod_var (exodus_io.with_later_steps later')
            samples.three_time_steps)
       = Ok (samples.mesh
               (exodus_io.FArray2 "float64" 3 [[0; 0; 0]; [0; 0; 0]]%Z) []
               [(pystr_of_string "T", exodus_io.FArray1 "float64" [1; 2]%Z)] []).
Proof.
  assert (H1 : NoDup (keys (exodus_io.c_vars samples.three_time_steps)))
    by sample.
  assert (H2 : samples.read samples.three_time_steps
               = Ok (samples.mesh
                       (exodus_io.FArray2 "float64" 3 [[0; 0; 0]; [0; 0; 0]]%Z)
                       []
                       [(pystr_of_string "T",
                         exodus_io.FArray1 "float64" [1; 2]%Z)] []))
    by (vm_compute; reflexivity).
  split; [exact H1|]. split; [exact H2|].
  exact (proj2 (read_takes_first_time_step Z 0%Z astype
                  samples.three_time_steps _
                  (samples.vals [[[1; 2]]; [[3; 4]]; [[5; 6]]]%Z) float64
                  [[1; 2]]%Z [[[3; 4]]; [[5; 6]]]%Z
                  H1 eq_refl eq_refl H2)).
Defined.

(** A container with a node set and a side set: neither is read. *)
Lemma read_leaves_cell_field_data_and_sets_out_witness :
  samples.read samples.with_sets
  = Ok (samples.mesh
          (exodus_io.FArray2 "float64" 3 [[0; 0; 0]; [0; 0; 0]; [0; 0; 0]]%Z)
          [("triangle", IArray2 int64 3 [[0; 1; 2]]%Z)] [] [])
  /\ exodus_io.c_vars (exodus_io.without_sets samples.with_sets)
     = [("connect1", samples.connect 0 "TRI3" 3 [[1; 2; 3]]%Z)]
  /\ samples.read (exodus_io.without_sets samples.with_sets)
     = Ok (samples.mesh
             (exodus_io.FArray2 "float64" 3 [[0; 0; 0]; [0; 0; 0]; [0; 0; 0]]%Z)
             [("triangle", IArray2 int64 3 [[0; 1; 2]]%Z)] [] []).
Proof.
  assert (H : samples.read samples.with_sets
              = Ok (samples.mesh
                      (exodus_io.FArray2 "float64" 3
                         [[0; 0; 0]; [0; 0; 0]; [0; 0; 0]]%Z)
                      [("triangle", IArray2 int64 3 [[0; 1; 2]]%Z)] [] []))
    by (vm_compute; reflexivity).
  split; [exact H|]. split; [reflexivity|].
  exact (proj2 (proj2 (read_leaves_cell_field_data_and_sets_out Z 0%Z astype
                         samples.with_sets _ H))).
Defined.

(** A name of 33 letters, written and read back. *)
Lemma point_data_names_round_trip_witness :
  samples.named samples.name33 <> []
  /\ NoDup (keys (samples.named samples.name33))
  /\ Forall (fun name => exodus_io.ascii_name name /\ (length name <= 33)%nat)
            (keys (samples.named samples.name33))
  /\ exists c r,
       samples.write true "sample" samples.points samples.cells
         (Some (samples.named samples.name33)) None None None None = Ok c
       /\ samples.read c = Ok r
       /\ keys (exodus_io.point_data_of r) = [samples.name33].
Proof.
  assert (H1 : samples.named samples.name33 <> []) by discriminate.
  assert (H2 : NoDup (keys (samples.named samples.name33))) by sample.
  assert (H3 : Forall (fun name => exodus_io.ascii_name name
                                   /\ (length name <= 33)%nat)
                      (keys (samples.named samples.name33))).
  { repeat constructor; vm_compute; intros; discriminate. }
  repeat (split; [assumption|]).
  eexists _, _. split; [vm_compute; reflexivity|].
  split; [vm_compute; reflexivity|].
  eapply (point_data_names_round_trip Z 0%Z astype true "sample" samples.points
            samples.cells (samples.named samples.name33) None None None None);
    [exact H1 | exact H2 | exact H3 | vm_compute; reflexivity
     | vm_compute; reflexivity].
Defined.

(** C9 fails in its second half: a name of 33 letters is stored whole
    and read back whole, whatever the store does outside a row; no
    letter is cut. *)
Lemma name_of_33_letters_is_not_cut :
  length samples.name33 = 33%nat
  /\ (forall strict_bounds : bool,
        (c <- samples.write strict_bounds "sample" samples.points samples.cells
                (Some (samples.named samples.name33)) None None None None ;;
         samples.read c)
        = Ok (samples.mesh samples.points samples.cells
                (samples.named samples.name33) []))
  /\ samples.name33 <> firstn 32 samples.name33.
Proof.
  split; [reflexivity|]. split.
  - intros [|]; vm_compute; reflexivity.
  - vm_compute. discriminate.
Qed.

(** Three names for two rows: two entries, and no failure. *)
Lemma read_pairs_names_with_rows_witness :
  NoDup (keys (exodus_io.c_vars samples.more_names_than_rows))
  /\ samples.read samples.more_names_than_rows
     = Ok (samples.mesh
             (exodus_io.FArray2 "float64" 3 [[0; 0; 0]; [0; 0; 0]]%Z) []
             [(pystr_of_string "a", exodus_io.FArray1 "float64" [1; 2]%Z);
              (pystr_of_string "b", exodus_io.FArray1 "float64" [3; 4]%Z)] [])
  /\ length (exodus_io.field_names samples.more_names_than_rows) = 3%nat
  /\ length (exodus_io.first_time_step samples.more_names_than_rows) = 2%nat
  /\ forall step0', exists r',
       samples.read
         (exodus_io.map_vals_nod_var (exodus_io.with_step0 step0')
            samples.more_names_than_rows)
       = Ok r'.
Proof.
  assert (H1 : NoDup (keys (exodus_io.c_vars samples.more_names_than_rows)))
    by sample.
  assert (H2 : samples.read samples.more_names_than_rows
               = Ok (samples.mesh
                       (exodus_io.FArray2 "float64" 3 [[0; 0; 0]; [0; 0; 0]]%Z)
                       []
                       [(pystr_of_string "a",
                         exodus_io.FArray1 "float64" [1; 2]%Z);
                        (pystr_of_string "b",
                         exodus_io.FArray1 "float64" [3; 4]%Z)] []))
    by (vm_compute; reflexivity).
  split; [exact H1|]. split; [exact H2|].
  split; [reflexivity|]. split; [reflexivity|].
  exact (proj2 (proj2 (proj2 (proj2
           (read_pairs_names_with_rows Z 0%Z astype
              samples.more_names_than_rows _ H1 H2))))).
Defined.

(** C10 fails when a name occurs twice among those paired: three
    names and two rows give one entry, not two. *)
Lemma read_merges_repeated_names :
  length (exodus_io.field_names samples.repeated_name) = 3%nat
  /\ length (exodus_io.first_time_step samples.repeated_name) = 2%nat
  /\ samples.read samples.repeated_name
     = Ok (samples.mesh
             (exodus_io.FArray2 "float64" 3 [[0; 0; 0]; [0; 0; 0]]%Z) []
             [(pystr_of_string "a", exodus_io.FArray1 "float64" [3; 4]%Z)] [])
  /\ (1 <> Nat.min 3 2)%nat.
Proof. repeat split; try (vm_compute; reflexivity). discriminate. Qed.

(** * Further properties of the two modules *)

(** ** File names and formats *)

Lemma first_known_value (table : dict string string) (cands : list string)
    (ft : string) :
  helpers.first_known table cands = Some ft -> In ft (values table).
Proof.
  induction cands as [|c cands IH]; simpl; [discriminate|].
  destruct (dict_get c table) as [v|] eqn:G; [|exact IH].
  intros [= <-]. apply dict_get_In in G.
  unfold values. apply in_map_iff. exists (c, v). auto.
Qed.

(** A deduced format is a format of the extension table. *)
Lemma deduced_format_in_table (filename ft : string) :
  helpers._filetype_from_filename filename = Ok ft ->
  In ft (values helpers._extension_to_filetype).
Proof.
  unfold helpers._filetype_from_filename. rewrite filetype_loop_spec.
  destruct (helpers.first_known _ _) as [v|] eqn:E; [|discriminate].
  intros [= <-]. exact (first_known_value _ _ _ E).
Qed.

(** X1. Every format that the extension table can give has a reader:
    when the format of a file name can be deduced, [read] without a
    format, or with an empty one, ends by calling the [read] of the
    codec that [format_to_reader] lists for the deduced format; the
    assertion on the format cannot fail then. *)
Theorem read_finds_reader_for_deduced_format (filename ft : string) :
  helpers._filetype_from_filename filename = Ok ft ->
  exists c,
    dict_get ft helpers.format_to_reader = Some c
    /\ helpers.read filename None = Ok c
    /\ helpers.read filename (Some "") = Ok c.
Proof.
  intros E. pose proof (deduced_format_in_table _ _ E) as I.
  unfold helpers.read, helpers.deduce. cbn [String.eqb]. rewrite E. cbn [bind].
  vm_compute in I.
  repeat (destruct I as [<-|I];
          [eexists; split; [reflexivity|]; split; reflexivity|]).
  contradiction.
Qed.

Lemma split_dot_not_nil (s : string) : helpers.split_dot s <> [].
Proof.
  induction s as [|c s IH]; simpl; [discriminate|].
  destruct (Ascii.eqb c "."); [discriminate|].
  destruct (helpers.split_dot s); [contradiction | discriminate].
Qed.

(** Splitting at a dot splits the two sides. *)
Lemma split_dot_app (a b : string) :
  helpers.split_dot (a ++ "." ++ b)%string
  = helpers.split_dot a ++ helpers.split_dot b.
Proof.
  induction a as [|c a IH]; [reflexivity|].
  cbn [String.append helpers.split_dot].
  destruct (Ascii.eqb c "."); [cbn [String.append] in IH; rewrite IH; reflexivity|].
  cbn [String.append] in IH. rewrite IH.
  destruct (helpers.split_dot a) as [|p ps] eqn:E;
    [destruct (split_dot_not_nil a E) | reflexivity].
Qed.

Lemma split_dot_no_dot (s : string) :
  helpers.contains_dot s = false -> helpers.split_dot s = [s].
Proof.
  induction s as [|c s IH]; [reflexivity|].
  cbn [helpers.contains_dot helpers.split_dot]. intros H.
  apply orb_false_iff in H. destruct H as [H1 H2].
  rewrite H1, (IH H2). reflexivity.
Qed.

Lemma suffixes_of_app (base ext : string) :
  helpers.contains_dot ext = false ->
  helpers.suffixes_of (base ++ "." ++ ext)%string
  = helpers.suffixes_of base ++ ["." ++ ext]%string.
Proof.
  intros N. unfold helpers.suffixes_of.
  rewrite split_dot_app, (split_dot_no_dot ext N).
  destruct (helpers.split_dot base) as [|p ps] eqn:E;
    [destruct (split_dot_not_nil base E)|].
  cbn [tl app]. rewrite map_app. reflexivity.
Qed.

Lemma append_nil_r (s : string) : (s ++ "")%string = s.
Proof. induction s as [|c s IH]; simpl; [reflexivity | rewrite IH; reflexivity]. Qed.

Lemma append_assoc (a b c : string) : ((a ++ b) ++ c = a ++ (b ++ c))%string.
Proof. induction a as [|x a IH]; simpl; [reflexivity | rewrite IH; reflexivity]. Qed.

Lemma length_append (a b : string) :
  String.length (a ++ b)%string = (String.length a + String.length b)%nat.
Proof. induction a as [|x a IH]; simpl; [reflexivity | rewrite IH; reflexivity]. Qed.

Lemma substring_whole (l : string) : substring 0 (String.length l) l = l.
Proof. induction l as [|x l IH]; simpl; [reflexivity | rewrite IH; reflexivity]. Qed.

Lemma substring_append (c l : string) :
  substring (String.length c) (String.length l) (c ++ l)%string = l.
Proof. induction c as [|x c IH]; simpl; [apply substring_whole | exact IH]. Qed.

Lemma proper_suffix_append (c l : string) :
  c <> "" -> helpers.proper_suffix l (c ++ l)%string = true.
Proof.
  intros N. unfold helpers.proper_suffix. rewrite length_append.
  replace (String.length c + String.length l - String.length l)%nat
    with (String.length c) by lia.
  rewrite substring_append, String.eqb_refl, andb_true_r.
  apply Nat.ltb_lt. destruct c; [congruence | simpl; lia].
Qed.

Lemma join_snoc (pre : list string) (l : string) :
  helpers.join (pre ++ [l]) = (helpers.join pre ++ l)%string.
Proof.
  unfold helpers.join. induction pre as [|s pre IH]; simpl.
  - apply append_nil_r.
  - rewrite IH, append_assoc. reflexivity.
Qed.

Lemma compound_suffixes_snoc (pre : list string) (l : string) :
  helpers.compound_suffixes (pre ++ [l])
  = map (fun c => (c ++ l)%string) (helpers.compound_suffixes pre) ++ [l].
Proof.
  induction pre as [|s pre IH].
  - simpl. rewrite append_nil_r. reflexivity.
  - cbn [app helpers.compound_suffixes map]. rewrite IH. f_equal.
    change (s :: pre ++ [l]) with ((s :: pre) ++ [l]). apply join_snoc.
Qed.

Lemma compound_suffixes_not_empty (suffixes : list string) :
  Forall (fun s => s <> "") suffixes ->
  Forall (fun c => c <> "") (helpers.compound_suffixes suffixes).
Proof.
  induction 1 as [|s rest N _ IH]; simpl; constructor; [|exact IH].
  destruct s; [congruence | discriminate].
Qed.

Lemma suffixes_not_empty (filename : string) :
  Forall (fun s => s <> "") (helpers.suffixes_of filename).
Proof.
  unfold helpers.suffixes_of. apply Forall_forall. intros s I.
  apply in_map_iff in I. destruct I as (ext & <- & _). discriminate.
Qed.

(** No extension of the table is the end of a longer one. *)
Lemma extensions_not_nested :
  forallb (fun k => forallb (fun l => negb (helpers.proper_suffix l k))
                            (keys helpers._extension_to_filetype))
          (keys helpers._extension_to_filetype) = true.
Proof. vm_compute. reflexivity. Qed.

Lemma longer_extension_unknown (c l ft : string) :
  c <> "" ->
  dict_get l helpers._extension_to_filetype = Some ft ->
  dict_get (c ++ l)%string helpers._extension_to_filetype = None.
Proof.
  intros N G.
  destruct (dict_get (c ++ l)%string helpers._extension_to_filetype)
    as [v|] eqn:G';
    [|reflexivity].
  apply dict_get_In in G, G'.
  pose proof extensions_not_nested as X.
  rewrite forallb_forall in X.
  assert (K : In (c ++ l)%string (keys helpers._extension_to_filetype))
    by (unfold keys; apply in_map_iff; exists ((c ++ l)%string, v); auto).
  assert (L : In l (keys helpers._extension_to_filetype))
    by (unfold keys; apply in_map_iff; exists (l, ft); auto).
  specialize (X _ K). rewrite forallb_forall in X. specialize (X _ L).
  rewrite (proper_suffix_append c l N) in X. discriminate X.
Qed.

Lemma first_known_app_unknown (table : dict string string)
    (cands rest : list string) :
  Forall (fun c => dict_get c table = None) cands ->
  helpers.first_known table (cands ++ rest) = helpers.first_known table rest.
Proof.
  induction 1 as [|c cands G _ IH]; simpl; [reflexivity|].
  rewrite G. exact IH.
Qed.

(** X2. A file name that ends with a dot and an extension of the
    table has the format of that extension, whatever stands before:
    no longer compound suffix takes its place. *)
Theorem known_last_extension_decides (base ext ft : string) :
  helpers.contains_dot ext = false ->
  dict_get ("." ++ ext)%string helpers._extension_to_filetype = Some ft ->
  helpers._filetype_from_filename (base ++ "." ++ ext)%string = Ok ft.
Proof.
  intros N G. unfold helpers._filetype_from_filename.
  rewrite filetype_loop_spec, (suffixes_of_app base ext N),
    compound_suffixes_snoc, first_known_app_unknown.
  - cbn [helpers.first_known]. rewrite G. reflexivity.
  - apply Forall_forall. intros x I. apply in_map_iff in I.
    destruct I as (c & <- & I).
    apply (longer_extension_unknown c _ ft); [|exact G].
    pose proof (compound_suffixes_not_empty _ (suffixes_not_empty base)) as NE.
    rewrite Forall_forall in NE. exact (NE c I).
Qed.

(** X3. The format is deduced from what follows the first dot of the
    file name, and from nothing before it: two names that agree from
    their first dot on resolve alike, and a name without a dot is
    never resolved, the extension named in the failure being empty. *)
Theorem resolution_starts_at_first_dot :
  (forall a b rest,
     helpers.contains_dot a = false -> helpers.contains_dot b = false ->
     helpers._filetype_from_filename (a ++ "." ++ rest)%string
     = helpers._filetype_from_filename (b ++ "." ++ rest)%string)
  /\ (forall name,
        helpers.contains_dot name = false ->
        helpers._filetype_from_filename name = Raise (UnknownFormat "")).
Proof.
  split.
  - intros a b rest Na Nb.
    unfold helpers._filetype_from_filename, helpers.suffixes_of.
    rewrite !split_dot_app, (split_dot_no_dot a Na), (split_dot_no_dot b Nb).
    reflexivity.
  - intros name N.
    unfold helpers._filetype_from_filename, helpers.suffixes_of.
    rewrite (split_dot_no_dot name N). reflexivity.
Qed.

(** ** The dispatcher, when it reaches a codec *)

Section Dispatching.
Variable Mesh : Type.
Variable cells : Mesh -> dict string iarray2.
Variable num_nodes_per_cell : dict string nat.

Local Abbreviation check_block := (helpers.check_block num_nodes_per_cell).
Local Abbreviation checked := (helpers.checked num_nodes_per_cell).
Local Abbreviation write := (helpers.write cells num_nodes_per_cell).

Lemma check_block_checked (kv : string * iarray2) :
  check_block tt kv = Ok tt <-> checked kv.
Proof.
  unfold helpers.check_block, helpers.checked.
  destruct (dict_get (fst kv) num_nodes_per_cell) as [n|]; [|split; discriminate].
  destruct (Nat.eqb_spec (i2_ncols (snd kv)) n) as [->|N].
  - split; reflexivity.
  - split; [discriminate | intros [= E]; congruence].
Qed.

Lemma check_loop_checked (blocks : dict string iarray2) :
  foldM check_block blocks tt = Ok tt <-> Forall checked blocks.
Proof.
  induction blocks as [|kv blocks IH]; simpl.
  - split; [constructor | reflexivity].
  - destruct (check_block tt kv) as [[]|e] eqn:E; simpl.
    + rewrite IH. apply check_block_checked in E.
      split; [constructor; assumption | intros H; inversion H; assumption].
    + split; [discriminate|]. intros H. inversion H as [|? ? C _]; subst.
      apply check_block_checked in C. congruence.
Qed.

(** X4. For a mesh whose blocks pass the check and a file name whose
    format can be deduced, [write] without a format hands the file
    name and the mesh to the codec that [read] uses for that file
    name; it passes [write_binary=True] to each codec that takes the
    keyword ([takes_write_binary]), and no such keyword to any
    other. *)
Theorem write_uses_the_codec_of_read (filename : string) (mesh : Mesh)
    (ft : string) :
  Forall checked (cells mesh) ->
  helpers._filetype_from_filename filename = Ok ft ->
  exists c,
    helpers.read filename None = Ok c
    /\ write filename mesh None
       = Ok (helpers.Call c filename mesh
               (if helpers.takes_write_binary c then Some true else None)).
Proof.
  intros C E. pose proof (deduced_format_in_table _ _ E) as I.
  apply check_loop_checked in C.
  unfold helpers.read, helpers.write, helpers.deduce.
  rewrite E, C. cbn [bind]. vm_compute in I.
  repeat (destruct I as [<-|I];
          [eexists; split; reflexivity|]).
  contradiction.
Qed.

(** X5. The formats that the module lists are the formats it
    accepts: [read] finds a reader for each tag of [input_filetypes]
    and, for a mesh whose blocks pass the check, [write] reaches a
    codec for each tag of [output_filetypes], with the file name and
    the mesh it was given. *)
Theorem listed_filetypes_are_accepted (filename : string) (mesh : Mesh) :
  Forall (fun fmt => exists c, helpers.read filename (Some fmt) = Ok c)
         helpers.input_filetypes
  /\ (Forall checked (cells mesh) ->
      Forall (fun fmt => exists c b,
                write filename mesh (Some fmt)
                = Ok (helpers.Call c filename mesh b))
             helpers.output_filetypes).
Proof.
  split.
  - repeat (apply Forall_cons; [eexists; reflexivity|]). apply Forall_nil.
  - intros C. apply check_loop_checked in C.
    repeat (apply Forall_cons;
            [eexists _, _; unfold helpers.write; cbn [helpers.deduce String.eqb
               Ascii.eqb Bool.eqb bind]; rewrite C; reflexivity|]).
    apply Forall_nil.
Qed.

(** X6. When [write] reaches a codec, the format was given or
    deduced, every block of the mesh has the width registered for
    its type, and the codec gets the file name and the mesh that
    [write] was given. *)
Theorem write_reaches_a_codec_with_checked_cells (filename : string)
    (mesh : Mesh) (file_format : option string) (call : helpers.call Mesh) :
  write filename mesh file_format = Ok call ->
  (exists fmt, helpers.deduce filename file_format = Ok fmt)
  /\ Forall checked (cells mesh)
  /\ helpers.call_filename call = filename
  /\ helpers.call_mesh call = mesh.
Proof.
  unfold helpers.write. intros H.
  destruct (helpers.deduce filename file_format) as [fmt|]; cbn [bind] in H;
    [|discriminate H].
  destruct (foldM check_block (cells mesh) tt) as [[]|] eqn:C; cbn [bind] in H;
    [|discriminate H].
  apply check_loop_checked in C.
  split; [eauto|]. split; [exact C|].
  repeat match type of H with
         | (if ?b then _ else _) = _ => destruct b
         end;
    try discriminate H; injection H as <-; split; reflexivity.
Qed.
End Dispatching.

(** ** What [read] looks at *)

Lemma upper_ascii_idempotent (c : ascii) :
  upper_ascii (upper_ascii c) = upper_ascii c.
Proof. destruct c as [[] [] [] [] [] [] [] []]; reflexivity. Qed.

Lemma upper_idempotent (s : string) : upper (upper s) = upper s.
Proof.
  induction s as [|c s IH]; simpl; [reflexivity|].
  rewrite upper_ascii_idempotent, IH. reflexivity.
Qed.

Lemma fold_left_add_sum (l : list nat) (a : nat) :
  fold_left Nat.add l a = (a + list_sum l)%nat.
Proof.
  revert a. induction l as [|x l IH]; intros a; simpl; [lia|].
  rewrite IH. lia.
Qed.

Lemma total_num_elems_sum (cells : dict string iarray2) :
  exodus_io.total_num_elems cells
  = list_sum (map (fun kv => length (i2_rows (snd kv))) cells).
Proof.
  unfold exodus_io.total_num_elems, values.
  rewrite fold_left_add_sum, map_map. reflexivity.
Qed.

(** The rows in a dictionary of blocks after [d[k] = v]. *)
Lemma total_num_elems_set (k : string) (v : iarray2) (d : dict string iarray2) :
  (exodus_io.total_num_elems (dict_set k v d)
   + match dict_get k d with
     | Some old => length (i2_rows old)
     | None => 0
     end
   = exodus_io.total_num_elems d + length (i2_rows v))%nat.
Proof.
  rewrite !total_num_elems_sum.
  induction d as [|[k' v'] d IH]; simpl; [lia|].
  destruct (String.eqb k k'); simpl; lia.
Qed.

Lemma length_set_nth {A} (j : nat) (x : A) (xs : list A) :
  length (set_nth j x xs) = length xs.
Proof.
  revert j. induction xs as [|y xs IH]; intros [|j]; simpl; auto.
Qed.

Lemma nth_set_nth_same {A} (j : nat) (x d : A) (xs : list A) :
  (j < length xs)%nat -> nth j (set_nth j x xs) d = x.
Proof.
  revert j. induction xs as [|y xs IH]; intros [|j] L; simpl in *;
    try lia; [reflexivity | apply IH; lia].
Qed.

Lemma nth_set_nth_other {A} (i j : nat) (x d : A) (xs : list A) :
  i <> j -> nth i (set_nth j x xs) d = nth i xs d.
Proof.
  revert i j. induction xs as [|y xs IH]; intros [|i] [|j] N; simpl;
    try reflexivity; try congruence.
  apply IH. congruence.
Qed.

Section ReadingFurther.
Variable F : Type.
Variable fzero : F.
Variable cast : dtype -> F -> F.

Local Abbreviation read_step := (exodus_io.read_step cast).
Local Abbreviation scan := (exodus_io.scan fzero cast).
Local Abbreviation read := (exodus_io.read fzero cast).
Local Abbreviation column := (exodus_io.column fzero).

(** X7. [read] depends on the dimension [num_nodes] and on the
    variables [connect...], [coord], [coordx], [coordy], [coordz],
    [name_nod_var] and [vals_nod_var] only: the global attributes,
    the other dimensions and the other variables of a container have
    no part in what it returns or raises. *)
Theorem read_looks_at_recognised_part_only (nc : exodus_io.container F) :
  read nc = read (exodus_io.recognised_part nc).
Proof.
  unfold exodus_io.read, exodus_io.scan, exodus_io.recognised_part.
  cbn [exodus_io.c_dims exodus_io.c_vars].
  destruct (dict_get "num_nodes" (exodus_io.c_dims nc)) as [n|];
    [|reflexivity].
  cbn [bind dict_get keqb string_Key String.eqb Ascii.eqb Bool.eqb].
  rewrite (scan_filter F cast exodus_io.recognised); auto.
Qed.

Lemma to_canonical_upper (e : string) :
  exodus_io.to_canonical (upper e) = exodus_io.to_canonical e.
Proof. unfold exodus_io.to_canonical. rewrite upper_idempotent. reflexivity. Qed.

(** X8. [read] matches element types without regard to case: a
    container and the same container with every [elem_type] in upper
    case read alike. *)
Theorem read_ignores_case_of_elem_type (nc : exodus_io.container F) :
  read (exodus_io.map_elem_types upper nc) = read nc.
Proof.
  unfold exodus_io.read, exodus_io.scan, exodus_io.map_elem_types.
  cbn [exodus_io.c_dims exodus_io.c_vars].
  destruct (dict_get "num_nodes" (exodus_io.c_dims nc)) as [n|];
    [|reflexivity].
  cbn [bind]. rewrite (scan_map F cast); [reflexivity|].
  intros st [key [dims [e|] data]]; [|reflexivity].
  unfold exodus_io.read_step.
  cbn [fst snd exodus_io.v_dims exodus_io.v_elem_type exodus_io.v_data option_map].
  destruct (substring 0 7 key =? "connect"); [|reflexivity].
  cbn [bind]. rewrite to_canonical_upper. reflexivity.
Qed.

(** *** Cells *)

Lemma read_step_cell_types t (st st' : exodus_io.locals F) kv :
  read_step st kv = Ok st' ->
  dict_mem t (exodus_io.l_cells st')
  = dict_mem t (exodus_io.l_cells st) || exodus_io.is_block_of t kv.
Proof.
  intros H. destruct (exodus_io.is_block_of t kv) eqn:B.
  - rewrite orb_true_r. destruct kv as [key value].
    unfold exodus_io.is_block_of in B. cbn [fst snd] in B.
    apply andb_true_iff in B. destruct B as [B1 B2].
    unfold exodus_io.read_step in H. rewrite B1 in H.
    destruct (exodus_io.v_elem_type value) as [e|]; [|discriminate B2].
    cbn [bind] in H.
    destruct (exodus_io.to_canonical e) as [t'|]; [|discriminate B2].
    apply String.eqb_eq in B2. subst t'. cbn [bind] in H.
    unfold dict_mem.
    destruct (exodus_io.v_data value); try discriminate H.
    destruct (dict_get t (exodus_io.l_cells st)).
    + destruct (vstack _ _); cbn [bind] in H; [|discriminate H].
      injection H as <-. cbn [exodus_io.l_cells].
      rewrite dict_get_set_same. reflexivity.
    + injection H as <-. cbn [exodus_io.l_cells].
      rewrite dict_get_set_same. reflexivity.
  - rewrite orb_false_r. unfold dict_mem.
    rewrite (read_step_cells_other F cast t st st' kv B H). reflexivity.
Qed.

Lemma scan_cell_types t (vars : dict string (exodus_io.variable F))
    (st st' : exodus_io.locals F) :
  foldM read_step vars st = Ok st' ->
  dict_mem t (exodus_io.l_cells st')
  = dict_mem t (exodus_io.l_cells st) || existsb (exodus_io.is_block_of t) vars.
Proof.
  revert st. induction vars as [|kv vars IH]; intros st H.
  - simpl in H. injection H as <-. simpl. rewrite orb_false_r. reflexivity.
  - rewrite foldM_cons in H.
    destruct (read_step st kv) as [st1|] eqn:E; cbn [bind] in H;
      [|discriminate H].
    rewrite (IH st1 H), (read_step_cell_types t st st1 kv E).
    simpl. rewrite orb_assoc. reflexivity.
Qed.

(** X9. The cells that [read] returns have an entry for a canonical
    type exactly when some [connect] variable of the container has an
    element type that the registry maps to it. *)
Theorem read_cell_types_are_block_types (nc : exodus_io.container F)
    (r : exodus_io.mesh_tuple F) (t : string) :
  read nc = Ok r ->
  dict_mem t (exodus_io.cells_of r)
  = existsb (exodus_io.is_block_of t) (exodus_io.c_vars nc).
Proof.
  unfold exodus_io.read. intros H.
  destruct (dict_get "num_nodes" (exodus_io.c_dims nc)) as [n|];
    cbn [bind] in H; [|discriminate H].
  destruct (scan nc n) as [st|] eqn:E; cbn [bind] in H; [|discriminate H].
  injection H as <-. unfold exodus_io.scan in E.
  apply (scan_cell_types t) in E. exact E.
Qed.

Lemma read_step_rows (st st' : exodus_io.locals F) kv :
  read_step st kv = Ok st' ->
  exodus_io.total_num_elems (exodus_io.l_cells st')
  = (exodus_io.total_num_elems (exodus_io.l_cells st)
     + exodus_io.block_rows kv)%nat.
Proof.
  intros H. destruct kv as [key value].
  unfold exodus_io.block_rows. cbn [fst snd].
  unfold exodus_io.read_step in H.
  destruct (substring 0 7 key =? "connect").
  - destruct (exodus_io.v_elem_type value); cbn [bind] in H; [|discriminate H].
    destruct (exodus_io.to_canonical _) as [t|]; cbn [bind] in H;
      [|discriminate H].
    destruct (exodus_io.v_data value) as [| d w rows | | | |];
      try discriminate H.
    pose proof (total_num_elems_set t) as T.
    destruct (dict_get t (exodus_io.l_cells st)) as [old|] eqn:G.
    + destruct (vstack old _) as [stacked|] eqn:V; cbn [bind] in H;
        [|discriminate H].
      injection H as <-. cbn [exodus_io.l_cells].
      specialize (T stacked (exodus_io.l_cells st)). rewrite G in T.
      apply vstack_ok in V. destruct V as [_ ->].
      cbn [i2_rows iarray2_add] in T |- *.
      rewrite length_app, !length_map in T. lia.
    + injection H as <-. cbn [exodus_io.l_cells].
      specialize (T (iarray2_add (IArray2 d w rows) (-1)) (exodus_io.l_cells st)).
      rewrite G in T. cbn [i2_rows iarray2_add] in T |- *.
      rewrite length_map in T. lia.
  - unfold exodus_io.set_column in H.
    invert_ok H; subst st'; simpl; lia.
Qed.

(** X10. [read] keeps every element: the blocks it returns have,
    together, as many rows as the [connect] variables of the
    container, however many of these it stacks under one type. *)
Theorem read_keeps_every_element (nc : exodus_io.container F)
    (r : exodus_io.mesh_tuple F) :
  read nc = Ok r ->
  exodus_io.total_num_elems (exodus_io.cells_of r)
  = list_sum (map (@exodus_io.block_rows F) (exodus_io.c_vars nc)).
Proof.
  unfold exodus_io.read. intros H.
  destruct (dict_get "num_nodes" (exodus_io.c_dims nc)) as [n|];
    cbn [bind] in H; [|discriminate H].
  destruct (scan nc n) as [st|] eqn:E; cbn [bind] in H; [|discriminate H].
  injection H as <-. unfold exodus_io.scan in E.
  change (exodus_io.cells_of (exodus_io.assemble st)) with (exodus_io.l_cells st).
  assert (G : forall vars s s',
             foldM read_step vars s = Ok s' ->
             exodus_io.total_num_elems (exodus_io.l_cells s')
             = (exodus_io.total_num_elems (exodus_io.l_cells s)
                + list_sum (map (@exodus_io.block_rows F) vars))%nat).
  { induction vars as [|kv vars IH]; intros s s' S.
    - simpl in S. injection S as <-. simpl. lia.
    - rewrite foldM_cons in S.
      destruct (read_step s kv) as [s1|] eqn:E1; cbn [bind] in S;
        [|discriminate S].
      rewrite (IH _ _ S), (read_step_rows _ _ _ E1). simpl. lia. }
  rewrite (G _ _ _ E). reflexivity.
Qed.

Lemma canonical_is_registered (e t : string) :
  exodus_io.to_canonical e = Ok t ->
  exodus_io.to_disk t = Ok (exodus_io.disk_tag t)
  /\ exodus_io.to_canonical (exodus_io.disk_tag t) = Ok t.
Proof.
  intros H. apply to_canonical_disk_tag.
  unfold exodus_io.to_canonical in H. revert H.
  generalize (upper e). intros u H.
  destruct (dict_get u exodus_io.exodus_to_meshio_type) as [t'|] eqn:G;
    [|discriminate H].
  injection H as <-. apply dict_get_In in G. vm_compute in G.
  repeat (destruct G as [G|G]; [injection G as _ <-; reflexivity|]).
  contradiction.
Qed.

(** X11. What [read] returns, [write] takes: every canonical type
    under which [read] returns cells has a disk tag in
    [meshio_to_exodus_type], and that tag is read as the same type. *)
Theorem read_returns_types_that_write_accepts (nc : exodus_io.container F)
    (r : exodus_io.mesh_tuple F) (t : string) :
  read nc = Ok r ->
  dict_mem t (exodus_io.cells_of r) = true ->
  exists tag,
    exodus_io.to_disk t = Ok tag /\ exodus_io.to_canonical tag = Ok t.
Proof.
  intros H M. unfold exodus_io.read in H.
  destruct (dict_get "num_nodes" (exodus_io.c_dims nc)) as [n|];
    cbn [bind] in H; [|discriminate H].
  destruct (scan nc n) as [st|] eqn:E; cbn [bind] in H; [|discriminate H].
  injection H as <-. unfold exodus_io.scan in E.
  apply (scan_cell_types t) in E.
  change (exodus_io.cells_of (exodus_io.assemble st)) with (exodus_io.l_cells st)
    in M.
  rewrite E in M. cbn [exodus_io.initial_locals exodus_io.l_cells dict_mem
    dict_get orb] in M.
  apply existsb_exists in M. destruct M as ([key value] & _ & B).
  unfold exodus_io.is_block_of in B. cbn [fst snd] in B.
  apply andb_true_iff in B. destruct B as [_ B].
  destruct (exodus_io.v_elem_type value) as [e|]; [|discriminate B].
  destruct (exodus_io.to_canonical e) as [t'|] eqn:T; [|discriminate B].
  apply String.eqb_eq in B. subst t'.
  exists (exodus_io.disk_tag t). exact (canonical_is_registered e t T).
Qed.

(** *** Containers that [read] does not take *)

Lemma foldM_raises {S X} (f : S -> X -> result S) (x : X) (xs : list X) :
  In x xs -> (forall s, exists e, f s x = Raise e) ->
  forall s, exists e, foldM f xs s = Raise e.
Proof.
  intros I R. induction xs as [|y xs IH]; [contradiction|].
  intros s. rewrite foldM_cons. destruct I as [->|I].
  - destruct (R s) as [e ->]. exists e. reflexivity.
  - destruct (f s y) as [s'|e]; cbn [bind]; [exact (IH I s') | eauto].
Qed.

Lemma read_raises_on_variable (nc : exodus_io.container F) kv :
  In kv (exodus_io.c_vars nc) ->
  (forall st, exists e, read_step st kv = Raise e) ->
  exists e, read nc = Raise e.
Proof.
  intros I R. unfold exodus_io.read, exodus_io.scan.
  destruct (dict_get "num_nodes" (exodus_io.c_dims nc)) as [n|]; cbn [bind];
    [|eauto].
  destruct (foldM_raises read_step kv _ I R (exodus_io.initial_locals fzero n))
    as [e ->].
  exists e. reflexivity.
Qed.

(** X12. A container with a [connect] variable whose element type is
    ASCII text that is not in the registry, in whatever case it is
    written, or that has no [elem_type] at all, is not read: [read]
    raises. *)
Theorem read_rejects_unregistered_element_type
    (nc : exodus_io.container F) (key : string)
    (value : exodus_io.variable F) :
  In (key, value) (exodus_io.c_vars nc) ->
  substring 0 7 key = "connect" ->
  match exodus_io.v_elem_type value with
  | Some e => is_ascii e = true
              /\ dict_get (upper e) exodus_io.exodus_to_meshio_type = None
  | None => True
  end ->
  exists e, read nc = Raise e.
Proof.
  intros I P U. apply (read_raises_on_variable nc (key, value) I).
  intros st. unfold exodus_io.read_step. rewrite P. cbn [String.eqb Ascii.eqb
    Bool.eqb].
  destruct (exodus_io.v_elem_type value) as [e|]; cbn [bind]; [|eauto].
  destruct U as [_ U].
  unfold exodus_io.to_canonical. rewrite U. cbn [bind]. eauto.
Qed.

(** X13. A container whose [vals_nod_var] holds no time step is not
    read: there is no first time step to take, and [read] raises
    instead of returning a mesh without point data. *)
Theorem read_needs_a_first_time_step
    (nc : exodus_io.container F) (dims : list string) (et : option string)
    (d : dtype) :
  In ("vals_nod_var", exodus_io.Var dims et (exodus_io.Num3 d []))
     (exodus_io.c_vars nc) ->
  exists e, read nc = Raise e.
Proof.
  intros I. apply (read_raises_on_variable nc _ I).
  intros st. exists StorageError. reflexivity.
Qed.

(** *** Points *)

Lemma column_repeat (j n : nat) :
  (j < 3)%nat -> column j (repeat [fzero; fzero; fzero] n) = repeat fzero n.
Proof.
  intros L. unfold exodus_io.column.
  induction n as [|n IH]; simpl; [reflexivity|]. rewrite IH. f_equal.
  destruct j as [|[|[|j]]]; try reflexivity. lia.
Qed.

(** A variable under another name than the four of the coordinates
    leaves the points as they are. *)
Lemma read_step_points_frame (st st' : exodus_io.locals F) key value :
  exodus_io.is_coordinate key = false ->
  read_step st (key, value) = Ok st' ->
  exodus_io.l_points_dtype st' = exodus_io.l_points_dtype st
  /\ exodus_io.l_points_ncols st' = exodus_io.l_points_ncols st
  /\ exodus_io.l_points st' = exodus_io.l_points st.
Proof.
  unfold exodus_io.is_coordinate. cbn [existsb]. intros N H.
  repeat (apply orb_false_iff in N; destruct N as [? N]).
  unfold exodus_io.read_step in H.
  repeat match goal with
         | E : (key =? _) = false |- _ => rewrite E in H; clear E
         end.
  invert_ok H; subst st'; auto.
Qed.

(** [points[:, j] = xs] on rows of three values. *)
Lemma set_column_rows (j : nat) (g : F -> F) (rows : list (list F)) :
  (j < 3)%nat -> wf_rows 3 rows ->
  forall xs, length xs = length rows ->
    let rows' := map (fun ry => set_nth j (g (snd ry)) (fst ry))
                     (combine rows xs) in
    length rows' = length rows /\ wf_rows 3 rows'
    /\ column j rows' = map g xs
    /\ forall i, i <> j -> column i rows' = column i rows.
Proof.
  intros J W. induction W as [|r rows R _ IH]; intros [|x xs] L;
    try discriminate L.
  - repeat split; try constructor; auto.
  - injection L as L. destruct (IH xs L) as (L' & W' & C & O).
    cbn zeta in *. cbn [combine map fst snd length].
    unfold exodus_io.column in *. cbn [map].
    split; [rewrite L'; reflexivity|].
    split; [constructor; [rewrite length_set_nth; exact R | exact W']|].
    split.
    + rewrite C, nth_set_nth_same; [reflexivity | lia].
    + intros i N. rewrite (O i N), (nth_set_nth_other i j); auto.
Qed.

Lemma set_column_spec (n j : nat) (d : dtype) (xs : list F)
    (st st' : exodus_io.locals F) :
  (j < 3)%nat -> exodus_io.points_shape n st -> length xs = n ->
  exodus_io.set_column cast j d xs st = Ok st' ->
  exodus_io.points_shape n st'
  /\ column j (exodus_io.l_points st')
     = map (exodus_io.convert_f cast d float64) xs
  /\ forall i, i <> j ->
       column i (exodus_io.l_points st') = column i (exodus_io.l_points st).
Proof.
  intros J (D & C & L & W) Lx. unfold exodus_io.set_column.
  rewrite C. replace (j <? 3)%nat with true by (symmetry; apply Nat.ltb_lt, J).
  rewrite broadcast_to_same by congruence. cbn [bind].
  intros [= <-]. unfold exodus_io.points_shape.
  cbn [exodus_io.l_points_dtype exodus_io.l_points_ncols exodus_io.l_points].
  rewrite D.
  destruct (set_column_rows j (exodus_io.convert_f cast d float64)
              (exodus_io.l_points st) J W xs ltac:(congruence))
    as (L' & W' & Cj & O).
  cbn zeta in *. repeat split; auto. congruence.
Qed.

(** One turn of the loop on points of the initial shape. *)
Lemma read_step_columns (n : nat) (st st' : exodus_io.locals F) key value :
  exodus_io.points_shape n st ->
  key <> "coord" ->
  (forall d xs, In key ["coordx"; "coordy"; "coordz"] ->
                exodus_io.v_data value = exodus_io.Num1 d xs -> length xs = n) ->
  read_step st (key, value) = Ok st' ->
  exodus_io.points_shape n st'
  /\ forall j name, In (j, name) exodus_io.axes ->
       column j (exodus_io.l_points st')
       = if key =? name
         then match exodus_io.v_data value with
              | exodus_io.Num1 d xs => map (exodus_io.convert_f cast d float64) xs
              | _ => column j (exodus_io.l_points st)
              end
         else column j (exodus_io.l_points st).
Proof.
  intros S NC Lx H.
  assert (Ax : forall k, In k ["coordx"; "coordy"; "coordz"] -> key = k ->
               forall j0, In (j0, k) exodus_io.axes ->
               exodus_io.points_shape n st'
               /\ forall j name, In (j, name) exodus_io.axes ->
                    column j (exodus_io.l_points st')
                    = if key =? name
                      then match exodus_io.v_data value with
                           | exodus_io.Num1 d xs =>
                               map (exodus_io.convert_f cast d float64) xs
                           | _ => column j (exodus_io.l_points st)
                           end
                      else column j (exodus_io.l_points st)).
  { intros k Ik -> j0 Ij0.
    assert (J0 : (j0 < 3)%nat)
      by (unfold exodus_io.axes in Ij0; simpl in Ij0;
          repeat (destruct Ij0 as [[= <- _]|Ij0]; [lia|]); contradiction).
    assert (H' : exists d xs,
               exodus_io.v_data value = exodus_io.Num1 d xs
               /\ exodus_io.set_column cast j0 d xs st = Ok st').
    { unfold exodus_io.read_step in H. unfold exodus_io.axes in Ij0.
      simpl in Ik, Ij0.
      repeat (destruct Ik as [<-|Ik];
              [repeat (destruct Ij0 as [[= <-]|Ij0]; try discriminate);
               try contradiction;
               cbn [substring String.eqb Ascii.eqb Bool.eqb] in H;
               destruct (exodus_io.v_data value); try discriminate H;
               eauto|]).
      contradiction. }
    destruct H' as (d & xs & Dv & Hs).
    destruct (set_column_spec n j0 d xs st st' J0 S (Lx d xs Ik Dv) Hs)
      as (S' & Cj & O).
    split; [exact S'|]. intros j name Ij.
    destruct (String.eqb_spec k name) as [<-|Nk].
    - assert (j = j0).
      { unfold exodus_io.axes in Ij, Ij0. simpl in Ij, Ij0.
        repeat (destruct Ij as [[= <- <-]|Ij];
                [repeat (destruct Ij0 as [[= <-]|Ij0]; try discriminate;
                         try reflexivity); contradiction|]).
        contradiction. }
      subst j. rewrite Dv. exact Cj.
    - apply O. intros ->. apply Nk.
      unfold exodus_io.axes in Ij, Ij0. simpl in Ij, Ij0.
      repeat (destruct Ij as [[= <- <-]|Ij];
              [repeat (destruct Ij0 as [[= <-]|Ij0]; try discriminate;
                       try reflexivity); contradiction|]).
      contradiction. }
  destruct (String.eqb_spec key "coordx") as [Ex|Nx];
    [apply (Ax "coordx" ltac:(simpl; auto) Ex 0%nat); simpl; auto|].
  destruct (String.eqb_spec key "coordy") as [Ey|Ny];
    [apply (Ax "coordy" ltac:(simpl; auto) Ey 1%nat); simpl; auto|].
  destruct (String.eqb_spec key "coordz") as [Ez|Nz];
    [apply (Ax "coordz" ltac:(simpl; auto) Ez 2%nat); simpl; auto|].
  assert (N : exodus_io.is_coordinate key = false).
  { unfold exodus_io.is_coordinate. cbn [existsb].
    repeat (apply orb_false_iff; split); try reflexivity;
      apply String.eqb_neq; assumption. }
  destruct (read_step_points_frame st st' key value N H) as (D' & C' & P').
  destruct S as (D & C & L & W).
  split; [unfold exodus_io.points_shape; rewrite D', C', P'; auto|].
  intros j name Ij. rewrite P'.
  destruct (String.eqb_spec key name) as [->|]; [|reflexivity].
  exfalso. unfold exodus_io.axes in Ij. simpl in Ij.
  repeat (destruct Ij as [[= _ <-]|Ij]; [congruence|]). contradiction.
Qed.

Lemma scan_columns (n : nat) (vars : dict string (exodus_io.variable F)) :
  forall st st' : exodus_io.locals F,
    NoDup (keys vars) ->
    dict_get "coord" vars = None ->
    Forall (fun kv => forall d xs,
              In (fst kv) ["coordx"; "coordy"; "coordz"] ->
              exodus_io.v_data (snd kv) = exodus_io.Num1 d xs -> length xs = n)
           vars ->
    exodus_io.points_shape n st ->
    foldM read_step vars st = Ok st' ->
    exodus_io.points_shape n st'
    /\ forall j name, In (j, name) exodus_io.axes ->
         column j (exodus_io.l_points st')
         = exodus_io.coordinate cast name (column j (exodus_io.l_points st))
             (exodus_io.Container [] [] vars).
Proof.
  induction vars as [|[key value] vars IH]; intros st st' ND NC Lx S H.
  - simpl in H. injection H as <-. split; [exact S | reflexivity].
  - rewrite foldM_cons in H.
    destruct (read_step st (key, value)) as [st1|] eqn:E; cbn [bind] in H;
      [|discriminate H].
    inversion ND as [|? ? NI ND']; subst.
    inversion Lx as [|? ? Lx1 Lx2]; subst. cbn [fst snd] in Lx1.
    rewrite dict_get_cons_string in NC.
    destruct (String.eqb_spec key "coord") as [|Nk]; [discriminate NC|].
    destruct (read_step_columns n st st1 key value S Nk Lx1 E) as [S1 C1].
    destruct (IH st1 st' ND' NC Lx2 S1 H) as [S' C'].
    split; [exact S'|]. intros j name Ij.
    rewrite (C' j name Ij), (C1 j name Ij).
    unfold exodus_io.coordinate. cbn [exodus_io.c_vars].
    rewrite dict_get_cons_string.
    destruct (String.eqb_spec key name) as [<-|]; [|reflexivity].
    rewrite (dict_get_not_key _ _ NI).
    destruct (exodus_io.v_data value); reflexivity.
Qed.

(** X14. Coordinates stored by component.  In a container without
    [coord], the points that [read] returns are [num_nodes] rows of
    three values of [float64] whose columns 0, 1 and 2 hold the values
    of [coordx], [coordy] and [coordz], each of them of length
    [num_nodes], converted to [float64]; a column whose variable is
    absent stays at the zeros of [numpy.zeros]. *)
Theorem read_takes_coordinates_by_component
    (nc : exodus_io.container F) (r : exodus_io.mesh_tuple F) (n : nat) :
  NoDup (keys (exodus_io.c_vars nc)) ->
  dict_get "num_nodes" (exodus_io.c_dims nc) = Some n ->
  dict_get "coord" (exodus_io.c_vars nc) = None ->
  (forall name value d xs,
     In name ["coordx"; "coordy"; "coordz"] ->
     dict_get name (exodus_io.c_vars nc) = Some value ->
     exodus_io.v_data value = exodus_io.Num1 d xs -> length xs = n) ->
  read nc = Ok r ->
  exodus_io.f2_dtype (exodus_io.points_of r) = "float64"
  /\ exodus_io.f2_ncols (exodus_io.points_of r) = 3%nat
  /\ length (exodus_io.f2_rows (exodus_io.points_of r)) = n
  /\ wf_rows 3 (exodus_io.f2_rows (exodus_io.points_of r))
  /\ forall j name, In (j, name) exodus_io.axes ->
       column j (exodus_io.f2_rows (exodus_io.points_of r))
       = exodus_io.coordinate cast name (repeat fzero n) nc.
Proof.
  intros ND N NC Lx H. unfold exodus_io.read in H. rewrite N in H.
  cbn [bind] in H.
  destruct (scan nc n) as [st|] eqn:E; cbn [bind] in H; [|discriminate H].
  injection H as <-. unfold exodus_io.scan in E.
  assert (S0 : exodus_io.points_shape n (exodus_io.initial_locals fzero n)).
  { unfold exodus_io.points_shape, exodus_io.initial_locals.
    cbn [exodus_io.l_points_dtype exodus_io.l_points_ncols exodus_io.l_points].
    repeat split; [apply repeat_length|].
    apply Forall_forall. intros row I. apply repeat_spec in I. subst row.
    reflexivity. }
  assert (Lx' : Forall (fun kv => forall d xs,
                          In (fst kv) ["coordx"; "coordy"; "coordz"] ->
                          exodus_io.v_data (snd kv) = exodus_io.Num1 d xs ->
                          length xs = n) (exodus_io.c_vars nc)).
  { apply Forall_forall. intros [name value] I d xs In' Dv.
    exact (Lx name value d xs In' (dict_get_NoDup _ _ _ ND I) Dv). }
  destruct (scan_columns n _ _ _ ND NC Lx' S0 E) as [(D & C & L & W) Cs].
  unfold exodus_io.points_of, exodus_io.assemble.
  cbn [fst exodus_io.f2_dtype exodus_io.f2_ncols exodus_io.f2_rows].
  rewrite D, C. repeat split; auto.
  intros j name Ij. rewrite (Cs j name Ij).
  assert (J : (j < 3)%nat)
    by (unfold exodus_io.axes in Ij; simpl in Ij;
        repeat (destruct Ij as [[= <- _]|Ij]; [lia|]); contradiction).
  cbn [exodus_io.initial_locals exodus_io.l_points].
  rewrite (column_repeat j n J).
  unfold exodus_io.coordinate. destruct nc; reflexivity.
Qed.

(** X15. A container without any of the four coordinate variables
    reads as [num_nodes] points at the origin: [read] returns the
    array of [numpy.zeros] and does not fail on that account. *)
Theorem read_without_coordinates_gives_zeros
    (nc : exodus_io.container F) (r : exodus_io.mesh_tuple F) (n : nat) :
  dict_get "num_nodes" (exodus_io.c_dims nc) = Some n ->
  forallb (fun kv => negb (exodus_io.is_coordinate (fst kv)))
          (exodus_io.c_vars nc) = true ->
  read nc = Ok r ->
  exodus_io.points_of r
  = exodus_io.FArray2 "float64" 3 (repeat [fzero; fzero; fzero] n).
Proof.
  intros N NC H. unfold exodus_io.read in H. rewrite N in H. cbn [bind] in H.
  destruct (scan nc n) as [st|] eqn:E; cbn [bind] in H; [|discriminate H].
  injection H as <-. unfold exodus_io.scan in E.
  assert (G : forall vars s s',
             forallb (fun kv => negb (exodus_io.is_coordinate (fst kv))) vars
             = true ->
             foldM read_step vars s = Ok s' ->
             exodus_io.l_points_dtype s' = exodus_io.l_points_dtype s
             /\ exodus_io.l_points_ncols s' = exodus_io.l_points_ncols s
             /\ exodus_io.l_points s' = exodus_io.l_points s).
  { induction vars as [|[key value] vars IH]; intros s s' B S.
    - simpl in S. injection S as <-. auto.
    - rewrite foldM_cons in S. cbn [forallb fst] in B.
      apply andb_true_iff in B. destruct B as [B1 B2].
      destruct (read_step s (key, value)) as [s1|] eqn:E1; cbn [bind] in S;
        [|discriminate S].
      destruct (IH _ _ B2 S) as (D & C & P).
      destruct (read_step_points_frame s s1 key value) as (D1 & C1 & P1);
        [destruct (exodus_io.is_coordinate key); [discriminate B1 | reflexivity]
        | exact E1 |].
      rewrite D, C, P. auto. }
  destruct (G _ _ _ NC E) as (D & C & P).
  unfold exodus_io.points_of, exodus_io.assemble. cbn [fst].
  rewrite D, C, P. reflexivity.
Qed.
End ReadingFurther.

(** ** What [write] creates *)

Ltac bind_ok H :=
  match type of H with
  | bind ?r _ = Ok _ =>
      let E := fresh "E" in
      destruct r eqn:E; cbn [bind] in H; [|discriminate H]
  end.

Section WritingFurther.
Variable F : Type.
Variable fzero : F.
Variable cast : dtype -> F -> F.
Variable strict_bounds : bool.

Local Abbreviation container := (exodus_io.container F).
Local Abbreviation grows := (@exodus_io.grows F).
Local Abbreviation write := (exodus_io.write fzero cast strict_bounds).

Section Growth.
Variables p q : string -> bool.

Lemma grows_refl (c : container) : grows p q c c.
Proof.
  split; [reflexivity|].
  split; exists []; rewrite app_nil_r; split; reflexivity.
Qed.

Lemma grows_trans (c1 c2 c3 : container) :
  grows p q c1 c2 -> grows p q c2 c3 -> grows p q c1 c3.
Proof.
  intros (A1 & (d1 & D1 & Q1) & (v1 & V1 & P1))
         (A2 & (d2 & D2 & Q2) & (v2 & V2 & P2)).
  split; [congruence|].
  split; [exists (d1 ++ d2) | exists (v1 ++ v2)].
  - rewrite D2, D1, <- app_assoc, forallb_app, Q1, Q2. auto.
  - rewrite V2, V1, <- app_assoc, forallb_app, P1, P2. auto.
Qed.

Lemma createDimension_grows name size (c c' : container) :
  q name = true ->
  exodus_io.createDimension name size c = Ok c' -> grows p q c c'.
Proof.
  intros Q H.
  destruct (createDimension_dims F _ _ _ _ H) as (_ & D & V & A).
  split; [exact A|].
  split; [exists [(name, size)] | exists []].
  - split; [exact D | simpl; rewrite Q; reflexivity].
  - rewrite app_nil_r. auto.
Qed.

Lemma createVariable_grows name dims et data (c c' : container) :
  p name = true ->
  exodus_io.createVariable name dims et data c = Ok c' -> grows p q c c'.
Proof.
  intros P H.
  destruct (createVariable_vars F _ _ _ _ _ _ H) as (_ & V & D & A).
  split; [exact A|].
  split; [exists [] | exists [(name, exodus_io.Var dims et data)]].
  - rewrite app_nil_r. auto.
  - split; [exact V | simpl; rewrite P; reflexivity].
Qed.

Lemma loop_grows {X : Type} (step : container -> X -> result container) :
  (forall c x c', step c x = Ok c' -> grows p q c c') ->
  forall xs c c', foldM step xs c = Ok c' -> grows p q c c'.
Proof.
  intros Step. induction xs as [|x xs IH]; intros c c' H.
  - simpl in H. injection H as <-. apply grows_refl.
  - rewrite foldM_cons in H. bind_ok H.
    exact (grows_trans _ _ _ (Step _ _ _ E) (IH _ _ H)).
Qed.

Ltac grows_chain :=
  repeat match goal with
         | E : exodus_io.createDimension _ _ _ = Ok _ |- _ =>
             apply createDimension_grows in E; [|solve [auto]]
         | E : exodus_io.createVariable _ _ _ _ _ = Ok _ |- _ =>
             apply createVariable_grows in E; [|solve [auto]]
         end;
  repeat match goal with
         | |- exodus_io.grows _ _ ?a ?a => apply grows_refl
         | X : exodus_io.grows _ _ ?a ?b |- exodus_io.grows _ _ ?a ?c =>
             apply (grows_trans a b c X); clear X
         end.

Lemma write_time_grows (c c' : container) :
  p "time_whole" = true ->
  exodus_io.write_time fzero cast c = Ok c' -> grows p q c c'.
Proof.
  intros P H. unfold exodus_io.write_time in H. repeat bind_ok H. grows_chain.
Qed.

Lemma write_points_grows points (c c' : container) :
  p "coor_names" = true -> p "coord" = true ->
  exodus_io.write_points cast strict_bounds points c = Ok c' -> grows p q c c'.
Proof.
  intros P1 P2 H. unfold exodus_io.write_points in H. repeat bind_ok H.
  grows_chain.
Qed.

Lemma write_cells_grows cells (c c' : container) :
  p "eb_prop1" = true ->
  (forall k, p (exodus_io.suffixed "connect" k) = true) ->
  (forall k, q (exodus_io.suffixed "num_el_in_blk" k) = true) ->
  (forall k, q (exodus_io.suffixed "num_nod_per_el" k) = true) ->
  exodus_io.write_cells cells c = Ok c' -> grows p q c c'.
Proof.
  intros P1 P2 Q1 Q2 H. unfold exodus_io.write_cells in H. repeat bind_ok H.
  apply (loop_grows (@exodus_io.write_block F)) in H.
  - grows_chain.
  - clear - P2 Q1 Q2. intros c [k [key values]] c' H.
    unfold exodus_io.write_block in H. repeat bind_ok H. grows_chain.
Qed.

Lemma write_point_data_grows pd (c c' : container) :
  p "name_nod_var" = true -> p "vals_nod_var" = true ->
  q "num_nod_var" = true ->
  exodus_io.write_point_data cast strict_bounds pd c = Ok c' -> grows p q c c'.
Proof.
  intros P1 P2 Q1 H. unfold exodus_io.write_point_data in H.
  destruct (0 <? length pd)%nat.
  - repeat bind_ok H. grows_chain.
  - injection H as <-. apply grows_refl.
Qed.

Lemma write_nsets_grows nsets (c c' : container) :
  p "ns_prop1" = true -> p "ns_names" = true ->
  (forall k, p (exodus_io.suffixed "node_ns" k) = true) ->
  (forall k, q (exodus_io.suffixed "num_nod_ns" k) = true) ->
  exodus_io.write_nsets strict_bounds nsets c = Ok c' -> grows p q c c'.
Proof.
  intros P1 P2 P3 Q1 H. unfold exodus_io.write_nsets in H.
  destruct (0 <? length nsets)%nat.
  - repeat bind_ok H.
    apply (loop_grows (@exodus_io.write_nset F)) in H.
    + grows_chain.
    + clear - P3 Q1. intros c [k [key values]] c' H.
      unfold exodus_io.write_nset in H. repeat bind_ok H. grows_chain.
  - injection H as <-. apply grows_refl.
Qed.

Lemma write_ssets_grows ssets (c c' : container) :
  p "ss_prop1" = true -> p "ss_names" = true ->
  (forall k, p (exodus_io.suffixed "elem_ss" k) = true) ->
  (forall k, p (exodus_io.suffixed "side_ss" k) = true) ->
  (forall k, q (exodus_io.suffixed "num_side_ss" k) = true) ->
  exodus_io.write_ssets strict_bounds ssets c = Ok c' -> grows p q c c'.
Proof.
  intros P1 P2 P3 P4 Q1 H. unfold exodus_io.write_ssets in H.
  destruct (0 <? length ssets)%nat.
  - repeat bind_ok H.
    apply (loop_grows (@exodus_io.write_sset F)) in H.
    + grows_chain.
    + clear - P3 P4 Q1. intros c [k [key values]] c' H.
      unfold exodus_io.write_sset in H. repeat bind_ok H. grows_chain.
  - injection H as <-. apply grows_refl.
Qed.
End Growth.


Lemma dict_get_forallb {V} (p : string -> bool) (k : string)
    (d : dict string V) :
  forallb (fun kv => p (fst kv)) d = true -> p k = false -> dict_get k d = None.
Proof.
  intros A N. induction d as [|[k' v] d IH]; [reflexivity|].
  cbn [forallb fst] in A. apply andb_true_iff in A. destruct A as [A1 A2].
  rewrite dict_get_cons_string.
  destruct (String.eqb_spec k' k) as [->|]; [congruence | exact (IH A2)].
Qed.

(** The stages of [write] after the header, for names of any kind. *)
Lemma write_grows (p q : string -> bool) title points cells point_data
    cell_data field_data nsets ssets (c : container) :
  p "time_whole" = true -> p "coor_names" = true -> p "coord" = true ->
  p "eb_prop1" = true ->
  (forall k, p (exodus_io.suffixed "connect" k) = true) ->
  (forall k, q (exodus_io.suffixed "num_el_in_blk" k) = true) ->
  (forall k, q (exodus_io.suffixed "num_nod_per_el" k) = true) ->
  (exodus_io.or_empty point_data <> [] ->
   p "name_nod_var" = true /\ p "vals_nod_var" = true
   /\ q "num_nod_var" = true) ->
  p "ns_prop1" = true -> p "ns_names" = true ->
  (forall k, p (exodus_io.suffixed "node_ns" k) = true) ->
  (forall k, q (exodus_io.suffixed "num_nod_ns" k) = true) ->
  p "ss_prop1" = true -> p "ss_names" = true ->
  (forall k, p (exodus_io.suffixed "elem_ss" k) = true) ->
  (forall k, p (exodus_io.suffixed "side_ss" k) = true) ->
  (forall k, q (exodus_io.suffixed "num_side_ss" k) = true) ->
  write title points cells point_data cell_data field_data nsets ssets = Ok c ->
  grows p q
    (exodus_io.Container (exodus_io.global_attrs title)
       (exodus_io.fixed_dims (length (exodus_io.f2_rows points))
          (exodus_io.total_num_elems cells) (length cells)
          (length (exodus_io.or_empty nsets)) (length (exodus_io.or_empty ssets)))
       [])
    c.
Proof.
  intros P1 P2 P3 P4 P5 Q1 Q2 PD P6 P7 P8 Q3 P9 P10 P11 P12 Q4 H.
  unfold exodus_io.write in H. cbv zeta in H.
  rewrite set_dimensions_fixed in H. cbn [bind] in H.
  repeat bind_ok H. injection H as <-.
  repeat match goal with
         | E : exodus_io.write_time _ _ _ = Ok _ |- _ =>
             apply (write_time_grows p q) in E; [|assumption]
         | E : exodus_io.write_points _ _ _ _ = Ok _ |- _ =>
             apply (write_points_grows p q) in E; [|assumption..]
         | E : exodus_io.write_cells _ _ = Ok _ |- _ =>
             apply (write_cells_grows p q) in E; [|assumption..]
         | E : exodus_io.write_nsets _ _ _ = Ok _ |- _ =>
             apply (write_nsets_grows p q) in E; [|assumption..]
         | E : exodus_io.write_ssets _ _ _ = Ok _ |- _ =>
             apply (write_ssets_grows p q) in E; [|assumption..]
         end.
  match goal with
  | E : exodus_io.write_point_data _ _ ?pd ?a = Ok ?b |- _ =>
      assert (G : grows p q a b);
      [destruct pd as [|kv pd'] eqn:Epd;
       [unfold exodus_io.write_point_data in E; simpl in E;
        injection E as <-; apply grows_refl
       |destruct PD as (X1 & X2 & X3); [discriminate|];
        exact (write_point_data_grows p q _ _ _ X1 X2 X3 E)]
      |clear E]
  end.
  repeat match goal with
         | X : exodus_io.grows _ _ ?a ?b |- exodus_io.grows _ _ ?a ?c =>
             first [exact X | apply (grows_trans p q a b c X); clear X]
         end.
Qed.

(** X16. Every file that [write] makes starts with the same header:
    its global attributes are the title, [version] and [api_version]
    5.1 and a word size of 8, and its first ten dimensions are the
    fixed ones, with the numbers of points, of rows of all blocks, of
    blocks, of node sets and of side sets of the mesh; whatever else
    is written comes after them. *)
Theorem write_starts_with_the_header title points cells point_data
    cell_data field_data nsets ssets (c : container) :
  write title points cells point_data cell_data field_data nsets ssets = Ok c ->
  exodus_io.c_attrs c = exodus_io.global_attrs title
  /\ exists more,
       exodus_io.c_dims c
       = exodus_io.fixed_dims (length (exodus_io.f2_rows points))
           (exodus_io.total_num_elems cells) (length cells)
           (length (exodus_io.or_empty nsets))
           (length (exodus_io.or_empty ssets))
         ++ more.
Proof.
  intros H.
  apply (write_grows exodus_io.any_name exodus_io.any_name) in H;
    try reflexivity; try (intros; repeat split; reflexivity).
  destruct H as (A & (d & D & _) & _). split; [exact A|].
  exists d. exact D.
Qed.

Lemma scan_no_field_variable (vars : dict string (exodus_io.variable F))
    (st st' : exodus_io.locals F) :
  forallb (fun kv => exodus_io.not_field_variable (fst kv)) vars = true ->
  foldM (exodus_io.read_step cast) vars st = Ok st' ->
  exodus_io.l_pd st' = exodus_io.l_pd st
  /\ exodus_io.l_point_data_names st' = exodus_io.l_point_data_names st.
Proof.
  revert st. induction vars as [|[key value] vars IH]; intros st A H.
  - simpl in H. injection H as <-. auto.
  - rewrite foldM_cons in H. bind_ok H.
    cbn [forallb fst] in A. apply andb_true_iff in A. destruct A as [A1 A2].
    destruct (IH _ A2 H) as [-> ->].
    destruct (read_step_point_data F cast _ _ _ _ E) as [-> ->].
    unfold exodus_io.not_field_variable in A1.
    apply andb_true_iff in A1. destruct A1 as [N1 N2].
    destruct (key =? "name_nod_var"); [discriminate N1|].
    destruct (key =? "vals_nod_var"); [discriminate N2|]. auto.
Qed.

(** X17. For a mesh without point data, [None] or an empty
    dictionary, [write] creates neither [name_nod_var] nor
    [vals_nod_var] nor the dimension [num_nod_var], and [read] gives
    back no point data from the file. *)
Theorem write_without_point_data_creates_no_field_variable title points
    cells point_data cell_data field_data nsets ssets (c : container) :
  exodus_io.or_empty point_data = [] ->
  write title points cells point_data cell_data field_data nsets ssets = Ok c ->
  dict_get "name_nod_var" (exodus_io.c_vars c) = None
  /\ dict_get "vals_nod_var" (exodus_io.c_vars c) = None
  /\ dict_get "num_nod_var" (exodus_io.c_dims c) = None
  /\ forall r, exodus_io.read fzero cast c = Ok r ->
               exodus_io.point_data_of r = [].
Proof.
  intros PD H.
  apply (write_grows exodus_io.not_field_variable exodus_io.not_field_dimension)
    in H; try reflexivity; try (intros k; reflexivity);
    [|intros N; congruence].
  destruct H as (_ & (d & D & Q) & (v & V & P)).
  cbn [exodus_io.c_vars exodus_io.c_dims app] in D, V. rewrite V, D.
  split; [apply (dict_get_forallb _ _ _ P); reflexivity|].
  split; [apply (dict_get_forallb _ _ _ P); reflexivity|].
  split.
  - rewrite dict_get_app.
    change (dict_get "num_nod_var" (exodus_io.fixed_dims _ _ _ _ _))
      with (@None nat).
    apply (dict_get_forallb _ _ _ Q). reflexivity.
  - intros r R. unfold exodus_io.read in R. repeat bind_ok R.
    injection R as <-. unfold exodus_io.scan in *.
    match goal with
    | E : foldM _ _ _ = Ok _ |- _ =>
        rewrite V in E;
        destruct (scan_no_field_variable _ _ _ P E) as [Epd En]
    end.
    unfold exodus_io.point_data_of, exodus_io.assemble. cbn [fst snd].
    rewrite En. reflexivity.
Qed.

(** *** Node sets and side sets in the round trip *)

(** The stages of [write] before the node sets, on a mesh of the
    round trip. *)
Lemma write_mesh_variables title (points : exodus_io.farray2 F)
    (cells : dict string iarray2) (pd : dict pystr (exodus_io.farray1 F))
    (dp d0 : dtype) (ns ss : nat) (k : container -> result container) :
  exodus_io.f2_ncols points = 3%nat ->
  wf_rows 3 (exodus_io.f2_rows points) ->
  exodus_io.f2_dtype points = dtype_name dp ->
  Forall exodus_io.block_ok cells ->
  Forall exodus_io.name_ok (keys pd) ->
  Forall (exodus_io.field_ok d0 (length (exodus_io.f2_rows points))) (values pd) ->
  (c <- exodus_io.set_dimensions (length (exodus_io.f2_rows points))
          (exodus_io.total_num_elems cells) (length cells) ns ss
          (exodus_io.set_global_data title (exodus_io.new_dataset F)) ;;
   c <- exodus_io.write_time fzero cast c ;;
   c <- exodus_io.write_points cast strict_bounds points c ;;
   c <- exodus_io.write_cells cells c ;;
   c <- exodus_io.write_point_data cast strict_bounds pd c ;; k c)
  = k (exodus_io.Container (exodus_io.global_attrs title)
         (exodus_io.mesh_dims (length (exodus_io.f2_rows points)) ns ss cells pd)
         (exodus_io.mesh_variables fzero cast dp d0 points cells pd)).
Proof.
  intros C W D B A Fd.
  assert (R : Forall (fun kv => dict_mem (fst kv) exodus_io.meshio_to_exodus_type
                                = true) cells)
    by (apply Forall_impl with (2 := B); intros kv [? _]; auto).
  rewrite set_dimensions_fixed. cbn [bind].
  rewrite write_time_new. cbn [bind].
  rewrite (write_points_new F fzero cast strict_bounds _ _ _ _ _ _ points dp
             eq_refl C W D).
  cbn [bind]. run_by write_cells_new.
  unfold exodus_io.mesh_dims, exodus_io.mesh_variables.
  destruct pd as [|[name0 field0] pd'] eqn:P.
  - cbn [exodus_io.write_point_data length Nat.ltb Nat.leb bind].
    rewrite !app_nil_r. reflexivity.
  - rewrite <- P in *.
    assert (NE : pd <> []) by (rewrite P; discriminate).
    rewrite (write_point_data_new F cast strict_bounds pd d0
               (length (exodus_io.f2_rows points)) 0 _ NE A Fd).
    + cbn [bind exodus_io.c_attrs exodus_io.c_dims exodus_io.c_vars].
      rewrite <- !app_assoc. rewrite P at 2 4. rewrite <- P. reflexivity.
    + cbn [exodus_io.c_dims]. rewrite dict_get_app.
      apply not_in_block_dims; intros j; reflexivity.
    + cbn [exodus_io.c_dims]. rewrite dict_get_app. reflexivity.
    + cbn [exodus_io.c_dims]. rewrite dict_get_app. reflexivity.
    + cbn [exodus_io.c_dims]. rewrite dict_get_app. reflexivity.
    + cbn [exodus_io.c_vars]. rewrite dict_get_app.
      apply not_in_block_variables; intros j; reflexivity.
    + cbn [exodus_io.c_vars]. rewrite dict_get_app.
      apply not_in_block_variables; intros j; reflexivity.
Qed.

(** The loop of [read] over these variables. *)
Lemma scan_mesh_variables (points : exodus_io.farray2 F)
    (cells : dict string iarray2) (pd : dict pystr (exodus_io.farray1 F))
    (dp d0 : dtype) (n : nat) :
  exodus_io.f2_ncols points = 3%nat ->
  wf_rows 3 (exodus_io.f2_rows points) ->
  NoDup (keys cells) ->
  Forall exodus_io.block_ok cells ->
  Forall exodus_io.name_ok (keys pd) ->
  Forall (exodus_io.field_ok d0 n) (values pd) ->
  foldM (exodus_io.read_step cast)
        (exodus_io.mesh_variables fzero cast dp d0 points cells pd)
        (exodus_io.initial_locals fzero n)
  = Ok (exodus_io.Locals dp 3 (exodus_io.f2_rows points) (keys pd) (values pd)
          cells).
Proof.
  intros C W NDc B A Fd. unfold exodus_io.mesh_variables.
  rewrite foldM_app, (scan_header F fzero cast points dp n _ C W).
  cbn [bind]. rewrite foldM_app. unfold enumerate.
  rewrite (read_blocks F cast); [|exact NDc | exact B].
  cbn [bind exodus_io.l_points_dtype exodus_io.l_points_ncols exodus_io.l_points
       exodus_io.l_point_data_names exodus_io.l_pd exodus_io.l_cells app].
  destruct pd as [|kv pd'] eqn:P; [reflexivity|].
  rewrite <- P in *.
  rewrite (scan_point_data_variables F cast _ pd d0 n A Fd). reflexivity.
Qed.

Lemma scan_set_variables (vars : dict string (exodus_io.variable F))
    (st : exodus_io.locals F) :
  forallb (fun kv => exodus_io.is_set_variable (fst kv)) vars = true ->
  foldM (exodus_io.read_step cast) vars st = Ok st.
Proof.
  induction vars as [|[key value] vars IH]; intros A; [reflexivity|].
  cbn [forallb fst] in A. apply andb_true_iff in A. destruct A as [A1 A2].
  rewrite foldM_cons, (read_step_ignored F cast st key value).
  - cbn [bind]. exact (IH A2).
  - apply set_variable_ignored, A1.
Qed.

Lemma set_variable_names (k : nat) :
  exodus_io.is_set_variable (exodus_io.suffixed "node_ns" k) = true
  /\ exodus_io.is_set_variable (exodus_io.suffixed "elem_ss" k) = true
  /\ exodus_io.is_set_variable (exodus_io.suffixed "side_ss" k) = true.
Proof.
  unfold exodus_io.is_set_variable, exodus_io.suffixed.
  cbn [existsb String.eqb Ascii.eqb Bool.eqb String.append substring orb andb].
  rewrite substring_0_0. repeat split; reflexivity.
Qed.

(** X18. Node sets and side sets do not disturb the round trip: for
    a mesh as in the round trip without sets (with cell blocks of
    dtype [int64] or [float64], of a row and a column at least, with
    a point at least, and with nothing that the store masks on
    reading among its indices plus one, its coordinates and its
    point data), but with any node sets and side sets that [write]
    accepts, the written file is one that [read] gets as the store
    holds it, and [read] returns from it the points, the cells and
    the point data of the mesh, and nothing of the sets. *)
Theorem write_read_round_trip_with_sets title
    (points : exodus_io.farray2 F) (cells : dict string iarray2)
    (pd : dict pystr (exodus_io.farray1 F))
    (cell_data : option (exodus_io.cell_data_t F))
    (field_data : option (exodus_io.field_data_t F))
    (nsets : option (dict pystr iarray1)) (ssets : option (dict pystr iarray2))
    (dp d0 : dtype) (masked : dtype -> F -> bool) (c : container) :
  exodus_io.f2_ncols points = 3%nat ->
  wf_rows 3 (exodus_io.f2_rows points) ->
  exodus_io.f2_dtype points = dtype_name dp ->
  NoDup (keys cells) ->
  Forall exodus_io.block_ok cells ->
  NoDup (keys pd) ->
  Forall exodus_io.name_ok (keys pd) ->
  Forall (exodus_io.field_ok d0 (length (exodus_io.f2_rows points))) (values pd) ->
  Forall exodus_io.block_plain cells ->
  exodus_io.points_plain masked dp points ->
  Forall (exodus_io.field_plain masked d0) (values pd) ->
  write title points cells (Some pd) cell_data field_data nsets ssets = Ok c ->
  exodus_io.plain masked c
  /\ exodus_io.read fzero cast c = Ok (points, cells, pd, [], []).
Proof.
  intros C W D NDc B NDp A Fd Bp Pp Fp H.
  unfold exodus_io.write in H. cbv zeta in H.
  cbn [exodus_io.or_empty] in H.
  rewrite (write_mesh_variables title points cells pd dp d0 _ _ _ C W D B A Fd)
    in H.
  repeat bind_ok H. injection H as <-.
  repeat match goal with
         | E : exodus_io.write_nsets _ _ _ = Ok _ |- _ =>
             apply (write_nsets_grows exodus_io.is_set_variable
                      exodus_io.any_name) in E;
             [|try reflexivity; intros j; apply set_variable_names..]
         | E : exodus_io.write_ssets _ _ _ = Ok _ |- _ =>
             apply (write_ssets_grows exodus_io.is_set_variable
                      exodus_io.any_name) in E;
             [|try reflexivity; intros j; apply set_variable_names..]
         end.
  match goal with
  | X1 : exodus_io.grows _ _ _ ?a, X2 : exodus_io.grows _ _ ?a ?b |- _ =>
      pose proof (grows_trans _ _ _ _ _ X1 X2) as G; clear X1 X2
  end.
  destruct G as (_ & (d & Dc & _) & (v & Vc & Sv)).
  cbn [exodus_io.c_dims exodus_io.c_vars] in Dc, Vc.
  split.
  { unfold exodus_io.plain. rewrite Vc. apply Forall_app. split.
    - apply (plain_mesh_variables F fzero cast masked points cells pd dp d0
               Bp Pp Fp).
    - apply Forall_forall. intros [key value] I.
      apply plain_unrecognised, set_variable_ignored.
      rewrite forallb_forall in Sv. exact (Sv _ I). }
  unfold exodus_io.read, exodus_io.scan. rewrite Dc, Vc.
  unfold exodus_io.mesh_dims at 1. rewrite !dict_get_app.
  change (dict_get "num_nodes" (exodus_io.fixed_dims ?n _ _ _ _)) with (Some n).
  cbn [bind].
  rewrite foldM_app,
    (scan_mesh_variables points cells pd dp d0 _ C W NDc B A Fd).
  cbn [bind]. rewrite (scan_set_variables _ _ Sv). cbn [bind].
  unfold exodus_io.assemble.
  cbn [exodus_io.l_points_dtype exodus_io.l_points_ncols exodus_io.l_points
       exodus_io.l_point_data_names exodus_io.l_pd exodus_io.l_cells].
  rewrite combine_keys_values, (dict_of_pairs_NoDup pd NDp), <- D.
  destruct points as [pdt pnc prows]. cbn in *. subst pnc. reflexivity.
Qed.

(** *** The cell blocks *)

Lemma grows_var p q (c c' : container) name value :
  grows p q c c' ->
  dict_get name (exodus_io.c_vars c) = Some value ->
  dict_get name (exodus_io.c_vars c') = Some value.
Proof.
  intros (_ & _ & (v & V & _)) G. rewrite V, dict_get_app, G. reflexivity.
Qed.

Lemma grows_dim p q (c c' : container) name size :
  grows p q c c' ->
  dict_get name (exodus_io.c_dims c) = Some size ->
  dict_get name (exodus_io.c_dims c') = Some size.
Proof.
  intros (_ & (d & D & _) & _) G. rewrite D, dict_get_app, G. reflexivity.
Qed.

Lemma createDimension_get name size (c c' : container) :
  exodus_io.createDimension name size c = Ok c' ->
  dict_get name (exodus_io.c_dims c') = Some size.
Proof.
  intros H. destruct (createDimension_dims F _ _ _ _ H) as (G & -> & _).
  rewrite dict_get_app, G. simpl. rewrite String.eqb_refl. reflexivity.
Qed.

(** A loop over [enumerate(xs)] whose turns only add to the
    container: what a turn establishes still holds at the end. *)
Lemma loop_declares {X : Type}
    (step : container -> nat * X -> result container)
    (Q : nat -> X -> container -> Prop) :
  (forall c kx c', step c kx = Ok c' ->
     grows exodus_io.any_name exodus_io.any_name c c'
     /\ Q (fst kx) (snd kx) c') ->
  (forall k x c c', Q k x c ->
     grows exodus_io.any_name exodus_io.any_name c c' -> Q k x c') ->
  forall xs k0 c c',
    foldM step (enumerate_from k0 xs) c = Ok c' ->
    grows exodus_io.any_name exodus_io.any_name c c'
    /\ forall j x, nth_error xs j = Some x -> Q (k0 + j)%nat x c'.
Proof.
  intros Step Mono.
  induction xs as [|x xs IH]; intros k0 c c' H.
  - simpl in H. injection H as <-. split; [apply grows_refl|].
    intros [|j] y; discriminate.
  - cbn [enumerate_from] in H. rewrite foldM_cons in H. bind_ok H.
    destruct (Step _ _ _ E) as [X1 Q1].
    destruct (IH _ _ _ H) as [X2 Q2].
    split; [exact (grows_trans _ _ _ _ _ X1 X2)|].
    intros [|j] y G; simpl in G.
    + injection G as <-. rewrite Nat.add_0_r.
      exact (Mono _ _ _ _ Q1 X2).
    + replace (k0 + S j)%nat with (S k0 + j)%nat by lia.
      exact (Q2 _ _ G).
Qed.

(** A loop that returns has accepted each element. *)
Lemma loop_accepts {X : Type}
    (step : container -> nat * X -> result container) (P : X -> Prop) :
  (forall c kx c', step c kx = Ok c' -> P (snd kx)) ->
  forall xs k0 c c',
    foldM step (enumerate_from k0 xs) c = Ok c' -> Forall P xs.
Proof.
  intros Step. induction xs as [|x xs IH]; intros k0 c c' H; [constructor|].
  cbn [enumerate_from] in H. rewrite foldM_cons in H. bind_ok H.
  constructor; [exact (Step _ _ _ E) | exact (IH _ _ _ H)].
Qed.

Lemma block_declared_mono k kv (c c' : container) :
  exodus_io.block_declared k kv c ->
  grows exodus_io.any_name exodus_io.any_name c c' ->
  exodus_io.block_declared k kv c'.
Proof.
  intros (T & D1 & D2 & V) G.
  split; [exact T|].
  split; [exact (grows_dim _ _ _ _ _ _ G D1)|].
  split; [exact (grows_dim _ _ _ _ _ _ G D2) | exact (grows_var _ _ _ _ _ _ G V)].
Qed.

Lemma write_block_declares (c : container) kx (c' : container) :
  exodus_io.write_block c kx = Ok c' ->
  grows exodus_io.any_name exodus_io.any_name c c'
  /\ exodus_io.block_declared (fst kx) (snd kx) c'.
Proof.
  destruct kx as [k [key values]]. unfold exodus_io.write_block. intros H.
  destruct (exodus_io.createDimension _ _ c) as [c1|] eqn:E1;
    cbn [bind] in H; [|discriminate H].
  destruct (exodus_io.createDimension _ _ c1) as [c2|] eqn:E2;
    cbn [bind] in H; [|discriminate H].
  destruct (exodus_dtype _) as [code|] eqn:E3; cbn [bind] in H;
    [|discriminate H].
  destruct (exodus_io.code_dtype code) as [d|] eqn:E4; cbn [bind] in H;
    [|discriminate H].
  destruct (exodus_io.to_disk key) as [elem_type|] eqn:T; cbn [bind] in H;
    [|discriminate H].
  pose proof (code_of_dtype _ _ _ E3 E4) as ->.
  assert (Td : elem_type = exodus_io.disk_tag key).
  { unfold exodus_io.to_disk in T. unfold exodus_io.disk_tag.
    destruct (dict_get key exodus_io.meshio_to_exodus_type);
      [injection T as <-; reflexivity | discriminate T]. }
  subst elem_type.
  pose proof (createDimension_get _ _ _ _ E1) as G1.
  pose proof (createDimension_get _ _ _ _ E2) as G2.
  pose proof (createVariable_get F _ _ _ _ _ _ H) as G3.
  apply (createDimension_grows exodus_io.any_name exodus_io.any_name) in E1;
    [|reflexivity].
  apply (createDimension_grows exodus_io.any_name exodus_io.any_name) in E2;
    [|reflexivity].
  apply (createVariable_grows exodus_io.any_name exodus_io.any_name) in H;
    [|reflexivity].
  split.
  - exact (grows_trans _ _ _ _ _ E1 (grows_trans _ _ _ _ _ E2 H)).
  - unfold exodus_io.block_declared. cbn [fst snd].
    split; [exact T|].
    split; [exact (grows_dim _ _ _ _ _ _ (grows_trans _ _ _ _ _ E2 H) G1)|].
    split; [exact (grows_dim _ _ _ _ _ _ H G2)|].
    rewrite G3. unfold exodus_io.block_variable, exodus_io.put_idx2, iarray2_add.
    cbn [fst snd i2_dtype i2_ncols i2_rows].
    rewrite map_map_convert_same. reflexivity.
Qed.

(** The stages of [write], taken apart. *)
Lemma write_stages title points cells point_data cell_data field_data
    nsets ssets (c : container) :
  write title points cells point_data cell_data field_data nsets ssets = Ok c ->
  exists c1 c2 c3 c4 c5,
    exodus_io.write_time fzero cast
      (exodus_io.Container (exodus_io.global_attrs title)
         (exodus_io.fixed_dims (length (exodus_io.f2_rows points))
            (exodus_io.total_num_elems cells) (length cells)
            (length (exodus_io.or_empty nsets))
            (length (exodus_io.or_empty ssets))) [])
    = Ok c1
    /\ exodus_io.write_points cast strict_bounds points c1 = Ok c2
    /\ exodus_io.write_cells cells c2 = Ok c3
    /\ exodus_io.write_point_data cast strict_bounds
         (exodus_io.or_empty point_data) c3 = Ok c4
    /\ exodus_io.write_nsets strict_bounds (exodus_io.or_empty nsets) c4 = Ok c5
    /\ exodus_io.write_ssets strict_bounds (exodus_io.or_empty ssets) c5 = Ok c.
Proof.
  intros H. unfold exodus_io.write in H. cbv zeta in H.
  rewrite set_dimensions_fixed in H. cbn [bind] in H.
  repeat bind_ok H. injection H as <-.
  eexists _, _, _, _, _. repeat split; eassumption.
Qed.

Ltac any_grows :=
  repeat match goal with
         | E : exodus_io.write_time _ _ _ = Ok _ |- _ =>
             apply (write_time_grows exodus_io.any_name exodus_io.any_name)
               in E; [|reflexivity]
         | E : exodus_io.write_points _ _ _ _ = Ok _ |- _ =>
             apply (write_points_grows exodus_io.any_name exodus_io.any_name)
               in E; [|reflexivity..]
         | E : exodus_io.write_cells _ _ = Ok _ |- _ =>
             apply (write_cells_grows exodus_io.any_name exodus_io.any_name)
               in E; [|reflexivity..]
         | E : exodus_io.write_point_data _ _ _ _ = Ok _ |- _ =>
             apply (write_point_data_grows exodus_io.any_name exodus_io.any_name)
               in E; [|reflexivity..]
         | E : exodus_io.write_nsets _ _ _ = Ok _ |- _ =>
             apply (write_nsets_grows exodus_io.any_name exodus_io.any_name)
               in E; [|reflexivity..]
         | E : exodus_io.write_ssets _ _ _ = Ok _ |- _ =>
             apply (write_ssets_grows exodus_io.any_name exodus_io.any_name)
               in E; [|reflexivity..]
         end;
  repeat match goal with
         | |- exodus_io.grows _ _ ?a ?a => apply grows_refl
         | X : exodus_io.grows _ _ ?a ?b |- exodus_io.grows _ _ ?a ?c =>
             first [exact X | apply (grows_trans _ _ a b c X); clear X]
         end.

(** X19. [write] succeeds only if the type of every block is
    registered, and it declares the [k]-th block of the mesh as
    [connect<k+1>] over the dimensions [num_el_in_blk<k+1>] and
    [num_nod_per_el<k+1>], which have the numbers of rows and of
    columns of the block, with the disk tag that
    [meshio_to_exodus_type] gives to the type as [elem_type]. *)
Theorem write_declares_each_block title points cells point_data cell_data
    field_data nsets ssets (c : container) :
  write title points cells point_data cell_data field_data nsets ssets = Ok c ->
  forall k kv, nth_error cells k = Some kv -> exodus_io.block_declared k kv c.
Proof.
  intros H k kv G.
  destruct (write_stages _ _ _ _ _ _ _ _ _ H)
    as (c1 & c2 & c3 & c4 & c5 & _ & _ & E3 & E4 & E5 & E6).
  unfold exodus_io.write_cells in E3. repeat bind_ok E3.
  destruct (loop_declares (@exodus_io.write_block F)
              (@exodus_io.block_declared F)
              write_block_declares block_declared_mono _ _ _ _ E3) as [_ Q].
  apply (block_declared_mono _ _ _ _ (Q _ _ G)). any_grows.
Qed.

Lemma NoDup_map_of_nat (a n : nat) : NoDup (map Z.of_nat (seq a n)).
Proof.
  revert a. induction n as [|n IH]; intros a; simpl; constructor; [|apply IH].
  intros I. apply in_map_iff in I. destruct I as (x & E & I).
  apply Nat2Z.inj in E. subst x. apply in_seq in I. lia.
Qed.

Lemma put_range_exact (n : nat) :
  (Z.of_nat n <= 2 ^ 31)%Z ->
  map (fun k => astype int32 (Z.of_nat k)) (seq 0 n) = map Z.of_nat (seq 0 n).
Proof.
  intros B. apply map_ext_in. intros k I. apply in_seq in I.
  apply representable_astype. unfold representable. cbn [int_kind].
  change (2 ^ (32 - 1))%Z with (2 ^ 31)%Z.
  apply andb_true_iff. split; [apply Z.leb_le | apply Z.ltb_lt]; lia.
Qed.

(** X20. [write] gives the blocks identifiers that differ: the
    variable [eb_prop1], over the dimension [num_el_blk] whose size is
    the number of blocks, holds the numbers 0, 1, ... of the blocks in
    order, as 32-bit integers (up to 2^31 blocks, beyond which they
    would wrap). *)
Theorem write_numbers_the_blocks title points cells point_data cell_data
    field_data nsets ssets (c : container) :
  write title points cells point_data cell_data field_data nsets ssets = Ok c ->
  exists ids,
    dict_get "eb_prop1" (exodus_io.c_vars c)
    = Some (exodus_io.Var ["num_el_blk"] None (exodus_io.Idx1 int32 ids))
    /\ dict_get "num_el_blk" (exodus_io.c_dims c) = Some (length cells)
    /\ length ids = length cells
    /\ ((Z.of_nat (length cells) <= 2 ^ 31)%Z ->
        ids = map Z.of_nat (seq 0 (length cells)) /\ NoDup ids).
Proof.
  intros H.
  destruct (write_stages _ _ _ _ _ _ _ _ _ H)
    as (c1 & c2 & c3 & c4 & c5 & E1 & E2 & E3 & E4 & E5 & E6).
  unfold exodus_io.write_cells in E3. cbn [exodus_io.code_dtype dtype_of_code
    String.eqb Ascii.eqb Bool.eqb bind] in E3.
  bind_ok E3.
  pose proof (createVariable_get F _ _ _ _ _ _ E) as G.
  apply (loop_grows exodus_io.any_name exodus_io.any_name
           (@exodus_io.write_block F)) in E3;
    [|intros ca kx cb St; exact (proj1 (write_block_declares ca kx cb St))].
  apply (createVariable_grows exodus_io.any_name exodus_io.any_name) in E;
    [|reflexivity].
  eexists. split; [|split; [|split]].
  - match type of E3 with
    | exodus_io.grows _ _ ?m _ =>
        apply (grows_var exodus_io.any_name exodus_io.any_name m c);
          [any_grows | exact G]
    end.
  - apply (grows_dim exodus_io.any_name exodus_io.any_name
             (exodus_io.Container (exodus_io.global_attrs title)
                (exodus_io.fixed_dims (length (exodus_io.f2_rows points))
                   (exodus_io.total_num_elems cells) (length cells)
                   (length (exodus_io.or_empty nsets))
                   (length (exodus_io.or_empty ssets))) []) c);
      [any_grows | reflexivity].
  - rewrite length_map, length_seq. reflexivity.
  - intros B. rewrite (put_range_exact _ B).
    split; [reflexivity | apply NoDup_map_of_nat].
Qed.

(** *** Inputs that [write] does not take *)

(** [write_points] on the header, up to the lookup of the dtype. *)
Lemma write_points_header A n e b ns ss (points : exodus_io.farray2 F) :
  exodus_io.write_points cast strict_bounds points
    (exodus_io.Container A (exodus_io.fixed_dims n e b ns ss)
       [exodus_io.time_whole_variable fzero cast])
  = (code <- exodus_dtype (exodus_io.f2_dtype points) ;;
     d <- exodus_io.code_dtype code ;;
     coord <- exodus_io.broadcast2 3 n (length (exodus_io.f2_rows points))
                (transpose (exodus_io.f2_ncols points)
                           (exodus_io.f2_rows points)) ;;
     exodus_io.createVariable "coord" ["num_dim"; "num_nodes"] None
       (exodus_io.Num2 d n
          (map (map (exodus_io.convert_named cast (exodus_io.f2_dtype points) d))
               coord))
       (exodus_io.Container A (exodus_io.fixed_dims n e b ns ss)
          [exodus_io.time_whole_variable fzero cast;
           exodus_io.coor_names_variable F])).
Proof.
  unfold exodus_io.write_points. do 4 run_head.
  destruct (exodus_dtype _) as [code|]; cbn [bind]; [|reflexivity].
  destruct (exodus_io.code_dtype code) as [d|]; cbn [bind]; [|reflexivity].
  do 2 run_head. reflexivity.
Qed.

(** X21. Points whose dtype is not one of the ten of
    [numpy_to_exodus_dtype] make [write] raise the [KeyError] of that
    dictionary, whatever the rest of the mesh. *)
Theorem write_rejects_points_of_unknown_dtype title points cells point_data
    cell_data field_data nsets ssets :
  dict_get (exodus_io.f2_dtype points) numpy_to_exodus_dtype = None ->
  write title points cells point_data cell_data field_data nsets ssets
  = Raise (UnsupportedDtype (exodus_io.f2_dtype points)).
Proof.
  intros N. unfold exodus_io.write. cbv zeta.
  rewrite set_dimensions_fixed. cbn [bind].
  rewrite write_time_new. cbn [bind].
  rewrite write_points_header. unfold exodus_dtype. rewrite N. reflexivity.
Qed.

Lemma broadcast_to_length {A} (n : nat) (xs ys : list A) :
  broadcast_to n xs = Ok ys -> length xs = n \/ length xs = 1%nat.
Proof.
  unfold broadcast_to. destruct (Nat.eqb_spec (length xs) n); [auto|].
  destruct xs as [|x [|y xs]]; try discriminate. auto.
Qed.

(** X22. Points with a number of columns other than three, those of
    a planar mesh with two columns for one, are not written: the
    assignment of their transpose to the variable [coord], of shape
    (3, number of points), fails.  (A single column is left aside:
    the store may broadcast it.) *)
Theorem write_rejects_points_of_other_width title points cells point_data
    cell_data field_data nsets ssets :
  exodus_io.f2_ncols points <> 3%nat ->
  exodus_io.f2_ncols points <> 1%nat ->
  exists e,
    write title points cells point_data cell_data field_data nsets ssets
    = Raise e.
Proof.
  intros N3 N1.
  destruct (write title points cells point_data cell_data field_data nsets ssets)
    as [c|e] eqn:H; [exfalso | eauto].
  destruct (write_stages _ _ _ _ _ _ _ _ _ H)
    as (c1 & c2 & c3 & c4 & c5 & E1 & E2 & _).
  rewrite write_time_new in E1. injection E1 as <-.
  rewrite write_points_header in E2. repeat bind_ok E2.
  match goal with
  | B : exodus_io.broadcast2 _ _ _ _ = Ok _ |- _ =>
      unfold exodus_io.broadcast2 in B;
      destruct (_ || _); [|discriminate B]; bind_ok B;
      apply broadcast_to_length in B
  end.
  match goal with
  | M : mapM _ _ = Ok _ |- _ =>
      apply mapM_length in M; rewrite length_transpose in M
  end.
  lia.
Qed.

Lemma write_sset_columns (c : container) kx (c' : container) :
  exodus_io.write_sset c kx = Ok c' -> (2 <= i2_ncols (snd (snd kx)))%nat.
Proof.
  destruct kx as [k [key values]]. unfold exodus_io.write_sset. intros H.
  repeat bind_ok H.
  match goal with
  | C : iarray2_column values 1 = Ok _ |- _ =>
      unfold iarray2_column in C;
      destruct (Nat.ltb_spec 1 (i2_ncols values)); [|discriminate C]
  end.
  cbn [snd]. lia.
Qed.

(** X23. [write] takes a side set only as an array of at least two
    columns, elements and side numbers: with a narrower one among the
    side sets it raises. *)
Theorem write_needs_two_columns_per_side_set title points cells point_data
    cell_data field_data nsets ssets (c : container) :
  write title points cells point_data cell_data field_data nsets ssets = Ok c ->
  Forall (fun kv => (2 <= i2_ncols (snd kv))%nat) (exodus_io.or_empty ssets).
Proof.
  intros H.
  destruct (write_stages _ _ _ _ _ _ _ _ _ H)
    as (c1 & c2 & c3 & c4 & c5 & _ & _ & _ & _ & _ & E6).
  unfold exodus_io.write_ssets in E6.
  destruct (exodus_io.or_empty ssets) as [|kv ssets'] eqn:S; [constructor|].
  rewrite <- S in *.
  replace (0 <? length (exodus_io.or_empty ssets))%nat with true in E6
    by (rewrite S; reflexivity).
  repeat bind_ok E6.
  exact (loop_accepts (@exodus_io.write_sset F)
           (fun kv => (2 <= i2_ncols (snd kv))%nat)
           write_sset_columns _ _ _ _ E6).
Qed.

(** *** The dtype of the point data *)

Lemma name_of_code (name code : string) (d : dtype) :
  exodus_dtype name = Ok code -> exodus_io.code_dtype code = Ok d ->
  name = dtype_name d.
Proof.
  unfold exodus_dtype, numpy_to_exodus_dtype. intros E1 E2.
  rewrite !dict_get_cons_string in E1.
  repeat match type of E1 with
         | context [(?lit =? name)] =>
             destruct (String.eqb_spec lit name) as [<-|];
             [injection E1 as <-; vm_compute in E2; injection E2 as <-;
              reflexivity|]
         end.
  discriminate E1.
Qed.

Lemma mapM_Forall2 {X Y} (f : X -> result Y) (xs : list X) (ys : list Y) :
  mapM f xs = Ok ys -> Forall2 (fun x y => f x = Ok y) xs ys.
Proof.
  revert ys. induction xs as [|x xs IH]; intros ys H; simpl in H.
  - injection H as <-. constructor.
  - destruct (f x) as [y|] eqn:E; cbn [bind] in H; [|discriminate H].
    destruct (mapM f xs) as [ys'|]; cbn [bind] in H; [|discriminate H].
    injection H as <-. constructor; [exact E | exact (IH _ eq_refl)].
Qed.

(** X24. The point data are stored in the dtype of the first field:
    [vals_nod_var] is created with that dtype, and it holds one time
    step whose rows are the fields in order, each converted to that
    dtype and one value per point (a field of one value is
    broadcast). *)
Theorem write_stores_point_data_in_dtype_of_first_field title points cells
    name0 field0 rest cell_data field_data nsets ssets (c : container) :
  write title points cells (Some ((name0, field0) :: rest)) cell_data
    field_data nsets ssets = Ok c ->
  exists d rows,
    exodus_io.f1_dtype field0 = dtype_name d
    /\ dict_get "vals_nod_var" (exodus_io.c_vars c)
       = Some (exodus_io.Var ["time_step"; "num_nod_var"; "num_nodes"] None
                 (exodus_io.Num3 d [rows]))
    /\ Forall2
         (fun data row =>
            broadcast_to (length (exodus_io.f2_rows points))
              (map (exodus_io.convert_named cast (exodus_io.f1_dtype data) d)
                   (exodus_io.f1_items data))
            = Ok row)
         (field0 :: values rest) rows.
Proof.
  intros H.
  destruct (write_stages _ _ _ _ _ _ _ _ _ H)
    as (c1 & c2 & c3 & c4 & c5 & E1 & E2 & E3 & E4 & E5 & E6).
  cbn [exodus_io.or_empty] in E4.
  unfold exodus_io.write_point_data in E4.
  cbn [length Nat.ltb Nat.leb values map snd] in E4.
  repeat bind_ok E4.
  match goal with
  | X1 : exodus_dtype _ = Ok _, X2 : exodus_io.code_dtype _ = Ok ?d,
    X3 : mapM _ _ = Ok ?rows |- _ =>
      exists d, rows; split; [exact (name_of_code _ _ _ X1 X2)|];
      apply mapM_Forall2 in X3
  end.
  pose proof (createVariable_get F _ _ _ _ _ _ E4) as G.
  assert (Nn : dict_get "num_nodes" (exodus_io.c_dims c3)
               = Some (length (exodus_io.f2_rows points))).
  { apply (grows_dim exodus_io.any_name exodus_io.any_name
             (exodus_io.Container (exodus_io.global_attrs title)
                (exodus_io.fixed_dims (length (exodus_io.f2_rows points))
                   (exodus_io.total_num_elems cells) (length cells)
                   (length (exodus_io.or_empty nsets))
                   (length (exodus_io.or_empty ssets))) []) c3);
      [any_grows | reflexivity]. }
  match goal with
  | X : exodus_io.dim_len "num_nodes" ?a = Ok ?n,
    D : exodus_io.createDimension "num_nod_var" _ c3 = Ok ?a0,
    V : exodus_io.createVariable "name_nod_var" _ _ _ ?a0 = Ok ?a |- _ =>
      assert (n = length (exodus_io.f2_rows points));
      [apply (createDimension_grows exodus_io.any_name exodus_io.any_name) in D;
         [|reflexivity];
       apply (createVariable_grows exodus_io.any_name exodus_io.any_name) in V;
         [|reflexivity];
       apply (dim_len_get F) in X;
       pose proof (grows_dim _ _ _ _ _ _ (grows_trans _ _ _ _ _ D V) Nn) as Nn';
       congruence
      |subst n]
  end.
  split; [|assumption].
  apply (grows_var exodus_io.any_name exodus_io.any_name c4 c);
    [any_grows | exact G].
Qed.

(** *** The node sets *)

Lemma nset_declared_mono k kv (c c' : container) :
  exodus_io.nset_declared k kv c ->
  grows exodus_io.any_name exodus_io.any_name c c' ->
  exodus_io.nset_declared k kv c'.
Proof. intros D G. exact (grows_dim _ _ _ _ _ _ G D). Qed.

Lemma write_nset_declares (c : container) kx (c' : container) :
  exodus_io.write_nset c kx = Ok c' ->
  grows exodus_io.any_name exodus_io.any_name c c'
  /\ exodus_io.nset_declared (fst kx) (snd kx) c'.
Proof.
  destruct kx as [k [key values]]. unfold exodus_io.write_nset. intros H.
  repeat bind_ok H.
  match goal with
  | D : exodus_io.createDimension _ _ c = Ok ?a |- _ =>
      pose proof (createDimension_get _ _ _ _ D) as G;
      apply (createDimension_grows exodus_io.any_name exodus_io.any_name) in D;
        [|reflexivity];
      apply (createVariable_grows exodus_io.any_name exodus_io.any_name) in H;
        [|reflexivity];
      split; [exact (grows_trans _ _ _ _ _ D H)
             | exact (grows_dim _ _ _ _ _ _ H G)]
  end.
Qed.

(** X25. Node sets on disk.  For node sets with ASCII names of at
    most 33 characters, [write] stores the names in the rows of
    [ns_names], each followed by fill values, numbers the sets 0, 1,
    ... in [ns_prop1], and declares for the [k]-th set the dimension
    [num_nod_ns<k+1>] with the number of its nodes. *)
Theorem write_names_the_node_sets title points cells point_data cell_data
    field_data (nsets : dict pystr iarray1) ssets (c : container) :
  nsets <> [] ->
  Forall exodus_io.name_ok (keys nsets) ->
  write title points cells point_data cell_data field_data (Some nsets) ssets
  = Ok c ->
  dict_get "ns_names" (exodus_io.c_vars c)
  = Some (exodus_io.Var ["num_node_sets"; "len_string"] None
            (exodus_io.Char2 33 (map (exodus_io.padded 33) (keys nsets))))
  /\ dict_get "ns_prop1" (exodus_io.c_vars c)
     = Some (exodus_io.Var ["num_node_sets"] None
               (exodus_io.put_range F int32 (length nsets)))
  /\ forall k kv, nth_error nsets k = Some kv -> exodus_io.nset_declared k kv c.
Proof.
  intros NE A H.
  destruct (write_stages _ _ _ _ _ _ _ _ _ H)
    as (c1 & c2 & c3 & c4 & c5 & E1 & E2 & E3 & E4 & E5 & E6).
  cbn [exodus_io.or_empty] in *.
  assert (G4 : grows exodus_io.any_name exodus_io.any_name
                 (exodus_io.Container (exodus_io.global_attrs title)
                    (exodus_io.fixed_dims (length (exodus_io.f2_rows points))
                       (exodus_io.total_num_elems cells) (length cells)
                       (length nsets) (length (exodus_io.or_empty ssets))) [])
                 c4) by any_grows.
  assert (L1 : exodus_io.dim_len "num_node_sets" c4 = Ok (length nsets))
    by (apply (dim_len_get F), (grows_dim _ _ _ _ _ _ G4); reflexivity).
  assert (L2 : exodus_io.dim_len "len_string" c4 = Ok 33%nat)
    by (apply (dim_len_get F), (grows_dim _ _ _ _ _ _ G4); reflexivity).
  unfold exodus_io.write_nsets in E5.
  replace (0 <? length nsets)%nat with true in E5
    by (destruct nsets; [congruence | reflexivity]).
  unfold exodus_io.blank_chars in E5. rewrite L1, L2 in E5.
  cbn [exodus_io.code_dtype dtype_of_code String.eqb Ascii.eqb Bool.eqb bind]
    in E5.
  replace (length nsets) with (length (keys nsets)) in E5 at 1
    by (unfold keys; apply length_map).
  rewrite (write_names_ascii strict_bounds (keys nsets) 33) in E5
    by (apply Forall_impl with (2 := A); intros name [? ?]; auto).
  cbn [bind] in E5. repeat bind_ok E5.
  destruct (loop_declares (@exodus_io.write_nset F)
              (@exodus_io.nset_declared F)
              write_nset_declares nset_declared_mono _ _ _ _ E5) as [G5 Q].
  any_grows.
  match goal with
  | V1 : exodus_io.createVariable "ns_prop1" _ _ _ _ = Ok ?a,
    V2 : exodus_io.createVariable "ns_names" _ _ _ ?a = Ok ?b |- _ =>
      pose proof (createVariable_get F _ _ _ _ _ _ V1) as P1;
      pose proof (createVariable_get F _ _ _ _ _ _ V2) as P2;
      apply (createVariable_grows exodus_io.any_name exodus_io.any_name) in V2;
        [|reflexivity];
      apply (grows_var _ _ _ _ _ _ V2) in P1;
      apply (grows_var _ _ _ _ _ _ (grows_trans _ _ _ _ _ G5 E6)) in P1, P2
  end.
  split; [exact P2|]. split; [exact P1|].
  intros k kv G. exact (nset_declared_mono _ _ _ _ (Q _ _ G) E6).
Qed.

(** *** Names outside ASCII *)

Lemma first_byte_range (c : Z) (bytes : list Z) :
  utf8_encode_char c = Ok bytes ->
  (first_byte c = c /\ (0 <= c < 128)%Z)
  \/ ((194 <= first_byte c <= 244)%Z /\ (128 <= c)%Z).
Proof.
  unfold first_byte, utf8_encode_char.
  destruct (Z.ltb_spec c 0); [discriminate|].
  destruct (Z.ltb_spec c 128); [intros _; left; simpl; lia|].
  destruct (Z.ltb_spec c 2048).
  { intros _. right. cbn [hd]. split; [|lia].
    Z.to_euclidean_division_equations. lia. }
  destruct (Z.ltb_spec c 65536).
  { destruct ((55296 <=? c)%Z && (c <=? 57343)%Z); [discriminate|].
    intros _. right. cbn [hd]. split; [|lia].
    Z.to_euclidean_division_equations. lia. }
  destruct (Z.ltb_spec c 1114112); [|discriminate].
  intros _. right. cbn [hd]. split; [|lia].
  Z.to_euclidean_division_equations. lia.
Qed.

(** The row that [write_name] makes of a name that fits. *)
Lemma write_name_row (name pre : list Z) (m : nat) (row : list Z) :
  foldM (fun r il => bytes <- utf8_encode_char (snd il) ;;
                     exodus_io.put_cell strict_bounds (fst il) bytes r)
        (enumerate_from (length pre) name) (pre ++ repeat 0%Z m)
  = Ok row ->
  (length name <= m)%nat ->
  row = pre ++ map first_byte name ++ repeat 0%Z (m - length name)
  /\ Forall (fun ch => exists bytes, utf8_encode_char ch = Ok bytes) name.
Proof.
  revert pre m. induction name as [|ch name IH]; intros pre m H L.
  - simpl in H. injection H as <-. simpl. rewrite Nat.sub_0_r. auto.
  - cbn [enumerate_from] in H. rewrite foldM_cons in H. cbn [fst snd] in H.
    destruct (utf8_encode_char ch) as [bytes|] eqn:E; cbn [bind] in H;
      [|discriminate H].
    destruct m as [|m]; [simpl in L; lia|].
    unfold exodus_io.put_cell in H.
    replace (length pre <? length (pre ++ repeat 0%Z (S m)))%nat with true in H
      by (symmetry; apply Nat.ltb_lt; rewrite length_app, repeat_length; lia).
    cbn [repeat bind] in H. rewrite set_nth_middle in H.
    replace (S (length pre)) with (length (pre ++ [hd 0%Z bytes])) in H
      by (rewrite length_app; simpl; lia).
    replace (pre ++ hd 0%Z bytes :: repeat 0%Z m)
      with ((pre ++ [hd 0%Z bytes]) ++ repeat 0%Z m) in H
      by (rewrite <- app_assoc; reflexivity).
    destruct (IH _ _ H ltac:(simpl in L; lia)) as [-> Enc].
    split; [|constructor; eauto].
    rewrite <- app_assoc. cbn [map app length Nat.sub].
    unfold first_byte at 2. rewrite E. reflexivity.
Qed.

Lemma decode_fails (bs : list Z) :
  Forall (fun b => (0 < b < 128)%Z \/ (194 <= b <= 244)%Z) bs ->
  Exists (fun b => (194 <= b)%Z) bs ->
  utf8_decode bs = Raise UnicodeError.
Proof.
  induction 1 as [|b0 t0 R0 Rt IH]; intros X; [inversion X|].
  cbn [utf8_decode].
  destruct R0 as [R0|R0].
  - replace ((0 <=? b0)%Z && (b0 <? 128)%Z) with true
      by (symmetry; apply andb_true_iff; split;
          [apply Z.leb_le | apply Z.ltb_lt]; lia).
    inversion X as [? ? B|? ? X']; subst; [lia|].
    rewrite (IH X'). reflexivity.
  - replace ((0 <=? b0)%Z && (b0 <? 128)%Z) with false
      by (symmetry; apply andb_false_iff; right; apply Z.ltb_ge; lia).
    assert (NC : forall b1, ((0 < b1 < 128)%Z \/ (194 <= b1 <= 244)%Z) ->
                            is_cont b1 = false).
    { intros b1 [B|B]; unfold is_cont; apply andb_false_iff;
        [left; apply Z.leb_gt | right; apply Z.leb_gt]; lia. }
    destruct ((194 <=? b0)%Z && (b0 <=? 223)%Z).
    { destruct Rt as [|b1 t1 R1 _]; [reflexivity|].
      rewrite (NC b1 R1). reflexivity. }
    destruct ((224 <=? b0)%Z && (b0 <=? 239)%Z).
    { destruct Rt as [|b1 t1 R1 Rt]; [reflexivity|].
      destruct Rt as [|b2 t2 R2 _]; [reflexivity|].
      rewrite (NC b1 R1). reflexivity. }
    destruct ((240 <=? b0)%Z && (b0 <=? 244)%Z); [|reflexivity].
    destruct Rt as [|b1 t1 R1 Rt]; [reflexivity|].
    destruct Rt as [|b2 t2 R2 Rt]; [reflexivity|].
    destruct Rt as [|b3 t3 R3 _]; [reflexivity|].
    rewrite (NC b1 R1). reflexivity.
Qed.

(** The bytes that [read] joins from the row of a name with a letter
    outside ASCII are not UTF-8. *)
Lemma row_of_non_ascii_name (name : pystr) (m : nat) :
  Forall (fun ch => exists bytes, utf8_encode_char ch = Ok bytes) name ->
  Exists (fun ch => (128 <= ch)%Z) name ->
  utf8_decode (exodus_io.join_cells (map first_byte name ++ repeat 0%Z m))
  = Raise UnicodeError.
Proof.
  intros Enc X. unfold exodus_io.join_cells. rewrite flat_map_app.
  fold (exodus_io.join_cells (repeat 0%Z m)).
  rewrite join_cells_fill, app_nil_r.
  apply decode_fails.
  - clear X. induction Enc as [|ch name [bytes E] _ IH]; [constructor|].
    cbn [map flat_map].
    destruct (Z.eqb_spec (first_byte ch) 0); [exact IH|].
    cbn [app]. constructor; [|exact IH].
    destruct (first_byte_range ch bytes E) as [[Eq R]|[R _]]; [left | right];
      lia.
  - induction X as [ch name B|ch name _ IH].
    + inversion Enc as [|? ? [bytes E] _]; subst. cbn [map flat_map].
      destruct (first_byte_range ch bytes E) as [[_ R]|[R _]]; [lia|].
      destruct (Z.eqb_spec (first_byte ch) 0); [lia|].
      cbn [app]. apply Exists_cons_hd. lia.
    + inversion Enc as [|? ? _ Enc']; subst. cbn [map flat_map].
      apply Exists_app. right. exact (IH Enc').
Qed.

Lemma mapM_raises {X Y} (f : X -> result Y) (x : X) (xs : list X) (e0 : error) :
  In x xs -> f x = Raise e0 -> exists e, mapM f xs = Raise e.
Proof.
  intros I R. induction xs as [|y xs IH]; [contradiction|].
  cbn [mapM]. destruct I as [->|I].
  - rewrite R. cbn [bind]. eauto.
  - destruct (f y); cbn [bind]; [|eauto].
    destruct (IH I) as [e ->]. cbn [bind]. eauto.
Qed.

Lemma Forall2_In_l {X Y} (R : X -> Y -> Prop) (xs : list X) (ys : list Y)
    (x : X) :
  Forall2 R xs ys -> In x xs -> exists y, In y ys /\ R x y.
Proof.
  induction 1 as [|x' y' xs ys Rxy _ IH]; [contradiction|].
  intros [->|I]; [exists y'; simpl; auto|].
  destruct (IH I) as (y & Iy & Ry). exists y. simpl. auto.
Qed.

Lemma In_combine_repeat {X Y} (b : X) (y : Y) (ys : list Y) :
  In y ys -> In (b, y) (combine (repeat b (length ys)) ys).
Proof.
  induction ys as [|y' ys IH]; [contradiction|].
  intros [->|I]; simpl; auto.
Qed.

(** X26. A field name with a letter outside ASCII is written, one
    byte per letter, but cannot be read back: each cell keeps the
    first byte of the encoding of its letter only, the bytes of the
    row are not UTF-8 any more, and [read] raises on the file that
    [write] returned. *)
Theorem write_of_non_ascii_name_is_not_read_back title points cells
    (pd : dict pystr (exodus_io.farray1 F)) cell_data field_data nsets ssets
    (name : pystr) (c : container) :
  In name (keys pd) ->
  (length name <= 33)%nat ->
  Exists (fun ch => (128 <= ch)%Z) name ->
  write title points cells (Some pd) cell_data field_data nsets ssets = Ok c ->
  exists e, exodus_io.read fzero cast c = Raise e.
Proof.
  intros I L X H.
  destruct (write_stages _ _ _ _ _ _ _ _ _ H)
    as (c1 & c2 & c3 & c4 & c5 & E1 & E2 & E3 & E4 & E5 & E6).
  cbn [exodus_io.or_empty] in E4.
  assert (G3 : grows exodus_io.any_name exodus_io.any_name
                 (exodus_io.Container (exodus_io.global_attrs title)
                    (exodus_io.fixed_dims (length (exodus_io.f2_rows points))
                       (exodus_io.total_num_elems cells) (length cells)
                       (length (exodus_io.or_empty nsets))
                       (length (exodus_io.or_empty ssets))) [])
                 c3) by any_grows.
  assert (L2 : dict_get "len_string" (exodus_io.c_dims c3) = Some 33%nat)
    by (apply (grows_dim _ _ _ _ _ _ G3); reflexivity).
  unfold exodus_io.write_point_data in E4.
  replace (0 <? length pd)%nat with true in E4
    by (destruct pd; [contradiction | reflexivity]).
  bind_ok E4.
  match goal with
  | D : exodus_io.createDimension "num_nod_var" _ c3 = Ok ?a |- _ =>
      pose proof (createDimension_get _ _ _ _ D) as Dn;
      pose proof (grows_dim _ _ _ _ _ _
                    (createDimension_grows exodus_io.any_name
                       exodus_io.any_name _ _ _ _ eq_refl D) L2) as Dl
  end.
  unfold exodus_io.blank_chars, exodus_io.dim_len in E4.
  rewrite Dn, Dl in E4. cbn [bind] in E4.
  bind_ok E4.
  match goal with
  | W : exodus_io.write_names _ _ _ = Ok ?rows |- _ =>
      unfold exodus_io.write_names in W; apply mapM_Forall2 in W;
      replace (length pd) with (length (keys pd)) in W
        by (unfold keys; apply length_map);
      destruct (Forall2_In_l _ _ _ _ W (In_combine_repeat (repeat 0%Z 33) name _ I))
        as (row & Ir & Wr)
  end.
  cbn [fst snd] in Wr. unfold exodus_io.write_name, enumerate in Wr.
  destruct (write_name_row name [] 33 row Wr L) as [-> Enc].
  cbn [app] in Ir.
  bind_ok E4.
  match goal with
  | V : exodus_io.createVariable "name_nod_var" _ _ _ _ = Ok ?a |- _ =>
      pose proof (createVariable_get F _ _ _ _ _ _ V) as Gn;
      apply (createVariable_grows exodus_io.any_name exodus_io.any_name) in V;
        [|reflexivity]
  end.
  repeat bind_ok E4.
  apply (createVariable_grows exodus_io.any_name exodus_io.any_name) in E4;
    [|reflexivity].
  any_grows.
  apply (grows_var _ _ _ _ _ _
           (grows_trans _ _ _ _ _ E4 (grows_trans _ _ _ _ _ E5 E6))) in Gn.
  apply dict_get_In in Gn.
  apply (read_raises_on_variable F fzero cast c _ Gn).
  intros st. unfold exodus_io.read_step.
  cbn [substring String.eqb Ascii.eqb Bool.eqb exodus_io.v_data].
  destruct (mapM_raises (fun r => utf8_decode (exodus_io.join_cells r)) _ _
              UnicodeError Ir (row_of_non_ascii_name name _ Enc X)) as [e ->].
  exists e. reflexivity.
Qed.
End WritingFurther.

(** ** The further properties on sample data *)

(** A file name with the extension of Exodus. *)
Lemma read_finds_reader_for_deduced_format_witness :
  helpers._filetype_from_filename "mesh.e" = Ok "exodus"
  /\ exists c,
       dict_get "exodus" helpers.format_to_reader = Some c
       /\ helpers.read "mesh.e" None = Ok c
       /\ helpers.read "mesh.e" (Some "") = Ok c.
Proof.
  split; [reflexivity|].
  apply (read_finds_reader_for_deduced_format "mesh.e" "exodus"). reflexivity.
Defined.

(** A file in a directory whose name has a dot. *)
Lemma known_last_extension_decides_witness :
  helpers.contains_dot "vtu" = false
  /\ dict_get ".vtu" helpers._extension_to_filetype = Some "vtu-binary"
  /\ helpers._filetype_from_filename "run.2024/mesh.vtu" = Ok "vtu-binary".
Proof.
  split; [reflexivity|]. split; [reflexivity|].
  apply (known_last_extension_decides "run.2024/mesh" "vtu" "vtu-binary");
    reflexivity.
Defined.

(** The triangle and the tetrahedron, to a Gmsh file. *)
Lemma write_uses_the_codec_of_read_witness :
  Forall (helpers.checked samples.num_nodes_per_cell) samples.triangle_and_tetra
  /\ helpers._filetype_from_filename "mesh.msh" = Ok "gmsh-binary"
  /\ helpers.read "mesh.msh" None = Ok helpers.gmsh_io
  /\ samples.dispatch "mesh.msh" samples.triangle_and_tetra None
     = Ok (helpers.Call helpers.gmsh_io "mesh.msh" samples.triangle_and_tetra
             (Some true)).
Proof.
  assert (H1 : Forall (helpers.checked samples.num_nodes_per_cell)
                      samples.triangle_and_tetra)
    by (repeat constructor).
  split; [exact H1|]. split; [reflexivity|].
  destruct (write_uses_the_codec_of_read _ (fun mesh => mesh)
              samples.num_nodes_per_cell "mesh.msh" samples.triangle_and_tetra
              "gmsh-binary" H1 eq_refl) as (c & R & W).
  assert (Ec : c = helpers.gmsh_io)
    by (vm_compute in R; injection R as <-; reflexivity).
  subst c. split; [exact R | exact W].
Defined.

(** The same mesh, to a VTK file. *)
Lemma write_reaches_a_codec_with_checked_cells_witness :
  samples.dispatch "mesh.vtk" samples.triangle_and_tetra None
  = Ok (helpers.Call helpers.vtk_io "mesh.vtk" samples.triangle_and_tetra
          (Some true))
  /\ (exists fmt, helpers.deduce "mesh.vtk" None = Ok fmt)
  /\ Forall (helpers.checked samples.num_nodes_per_cell)
            samples.triangle_and_tetra.
Proof.
  assert (H : samples.dispatch "mesh.vtk" samples.triangle_and_tetra None
              = Ok (helpers.Call helpers.vtk_io "mesh.vtk"
                      samples.triangle_and_tetra (Some true))) by reflexivity.
  split; [exact H|].
  destruct (write_reaches_a_codec_with_checked_cells _ (fun mesh => mesh)
              samples.num_nodes_per_cell _ _ _ _ H) as (D & C & _).
  split; [exact D | exact C].
Defined.

(** The two blocks of quadrilaterals, read. *)
Lemma read_cell_types_are_block_types_witness :
  exists r,
    samples.read samples.two_quad_blocks = Ok r
    /\ dict_mem "quad" (exodus_io.cells_of r) = true
    /\ dict_mem "triangle" (exodus_io.cells_of r) = false
    /\ dict_mem "quad" (exodus_io.cells_of r)
       = existsb (exodus_io.is_block_of "quad")
                 (exodus_io.c_vars samples.two_quad_blocks).
Proof.
  eexists. split; [vm_compute; reflexivity|].
  split; [reflexivity|]. split; [reflexivity|].
  apply (read_cell_types_are_block_types Z 0%Z astype samples.two_quad_blocks).
  vm_compute. reflexivity.
Defined.

Lemma read_keeps_every_element_witness :
  exists r,
    samples.read samples.two_quad_blocks = Ok r
    /\ list_sum (map (@exodus_io.block_rows Z)
                     (exodus_io.c_vars samples.two_quad_blocks)) = 3%nat
    /\ exodus_io.total_num_elems (exodus_io.cells_of r)
       = list_sum (map (@exodus_io.block_rows Z)
                       (exodus_io.c_vars samples.two_quad_blocks)).
Proof.
  eexists. split; [vm_compute; reflexivity|]. split; [reflexivity|].
  apply (read_keeps_every_element Z 0%Z astype samples.two_quad_blocks).
  vm_compute. reflexivity.
Defined.

Lemma read_returns_types_that_write_accepts_witness :
  exists r,
    samples.read samples.two_quad_blocks = Ok r
    /\ dict_mem "quad" (exodus_io.cells_of r) = true
    /\ exists tag,
         exodus_io.to_disk "quad" = Ok tag
         /\ exodus_io.to_canonical tag = Ok "quad".
Proof.
  eexists. split; [vm_compute; reflexivity|]. split; [reflexivity|].
  eapply (read_returns_types_that_write_accepts Z 0%Z astype
            samples.two_quad_blocks _ "quad"); vm_compute; reflexivity.
Defined.

(** A block of spheres. *)
Lemma read_rejects_unregistered_element_type_witness :
  In ("connect1", samples.connect 0 "SPHERE" 1 [[1]]%Z)
     (exodus_io.c_vars samples.sphere_block)
  /\ substring 0 7 "connect1" = "connect"
  /\ is_ascii "SPHERE" = true
  /\ dict_get (upper "SPHERE") exodus_io.exodus_to_meshio_type = None
  /\ exists e, samples.read samples.sphere_block = Raise e.
Proof.
  assert (H1 : In ("connect1", samples.connect 0 "SPHERE" 1 [[1]]%Z)
                  (exodus_io.c_vars samples.sphere_block))
    by (left; reflexivity).
  split; [exact H1|]. split; [reflexivity|]. split; [reflexivity|].
  split; [reflexivity|].
  apply (read_rejects_unregistered_element_type Z 0%Z astype
           samples.sphere_block "connect1" _ H1); [reflexivity|].
  split; reflexivity.
Defined.

Lemma read_needs_a_first_time_step_witness :
  In ("vals_nod_var", samples.vals [])
     (exodus_io.c_vars samples.no_time_step)
  /\ exists e, samples.read samples.no_time_step = Raise e.
Proof.
  assert (H1 : In ("vals_nod_var", samples.vals [])
                  (exodus_io.c_vars samples.no_time_step))
    by (right; left; reflexivity).
  split; [exact H1|].
  exact (read_needs_a_first_time_step Z 0%Z astype samples.no_time_step
           _ _ _ H1).
Defined.

(** Two points whose x and y are stored, the latter in single
    precision. *)
Lemma read_takes_coordinates_by_component_witness :
  NoDup (keys (exodus_io.c_vars samples.by_component))
  /\ dict_get "coord" (exodus_io.c_vars samples.by_component) = None
  /\ exists r,
       samples.read samples.by_component = Ok r
       /\ exodus_io.points_of r
          = exodus_io.FArray2 "float64" 3 [[1; 3; 0]; [2; 4; 0]]%Z
       /\ forall j name, In (j, name) exodus_io.axes ->
            exodus_io.column 0%Z j (exodus_io.f2_rows (exodus_io.points_of r))
            = exodus_io.coordinate astype name (repeat 0%Z 2)
                samples.by_component.
Proof.
  assert (H1 : NoDup (keys (exodus_io.c_vars samples.by_component)))
    by sample.
  assert (H2 : dict_get "coord" (exodus_io.c_vars samples.by_component) = None)
    by reflexivity.
  assert (H3 : forall name value d xs,
             In name ["coordx"; "coordy"; "coordz"] ->
             dict_get name (exodus_io.c_vars samples.by_component) = Some value ->
             exodus_io.v_data value = exodus_io.Num1 d xs -> length xs = 2%nat).
  { intros name value d xs I G D. simpl in I.
    destruct I as [<-|[<-|[<-|[]]]]; vm_compute in G; try discriminate G;
      injection G as <-; injection D as _ <-; reflexivity. }
  split; [exact H1|]. split; [exact H2|].
  eexists. split; [vm_compute; reflexivity|]. split; [reflexivity|].
  apply (read_takes_coordinates_by_component Z 0%Z astype samples.by_component
           _ 2 H1 eq_refl H2 H3).
  vm_compute. reflexivity.
Defined.

(** A container of point data only. *)
Lemma read_without_coordinates_gives_zeros_witness :
  forallb (fun kv => negb (exodus_io.is_coordinate (fst kv)))
          (exodus_io.c_vars samples.three_time_steps) = true
  /\ exists r,
       samples.read samples.three_time_steps = Ok r
       /\ exodus_io.points_of r
          = exodus_io.FArray2 "float64" 3 (repeat [0; 0; 0]%Z 2).
Proof.
  split; [reflexivity|].
  eexists. split; [vm_compute; reflexivity|].
  apply (read_without_coordinates_gives_zeros Z 0%Z astype
           samples.three_time_steps _ 2); vm_compute; reflexivity.
Defined.

(** The triangle with its sets, written. *)
Lemma write_starts_with_the_header_witness :
  exists c,
    samples.write true "sample" samples.points samples.cells
      (Some samples.point_data) None None (Some samples.nsets)
      (Some samples.ssets) = Ok c
    /\ exodus_io.c_attrs c = exodus_io.global_attrs "sample"
    /\ exists more,
         exodus_io.c_dims c = exodus_io.fixed_dims 3 1 1 1 1 ++ more.
Proof.
  eexists. split; [vm_compute; reflexivity|].
  apply (write_starts_with_the_header Z 0%Z astype true "sample" samples.points
           samples.cells (Some samples.point_data) None None
           (Some samples.nsets) (Some samples.ssets)).
  vm_compute. reflexivity.
Defined.

Lemma write_without_point_data_creates_no_field_variable_witness :
  exists c,
    samples.write true "sample" samples.points samples.cells (Some [])
      None None (Some samples.nsets) None = Ok c
    /\ dict_get "name_nod_var" (exodus_io.c_vars c) = None
    /\ dict_get "vals_nod_var" (exodus_io.c_vars c) = None
    /\ dict_get "num_nod_var" (exodus_io.c_dims c) = None
    /\ forall r, samples.read c = Ok r -> exodus_io.point_data_of r = [].
Proof.
  eexists. split; [vm_compute; reflexivity|].
  apply (write_without_point_data_creates_no_field_variable Z 0%Z astype true
           "sample" samples.points samples.cells (Some []) None None
           (Some samples.nsets) None); [reflexivity|].
  vm_compute. reflexivity.
Defined.

Lemma write_read_round_trip_with_sets_witness :
  Forall exodus_io.block_ok samples.cells
  /\ Forall exodus_io.block_plain samples.cells
  /\ exodus_io.points_plain samples.masked float64 samples.points
  /\ Forall (exodus_io.field_plain samples.masked float64)
            (values samples.point_data)
  /\ exists c,
    samples.write true "sample" samples.points samples.cells
      (Some samples.point_data) None None (Some samples.nsets)
      (Some samples.ssets) = Ok c
    /\ dict_mem "node_ns1" (exodus_io.c_vars c) = true
    /\ dict_mem "side_ss1" (exodus_io.c_vars c) = true
    /\ exodus_io.plain samples.masked c
    /\ samples.read c
       = Ok (samples.mesh samples.points samples.cells samples.point_data []).
Proof.
  split; [sample|]. split; [exact sample_blocks_plain|].
  split; [exact sample_points_plain|]. split; [exact sample_fields_plain|].
  eexists. split; [vm_compute; reflexivity|].
  split; [reflexivity|]. split; [reflexivity|].
  apply (write_read_round_trip_with_sets Z 0%Z astype true "sample"
           samples.points samples.cells samples.point_data None None
           (Some samples.nsets) (Some samples.ssets) float64 float64
           samples.masked);
    first [ exact sample_blocks_plain | exact sample_points_plain
          | exact sample_fields_plain | solve [sample] ].
Defined.

Lemma write_declares_each_block_witness :
  exists c,
    samples.write true "sample" samples.points samples.cells None None None
      None None = Ok c
    /\ exodus_io.to_disk "triangle" = Ok "TRI3"
    /\ forall k kv, nth_error samples.cells k = Some kv ->
                    exodus_io.block_declared k kv c.
Proof.
  eexists. split; [vm_compute; reflexivity|]. split; [reflexivity|].
  apply (write_declares_each_block Z 0%Z astype true "sample" samples.points
           samples.cells None None None None None).
  vm_compute. reflexivity.
Defined.

Lemma write_numbers_the_blocks_witness :
  exists c,
    samples.write true "sample" samples.points samples.cells None None None
      None None = Ok c
    /\ exists ids,
         dict_get "eb_prop1" (exodus_io.c_vars c)
         = Some (exodus_io.Var ["num_el_blk"] None (exodus_io.Idx1 int32 ids))
         /\ dict_get "num_el_blk" (exodus_io.c_dims c)
            = Some (length samples.cells)
         /\ length ids = length samples.cells
         /\ ((Z.of_nat (length samples.cells) <= 2 ^ 31)%Z ->
             ids = map Z.of_nat (seq 0 (length samples.cells)) /\ NoDup ids).
Proof.
  eexists. split; [vm_compute; reflexivity|].
  apply (write_numbers_the_blocks Z 0%Z astype true "sample" samples.points
           samples.cells None None None None None).
  vm_compute. reflexivity.
Defined.

(** Points in half precision. *)
Lemma write_rejects_points_of_unknown_dtype_witness :
  dict_get "float16" numpy_to_exodus_dtype = None
  /\ samples.write true "sample" samples.half_points samples.cells None None
       None None None
     = Raise (UnsupportedDtype "float16").
Proof.
  split; [reflexivity|].
  apply (write_rejects_points_of_unknown_dtype Z 0%Z astype true "sample"
           samples.half_points). reflexivity.
Defined.

(** Points in the plane. *)
Lemma write_rejects_points_of_other_width_witness :
  exodus_io.f2_ncols samples.planar_points = 2%nat
  /\ exists e,
       samples.write true "sample" samples.planar_points samples.cells None
         None None None None = Raise e.
Proof.
  split; [reflexivity|].
  apply (write_rejects_points_of_other_width Z 0%Z astype true "sample"
           samples.planar_points); discriminate.
Defined.

Lemma write_needs_two_columns_per_side_set_witness :
  exists c,
    samples.write true "sample" samples.points samples.cells None None None
      None (Some samples.ssets) = Ok c
    /\ Forall (fun kv => (2 <= i2_ncols (snd kv))%nat) samples.ssets.
Proof.
  eexists. split; [vm_compute; reflexivity|].
  eapply (write_needs_two_columns_per_side_set Z 0%Z astype true "sample"
            samples.points samples.cells None None None None
            (Some samples.ssets)).
  vm_compute. reflexivity.
Defined.

(** A field in single precision before one in double precision. *)
Lemma write_stores_point_data_in_dtype_of_first_field_witness :
  exists c,
    samples.write true "sample" samples.points samples.cells
      (Some samples.mixed_fields) None None None None = Ok c
    /\ dict_get "vals_nod_var" (exodus_io.c_vars c)
       = Some (exodus_io.Var ["time_step"; "num_nod_var"; "num_nodes"] None
                 (exodus_io.Num3 float32 [[[10; 20; 30]; [1; 2; 3]]%Z]))
    /\ exists d rows,
         "float32" = dtype_name d
         /\ dict_get "vals_nod_var" (exodus_io.c_vars c)
            = Some (exodus_io.Var ["time_step"; "num_nod_var"; "num_nodes"] None
                      (exodus_io.Num3 d [rows]))
         /\ length rows = 2%nat.
Proof.
  eexists. split; [vm_compute; reflexivity|]. split; [reflexivity|].
  destruct (write_stores_point_data_in_dtype_of_first_field Z 0%Z astype true
              "sample" samples.points samples.cells (pystr_of_string "t")
              (exodus_io.FArray1 "float32" [10; 20; 30]%Z)
              [(pystr_of_string "p", exodus_io.FArray1 "float64" [1; 2; 3]%Z)]
              None None None None _ ltac:(vm_compute; reflexivity))
    as (d & rows & D & G & R).
  exists d, rows. split; [exact D|]. split; [exact G|].
  apply Forall2_length in R. symmetry. exact R.
Defined.

Lemma write_names_the_node_sets_witness :
  samples.nsets <> []
  /\ Forall exodus_io.name_ok (keys samples.nsets)
  /\ exists c,
       samples.write true "sample" samples.points samples.cells None None
         None (Some samples.nsets) None = Ok c
       /\ dict_get "ns_names" (exodus_io.c_vars c)
          = Some (exodus_io.Var ["num_node_sets"; "len_string"] None
                    (exodus_io.Char2 33 [samples.row "left"]))
       /\ dict_get "ns_prop1" (exodus_io.c_vars c)
          = Some (exodus_io.Var ["num_node_sets"] None
                    (exodus_io.Idx1 int32 [0]%Z))
       /\ forall k kv, nth_error samples.nsets k = Some kv ->
                       exodus_io.nset_declared k kv c.
Proof.
  assert (H1 : samples.nsets <> []) by discriminate.
  assert (H2 : Forall exodus_io.name_ok (keys samples.nsets)) by sample.
  split; [exact H1|]. split; [exact H2|].
  eexists. split; [vm_compute; reflexivity|].
  apply (write_names_the_node_sets Z 0%Z astype true "sample" samples.points
           samples.cells None None None samples.nsets None _ H1 H2).
  vm_compute. reflexivity.
Defined.

(** A field named by the letter e with an acute accent. *)
Lemma write_of_non_ascii_name_is_not_read_back_witness :
  In [233]%Z (keys samples.accented)
  /\ Exists (fun ch => (128 <= ch)%Z) [233]%Z
  /\ exists c,
       samples.write true "sample" samples.points samples.cells
         (Some samples.accented) None None None None = Ok c
       /\ samples.read c = Raise UnicodeError
       /\ exists e, samples.read c = Raise e.
Proof.
  assert (H1 : In [233]%Z (keys samples.accented)) by (left; reflexivity).
  assert (H2 : Exists (fun ch => (128 <= ch)%Z) [233]%Z)
    by (constructor; lia).
  split; [exact H1|]. split; [exact H2|].
  eexists. split; [vm_compute; reflexivity|].
  split; [vm_compute; reflexivity|].
  apply (write_of_non_ascii_name_is_not_read_back Z 0%Z astype true "sample"
           samples.points samples.cells samples.accented None None None None
           [233]%Z _ H1 ltac:(simpl; lia) H2).
  vm_compute. reflexivity.
Defined.
